(** * flow-agent-x: the container executor (package executor) and its domain types

    A shallow embedding of [DockerExecutor] (Init, Start and their private
    methods), of the constants of package [domain], and of the few functions
    of Go's standard library the executor relies on.

    - Go strings are [string]; Go [int] values are [Z] (no arithmetic is
      done on them, so no wrap-around is involved).
    - [map[string]string] (domain.Variables) is [gmap string string].
    - A method that mutates the receiver is a function on the executor
      state; a method that can panic runs in the monad [M], whose outcomes
      are a normal return, a panic carrying the Go [error], or [Spin] for a
      polling loop that has not ended within the given fuel.
    - The Docker daemon is an oracle: a record giving, for the history of
      events so far, the answer to every client call.  Every call made is
      appended to the executor's [trace], with the context it was made
      under.
    - Output of the logger (util.LogInfo and friends) is not modelled. *)

From Stdlib Require Import ZArith String Ascii List Bool Lia.
From stdpp Require Import base strings gmap list.
Import ListNotations.
Open Scope string_scope.
Open Scope list_scope.
Open Scope Z_scope.

(* ================================================================== *)
(** ** Go's standard library: errors, contexts, strings, path/filepath *)
(* ================================================================== *)

Module gostd.

(** The [error] values the executor tells apart: the two sentinels of
    package context (compared with [==] in handleErrors), the client's
    not-found error (recognised by client.IsErrContainerNotFound), the
    runtime error of a nil dereference, and any other error, which is
    known by its message only. *)
Inductive error : Type :=
| DeadlineExceeded
| Canceled
| ErrContainerNotFound (id : string)
| ErrNilPointer
| ErrOther (msg : string).

(** err.Error() *)
Definition Error (e : error) : string :=
  match e with
  | DeadlineExceeded => "context deadline exceeded"
  | Canceled => "context canceled"
  | ErrContainerNotFound id => "Error: No such container: " +:+ id
  | ErrNilPointer => "runtime error: invalid memory address or nil pointer dereference"
  | ErrOther msg => msg
  end.

#[global] Instance error_eq_dec : EqDecision error.
Proof. solve_decision. Defined.

(** A Go call returning [(value, err)]: the value counts only when
    [err == nil]. *)
Inductive result (A : Type) : Type :=
| Ok (a : A)
| Err (e : error).
Arguments Ok {A} a.
Arguments Err {A} e.

(** context.Context, as far as the executor sees it: the job-scoped
    handle given at construction, or context.Background(). *)
Inductive Context : Type :=
| Background
| JobContext.

#[global] Instance Context_eq_dec : EqDecision Context.
Proof. solve_decision. Defined.

(** time.Time as nanoseconds; time.Duration likewise. *)
Definition Time := Z.
Definition Duration := Z.
Definition Second : Duration := 1000000000.

(** strings.HasPrefix *)
Fixpoint HasPrefix (s prefix : string) : bool :=
  match prefix, s with
  | EmptyString, _ => true
  | String p prefix', String c s' => Ascii.eqb p c && HasPrefix s' prefix'
  | String _ _, EmptyString => false
  end.

(** strings.Contains: [substr] occurs in [s]. *)
Fixpoint Contains (s substr : string) : bool :=
  HasPrefix s substr ||
  match s with
  | EmptyString => false
  | String _ s' => Contains s' substr
  end.

(** strings.Split(s, "/"): the fields between separators. *)
Fixpoint splitSep (cur : string) (s : string) : list string :=
  match s with
  | EmptyString => [cur]
  | String c s' =>
      if Ascii.eqb c "/"%char then cur :: splitSep "" s'
      else splitSep (cur +:+ String c "") s'
  end.

(** strings.Join(elems, "/") *)
Fixpoint joinSep (elems : list string) : string :=
  match elems with
  | [] => ""
  | [e] => e
  | e :: rest => e +:+ "/" +:+ joinSep rest
  end.

(** One step of filepath.Clean over the path elements kept so far
    ([out], innermost first): empty and [.] elements are dropped, [..]
    removes the element before it, is kept at the start of a relative
    path, and is dropped at the root. *)
Definition cleanStep (rooted : bool) (out : list string) (elem : string)
  : list string :=
  if String.eqb elem "" then out
  else if String.eqb elem "." then out
  else if String.eqb elem ".." then
    match out with
    | top :: below =>
        if String.eqb top ".." then elem :: out else below
    | [] => if rooted then [] else [elem]
    end
  else elem :: out.

(** filepath.Clean (Unix): the shortest path lexically equivalent to
    [path]. *)
Definition Clean (path : string) : string :=
  match path with
  | EmptyString => "."
  | String c _ =>
      let rooted := Ascii.eqb c "/"%char in
      let kept := rev (fold_left (cleanStep rooted) (splitSep "" path) []) in
      if rooted then "/" +:+ joinSep kept
      else match kept with
           | [] => "."
           | _ => joinSep kept
           end
  end.

(** filepath.Join: empty elements before the first non-empty one are
    ignored, the rest is joined with the separator and cleaned; the
    result is empty when every element is. *)
Fixpoint Join (elem : list string) : string :=
  match elem with
  | [] => ""
  | e :: rest =>
      if String.eqb e "" then Join rest else Clean (joinSep elem)
  end.

End gostd.

(* ================================================================== *)
(** ** Package domain (src/domain/cmd.go)                              *)
(* ================================================================== *)

Module domain.

Definition CmdType := string.
Definition CmdStatus := string.

(** shell, kill and close command *)
Definition CmdTypeShell : CmdType := "SHELL".
Definition CmdTypeKill : CmdType := "SHELL".
Definition CmdTypeClose : CmdType := "SHELL".

Definition CmdStatusPending : CmdStatus := "PENDING".
Definition CmdStatusRunning : CmdStatus := "RUNNING".
Definition CmdStatusSuccess : CmdStatus := "SUCCESS".
Definition CmdStatusSkipped : CmdStatus := "SKIPPED".
Definition CmdStatusException : CmdStatus := "EXCEPTION".
Definition CmdStatusKilled : CmdStatus := "KILLED".
Definition CmdStatusTimeout : CmdStatus := "TIMEOUT".

(** default exit code; exit code for timeout, for killed, and for a
    command executed successfully *)
Definition CmdExitCodeUnknow : Z := -1.
Definition CmdExitCodeTimeOut : Z := -100.
Definition CmdExitCodeKilled : Z := -1.
Definition CmdExitCodeSuccess : Z := 0.

(** map[string]string; [None] below stands for the nil map. *)
Abbreviation Variables := (gmap string string).

Record Cmd : Type := {
  ID : string;
  AllowFailure : bool;
  Plugin : string
}.

Definition HasPlugin (cmd : Cmd) : bool := negb (String.eqb (Plugin cmd) "").

(** Modelled from the spec: the container spec of a descriptor (type
    DockerOption is not declared under src/); the fields are the ones
    the executor and its test read. *)
Record DockerOption : Type := {
  Image : string;
  Entrypoint : list string;
  Ports : list string;
  NetworkMode : string;
  IsStopContainer : bool;
  IsDeleteContainer : bool
}.

(** Modelled from the spec: the fields [FlowId], [Docker] and
    [CmdIn_ContainerId] of the descriptor (spec: flowId, docker,
    containerId), which the executor reads and the declaration under
    src/domain/cmd.go does not have yet; the other fields are the
    declared ones.  [Docker] is a pointer (the test builds it as
    &domain.DockerOption{...}; the spec calls the container spec
    optional): [None] is nil. *)
Record CmdIn : Type := {
  CmdIn_Cmd : Cmd;
  Type_ : CmdType;
  Scripts : list string;
  WorkDir : string;
  Timeout : Z;
  Inputs : Variables;
  EnvFilters : list string;
  FlowId : string;
  Docker : option DockerOption;
  CmdIn_ContainerId : string
}.

(** Modelled from the spec: the field [ContainerId] of the result (spec:
    containerId, container mode only), which the executor writes and the
    declaration under src/domain/cmd.go does not have yet; the other
    fields are the declared ones. *)
Record ExecutedCmd : Type := {
  ExecutedCmd_Cmd : Cmd;
  ProcessId : Z;
  Status : CmdStatus;
  Code : Z;
  Output : option Variables;
  StartAt : gostd.Time;
  FinishAt : gostd.Time;
  Error : string;
  LogSize : Z;
  ContainerId : string
}.

(** Modelled from the spec: ExecutedCmd.IsFinishStatus is not under
    src/; "Terminal status: one of Success, Exception, Killed,
    Timeout". *)
Definition IsFinishStatus (e : ExecutedCmd) : bool :=
  String.eqb (Status e) CmdStatusSuccess
  || String.eqb (Status e) CmdStatusException
  || String.eqb (Status e) CmdStatusKilled
  || String.eqb (Status e) CmdStatusTimeout.

(** Modelled from the spec: the names of the two agent variables
    (constants VarAgentJobDir and VarAgentPluginDir are not under
    src/; spec: AGENT_JOB_DIR, AGENT_PLUGIN_DIR). *)
Definition VarAgentJobDir : string := "AGENT_JOB_DIR".
Definition VarAgentPluginDir : string := "AGENT_PLUGIN_DIR".

(** Modelled from the spec: Variables.ToStringArray is not under src/;
    "serialisable as the conventional KEY=VALUE sequence". *)
Definition ToStringArray (v : Variables) : list string :=
  map (fun kv => fst kv +:+ "=" +:+ snd kv) (map_to_list v).

End domain.

(* ================================================================== *)
(** ** The Docker API as the executor uses it                          *)
(* ================================================================== *)

Module types.
Import gostd.

(** io.Reader: the bytes the stream delivers. *)
Definition Reader := string.

Abbreviation PortSet := (gset string).
Abbreviation PortMap := (gmap string (list string)).

Record Volume : Type := { Name : string }.

Record ContainerConfig : Type := {
  Image : string;
  Env : list string;
  Entrypoint : list string;
  ExposedPorts : PortSet;
  Tty : bool;
  AttachStdin : bool;
  AttachStderr : bool;
  AttachStdout : bool;
  OpenStdin : bool;
  StdinOnce : bool;
  WorkingDir : string
}.

Record HostConfig : Type := {
  NetworkMode : string;
  PortBindings : PortMap;
  Binds : list string
}.

Record ExecConfig : Type := {
  ExecTty : bool;
  ExecAttachStdin : bool;
  ExecAttachStderr : bool;
  ExecAttachStdout : bool;
  Cmd : list string
}.

(** types.ContainerJSON, as read by tryToResume: ID and State.Status *)
Record ContainerJSON : Type := { ID : string; StateStatus : string }.

Record ContainerExecInspect : Type := {
  Pid : Z;
  Running : bool;
  ExitCode : Z
}.

(** types.HijackedResponse: the connection (known by the exec session
    it belongs to) and the reader of the session's output *)
Record HijackedResponse : Type := { Conn : string; Reader_ : Reader }.

(** A request sent to the daemon, with the context it is sent under. *)
Inductive Call : Type :=
| ReqImagePull (ctx : Context) (ref : string)
| ReqContainerCreate (ctx : Context) (config : option ContainerConfig)
    (host : option HostConfig)
| ReqContainerStart (ctx : Context) (id : string)
| ReqContainerInspect (ctx : Context) (id : string)
| ReqContainerRestart (ctx : Context) (id : string) (timeout : Duration)
| ReqContainerRemove (ctx : Context) (id : string) (force : bool)
| ReqContainerStop (ctx : Context) (id : string)
| ReqCopyToContainer (ctx : Context) (id dst : string) (content : Reader)
    (allowOverwriteDirWithFile : bool)
| ReqContainerExecCreate (ctx : Context) (id : string) (config : ExecConfig)
| ReqContainerExecAttach (ctx : Context) (execId : string) (config : ExecConfig)
| ReqContainerExecInspect (ctx : Context) (execId : string)
| ReqCopyFromContainer (ctx : Context) (id src : string)
| ReqVolumeList (ctx : Context) (name : string)
| ReqVolumeCreate (ctx : Context) (name : string).

(** What an executor does to the world: requests to the daemon, and the
    steps of BaseExecutor whose bodies are concurrent (wait group, log
    and command writers, sleeping, closing the channels). *)
Inductive Event : Type :=
| EvCall (c : Call)
| EvWgAdd (n : Z)
| EvWriteLog (r : Reader)
| EvWriteCmd (conn : string) (lines : list string)
| EvSleep (dur : Duration)
| EvCloseChannels.

End types.

Module client.
Import gostd types.

(** The daemon behind *client.Client: its answer to each request, given
    the events so far (latest first). *)
Record Client : Type := {
  ImagePull : list Event -> Context -> string -> result Reader;
  ContainerCreate :
    list Event -> Context -> option ContainerConfig -> option HostConfig ->
    result string;
  ContainerStart : list Event -> Context -> string -> option error;
  ContainerInspect : list Event -> Context -> string -> result ContainerJSON;
  ContainerRestart :
    list Event -> Context -> string -> Duration -> option error;
  ContainerRemove : list Event -> Context -> string -> bool -> option error;
  ContainerStop : list Event -> Context -> string -> option error;
  CopyToContainer :
    list Event -> Context -> string -> string -> Reader -> bool -> option error;
  ContainerExecCreate :
    list Event -> Context -> string -> ExecConfig -> result string;
  ContainerExecAttach :
    list Event -> Context -> string -> ExecConfig -> result HijackedResponse;
  ContainerExecInspect :
    list Event -> Context -> string -> result ContainerExecInspect;
  CopyFromContainer : list Event -> Context -> string -> string -> result Reader;
  VolumeList : list Event -> Context -> string -> result (list Volume);
  VolumeCreate : list Event -> Context -> string -> result Volume
}.

(** client.IsErrContainerNotFound *)
Definition IsErrContainerNotFound (err : option error) : bool :=
  match err with
  | Some (ErrContainerNotFound _) => true
  | _ => false
  end.

End client.

(* ================================================================== *)
(** ** Package util                                                    *)
(* ================================================================== *)

Module util.

(** Modelled from the spec: util.IsEmptyString is not under src/; the
    spec's "if containerId is set". *)
Definition IsEmptyString (s : string) : bool := String.eqb s "".

End util.

(* ================================================================== *)
(** ** Package executor: DockerExecutor                                *)
(* ================================================================== *)

Module executor.
Import gostd.
Import types(Reader, Call(..), Event(..)).
Import client(Client).

Definition dockerWorkspace : string := "/ws".
Definition dockerPluginDir : string := dockerWorkspace +:+ "/.plugins".
Definition dockerEnvFile : string := "/tmp/.env".

(** Modelled from the spec: type DockerVolume is not under src/;
    "{name, mountPath, script?}". *)
Record DockerVolume : Type := {
  Name : string;
  Dest : string;
  Script : string
}.

(** What the executor takes from its host and from code that is not
    under src/ and that no property below is about: the client
    constructor, the clock, the variable expansion of package util, the
    port parser of go-connections, the archive of a directory of the
    file system (tarArchiveFromPath walks it), the parser of the
    environment dump, the two path methods of DockerVolume and the
    interpreter's path. *)
Record Host : Type := {
  NewEnvClient : result Client;
  Now : list Event -> Time;
  ParseString : string -> string;
  ParseStringWithSource : string -> domain.Variables -> string;
  ParsePortSpecs : list string -> result (types.PortSet * types.PortMap);
  tarArchiveFromPath : string -> result Reader;
  readEnvFromReader : Reader -> list string -> domain.Variables;
  toBindStr : DockerVolume -> string;
  scriptPath : DockerVolume -> string;
  linuxBash : string
}.

(** The fields of BaseExecutor the container executor touches. *)
Record BaseExecutor : Type := {
  context : Context;
  inCmd : domain.CmdIn;
  CmdResult : domain.ExecutedCmd;
  vars : domain.Variables;
  pluginDir : string
}.

(** [cli], [containerConfig] and [hostConfig] are pointers: [None] is
    nil.  [trace] is the record of the events so far, latest first. *)
Record DockerExecutor : Type := {
  base : BaseExecutor;
  volumes : list DockerVolume;
  flowVolume : types.Volume;
  cli : option Client;
  containerConfig : option types.ContainerConfig;
  hostConfig : option types.HostConfig;
  containerId : string;
  workDir : string;
  envFile : string;
  trace : list Event
}.

(** *** Field assignments *)

Definition set_base (f : BaseExecutor -> BaseExecutor) (d : DockerExecutor)
  : DockerExecutor :=
  {| base := f (base d); volumes := volumes d; flowVolume := flowVolume d;
     cli := cli d; containerConfig := containerConfig d;
     hostConfig := hostConfig d; containerId := containerId d;
     workDir := workDir d; envFile := envFile d; trace := trace d |}.

Definition set_context (c : Context) : DockerExecutor -> DockerExecutor :=
  set_base (fun b =>
    {| context := c; inCmd := inCmd b; CmdResult := CmdResult b;
       vars := vars b; pluginDir := pluginDir b |}).

Definition set_CmdResult (f : domain.ExecutedCmd -> domain.ExecutedCmd)
  : DockerExecutor -> DockerExecutor :=
  set_base (fun b =>
    {| context := context b; inCmd := inCmd b; CmdResult := f (CmdResult b);
       vars := vars b; pluginDir := pluginDir b |}).

Definition set_vars (f : domain.Variables -> domain.Variables)
  : DockerExecutor -> DockerExecutor :=
  set_base (fun b =>
    {| context := context b; inCmd := inCmd b; CmdResult := CmdResult b;
       vars := f (vars b); pluginDir := pluginDir b |}).

Definition set_flowVolume (v : types.Volume) (d : DockerExecutor) : DockerExecutor :=
  {| base := base d; volumes := volumes d; flowVolume := v;
     cli := cli d; containerConfig := containerConfig d;
     hostConfig := hostConfig d; containerId := containerId d;
     workDir := workDir d; envFile := envFile d; trace := trace d |}.

Definition set_cli (k : option Client) (d : DockerExecutor) : DockerExecutor :=
  {| base := base d; volumes := volumes d; flowVolume := flowVolume d;
     cli := k; containerConfig := containerConfig d;
     hostConfig := hostConfig d; containerId := containerId d;
     workDir := workDir d; envFile := envFile d; trace := trace d |}.

Definition set_containerConfig (c : option types.ContainerConfig)
  (d : DockerExecutor) : DockerExecutor :=
  {| base := base d; volumes := volumes d; flowVolume := flowVolume d;
     cli := cli d; containerConfig := c;
     hostConfig := hostConfig d; containerId := containerId d;
     workDir := workDir d; envFile := envFile d; trace := trace d |}.

Definition set_hostConfig (h : option types.HostConfig)
  (d : DockerExecutor) : DockerExecutor :=
  {| base := base d; volumes := volumes d; flowVolume := flowVolume d;
     cli := cli d; containerConfig := containerConfig d;
     hostConfig := h; containerId := containerId d;
     workDir := workDir d; envFile := envFile d; trace := trace d |}.

Definition set_containerId (id : string) (d : DockerExecutor) : DockerExecutor :=
  {| base := base d; volumes := volumes d; flowVolume := flowVolume d;
     cli := cli d; containerConfig := containerConfig d;
     hostConfig := hostConfig d; containerId := id;
     workDir := workDir d; envFile := envFile d; trace := trace d |}.

Definition set_workDir (w : string) (d : DockerExecutor) : DockerExecutor :=
  {| base := base d; volumes := volumes d; flowVolume := flowVolume d;
     cli := cli d; containerConfig := containerConfig d;
     hostConfig := hostConfig d; containerId := containerId d;
     workDir := w; envFile := envFile d; trace := trace d |}.

(** Append an event to the trace. *)
Definition emit (e : Event) (d : DockerExecutor) : DockerExecutor :=
  {| base := base d; volumes := volumes d; flowVolume := flowVolume d;
     cli := cli d; containerConfig := containerConfig d;
     hostConfig := hostConfig d; containerId := containerId d;
     workDir := workDir d; envFile := envFile d; trace := e :: trace d |}.

(** *** Field assignments on the result *)

Definition with_Status (st : domain.CmdStatus) (r : domain.ExecutedCmd)
  : domain.ExecutedCmd :=
  {| domain.ExecutedCmd_Cmd := domain.ExecutedCmd_Cmd r;
     domain.ProcessId := domain.ProcessId r; domain.Status := st;
     domain.Code := domain.Code r; domain.Output := domain.Output r;
     domain.StartAt := domain.StartAt r; domain.FinishAt := domain.FinishAt r;
     domain.Error := domain.Error r; domain.LogSize := domain.LogSize r;
     domain.ContainerId := domain.ContainerId r |}.

Definition with_Code (c : Z) (r : domain.ExecutedCmd) : domain.ExecutedCmd :=
  {| domain.ExecutedCmd_Cmd := domain.ExecutedCmd_Cmd r;
     domain.ProcessId := domain.ProcessId r; domain.Status := domain.Status r;
     domain.Code := c; domain.Output := domain.Output r;
     domain.StartAt := domain.StartAt r; domain.FinishAt := domain.FinishAt r;
     domain.Error := domain.Error r; domain.LogSize := domain.LogSize r;
     domain.ContainerId := domain.ContainerId r |}.

Definition with_ProcessId (p : Z) (r : domain.ExecutedCmd) : domain.ExecutedCmd :=
  {| domain.ExecutedCmd_Cmd := domain.ExecutedCmd_Cmd r;
     domain.ProcessId := p; domain.Status := domain.Status r;
     domain.Code := domain.Code r; domain.Output := domain.Output r;
     domain.StartAt := domain.StartAt r; domain.FinishAt := domain.FinishAt r;
     domain.Error := domain.Error r; domain.LogSize := domain.LogSize r;
     domain.ContainerId := domain.ContainerId r |}.

Definition with_Output (o : option domain.Variables) (r : domain.ExecutedCmd)
  : domain.ExecutedCmd :=
  {| domain.ExecutedCmd_Cmd := domain.ExecutedCmd_Cmd r;
     domain.ProcessId := domain.ProcessId r; domain.Status := domain.Status r;
     domain.Code := domain.Code r; domain.Output := o;
     domain.StartAt := domain.StartAt r; domain.FinishAt := domain.FinishAt r;
     domain.Error := domain.Error r; domain.LogSize := domain.LogSize r;
     domain.ContainerId := domain.ContainerId r |}.

Definition with_StartAt (t : Time) (r : domain.ExecutedCmd) : domain.ExecutedCmd :=
  {| domain.ExecutedCmd_Cmd := domain.ExecutedCmd_Cmd r;
     domain.ProcessId := domain.ProcessId r; domain.Status := domain.Status r;
     domain.Code := domain.Code r; domain.Output := domain.Output r;
     domain.StartAt := t; domain.FinishAt := domain.FinishAt r;
     domain.Error := domain.Error r; domain.LogSize := domain.LogSize r;
     domain.ContainerId := domain.ContainerId r |}.

Definition with_FinishAt (t : Time) (r : domain.ExecutedCmd) : domain.ExecutedCmd :=
  {| domain.ExecutedCmd_Cmd := domain.ExecutedCmd_Cmd r;
     domain.ProcessId := domain.ProcessId r; domain.Status := domain.Status r;
     domain.Code := domain.Code r; domain.Output := domain.Output r;
     domain.StartAt := domain.StartAt r; domain.FinishAt := t;
     domain.Error := domain.Error r; domain.LogSize := domain.LogSize r;
     domain.ContainerId := domain.ContainerId r |}.

Definition with_Error (msg : string) (r : domain.ExecutedCmd) : domain.ExecutedCmd :=
  {| domain.ExecutedCmd_Cmd := domain.ExecutedCmd_Cmd r;
     domain.ProcessId := domain.ProcessId r; domain.Status := domain.Status r;
     domain.Code := domain.Code r; domain.Output := domain.Output r;
     domain.StartAt := domain.StartAt r; domain.FinishAt := domain.FinishAt r;
     domain.Error := msg; domain.LogSize := domain.LogSize r;
     domain.ContainerId := domain.ContainerId r |}.

Definition with_ContainerId (id : string) (r : domain.ExecutedCmd)
  : domain.ExecutedCmd :=
  {| domain.ExecutedCmd_Cmd := domain.ExecutedCmd_Cmd r;
     domain.ProcessId := domain.ProcessId r; domain.Status := domain.Status r;
     domain.Code := domain.Code r; domain.Output := domain.Output r;
     domain.StartAt := domain.StartAt r; domain.FinishAt := domain.FinishAt r;
     domain.Error := domain.Error r; domain.LogSize := domain.LogSize r;
     domain.ContainerId := id |}.

(** *** The monad of executor methods *)

Inductive outcome (A : Type) : Type :=
| Ret (a : A) (d : DockerExecutor)
| Panic (e : error) (d : DockerExecutor)
| Spin.
Arguments Ret {A} a d.
Arguments Panic {A} e d.
Arguments Spin {A}.

Definition M (A : Type) : Type := DockerExecutor -> outcome A.

#[global] Instance M_ret : MRet M := fun A a d => Ret a d.

#[global] Instance M_bind : MBind M := fun A B k m d =>
  match m d with
  | Ret a d' => k a d'
  | Panic e d' => Panic e d'
  | Spin => Spin
  end.

Definition get : M DockerExecutor := fun d => Ret d d.

Definition modify (f : DockerExecutor -> DockerExecutor) : M unit :=
  fun d => Ret tt (f d).

Definition panic {A} (e : error) : M A := fun d => Panic e d.

(** Modelled from the spec: util.PanicIfErr is not under src/; the
    spec's "panic-based error propagation": a non-nil error is raised as
    a panic. *)
Definition PanicIfErr (err : option error) : M unit :=
  match err with
  | Some e => panic e
  | None => mret tt
  end.

(** The [err] of a call's [(value, err)]. *)
Definition errOf {A} (r : result A) : option error :=
  match r with
  | Ok _ => None
  | Err e => Some e
  end.

(** [v, err := f(); util.PanicIfErr(err)], then use [v]. *)
Definition valueOrPanic {A} (r : result A) : M A :=
  match r with
  | Ok a => mret a
  | Err e => panic e
  end.

(** Dereference of a pointer field. *)
Definition deref {A} (p : option A) : M A :=
  match p with
  | Some a => mret a
  | None => panic ErrNilPointer
  end.

(** A request through [d.cli]: the daemon answers on the history so far
    and the request joins the trace; on a nil client the call panics. *)
Definition request {A} (c : Call) (answer : Client -> list Event -> A) : M A :=
  fun d =>
    match cli d with
    | Some k => Ret (answer k (trace d)) (emit (EvCall c) d)
    | None => Panic ErrNilPointer d
    end.

(** *** The client's methods, as called on [d.cli] *)

Definition cli_ImagePull (ctx : Context) (ref : string) : M (result Reader) :=
  request (ReqImagePull ctx ref) (fun k h => client.ImagePull k h ctx ref).

Definition cli_ContainerCreate (ctx : Context)
  (config : option types.ContainerConfig) (hc : option types.HostConfig)
  : M (result string) :=
  request (ReqContainerCreate ctx config hc)
    (fun k h => client.ContainerCreate k h ctx config hc).

Definition cli_ContainerStart (ctx : Context) (id : string) : M (option error) :=
  request (ReqContainerStart ctx id) (fun k h => client.ContainerStart k h ctx id).

Definition cli_ContainerInspect (ctx : Context) (id : string)
  : M (result types.ContainerJSON) :=
  request (ReqContainerInspect ctx id)
    (fun k h => client.ContainerInspect k h ctx id).

Definition cli_ContainerRestart (ctx : Context) (id : string)
  (timeout : Duration) : M (option error) :=
  request (ReqContainerRestart ctx id timeout)
    (fun k h => client.ContainerRestart k h ctx id timeout).

Definition cli_ContainerRemove (ctx : Context) (id : string) (force : bool)
  : M (option error) :=
  request (ReqContainerRemove ctx id force)
    (fun k h => client.ContainerRemove k h ctx id force).

Definition cli_ContainerStop (ctx : Context) (id : string) : M (option error) :=
  request (ReqContainerStop ctx id) (fun k h => client.ContainerStop k h ctx id).

Definition cli_CopyToContainer (ctx : Context) (id dst : string)
  (content : Reader) (allowOverwriteDirWithFile : bool) : M (option error) :=
  request (ReqCopyToContainer ctx id dst content allowOverwriteDirWithFile)
    (fun k h =>
       client.CopyToContainer k h ctx id dst content allowOverwriteDirWithFile).

Definition cli_ContainerExecCreate (ctx : Context) (id : string)
  (config : types.ExecConfig) : M (result string) :=
  request (ReqContainerExecCreate ctx id config)
    (fun k h => client.ContainerExecCreate k h ctx id config).

Definition cli_ContainerExecAttach (ctx : Context) (execId : string)
  (config : types.ExecConfig) : M (result types.HijackedResponse) :=
  request (ReqContainerExecAttach ctx execId config)
    (fun k h => client.ContainerExecAttach k h ctx execId config).

Definition cli_ContainerExecInspect (ctx : Context) (execId : string)
  : M (result types.ContainerExecInspect) :=
  request (ReqContainerExecInspect ctx execId)
    (fun k h => client.ContainerExecInspect k h ctx execId).

Definition cli_CopyFromContainer (ctx : Context) (id src : string)
  : M (result Reader) :=
  request (ReqCopyFromContainer ctx id src)
    (fun k h => client.CopyFromContainer k h ctx id src).

Definition cli_VolumeList (ctx : Context) (name : string)
  : M (result (list types.Volume)) :=
  request (ReqVolumeList ctx name) (fun k h => client.VolumeList k h ctx name).

Definition cli_VolumeCreate (ctx : Context) (name : string)
  : M (result types.Volume) :=
  request (ReqVolumeCreate ctx name) (fun k h => client.VolumeCreate k h ctx name).

Section WithHost.
Context (host : Host).

(** *** Steps of BaseExecutor *)

(** Modelled from the spec: BaseExecutor.toStartStatus is not under
    src/; "Pending -> Running sets startAt, processId". *)
Definition toStartStatus (pid : Z) : M unit :=
  modify (fun d =>
    set_CmdResult (fun r =>
      with_StartAt (Now host (trace d))
        (with_ProcessId pid (with_Status domain.CmdStatusRunning r))) d).

(** Modelled from the spec: BaseExecutor.toFinishStatus is not under
    src/; "Running --normal-exit--> Success, --non-zero-exit-->
    Exception", and the transition "sets finishAt and code (...
    interpreter exit code for exception and success)". *)
Definition toFinishStatus (exitCode : Z) : M unit :=
  modify (fun d =>
    set_CmdResult (fun r =>
      with_Status
        (if Z.eqb exitCode domain.CmdExitCodeSuccess
         then domain.CmdStatusSuccess else domain.CmdStatusException)
        (with_Code exitCode (with_FinishAt (Now host (trace d)) r))) d).

(** Modelled from the spec: BaseExecutor.toTimeOutStatus is not under
    src/; "--timeout--> Timeout", finishAt set, code "-100 for
    timeout". *)
Definition toTimeOutStatus : M unit :=
  modify (fun d =>
    set_CmdResult (fun r =>
      with_Status domain.CmdStatusTimeout
        (with_Code domain.CmdExitCodeTimeOut
           (with_FinishAt (Now host (trace d)) r))) d).

(** Modelled from the spec: BaseExecutor.toKilledStatus is not under
    src/; "--kill--> Killed", finishAt set, code "-1 for killed". *)
Definition toKilledStatus : M unit :=
  modify (fun d =>
    set_CmdResult (fun r =>
      with_Status domain.CmdStatusKilled
        (with_Code domain.CmdExitCodeKilled
           (with_FinishAt (Now host (trace d)) r))) d).

(** Modelled from the spec: BaseExecutor.toErrorStatus is not under
    src/; "Any other runtime error -> Exception with the error's
    message recorded in error", finishAt set.  It hands the error
    back (the caller drops it). *)
Definition toErrorStatus (err : error) : M (option error) :=
  modify (fun d =>
    set_CmdResult (fun r =>
      with_Status domain.CmdStatusException
        (with_Error (Error err) (with_FinishAt (Now host (trace d)) r))) d);;
  mret (Some err).

(** Modelled from the spec: BaseExecutor.writeLog is not under src/;
    the reader is handed to the log pipeline. *)
Definition writeLog (reader : Reader) : M unit :=
  modify (emit (EvWriteLog reader)).

(** Modelled from the spec: BaseExecutor.writeCmd is not under src/;
    "stream scripts (preceded by source <volume-script> lines ...,
    followed by env > <envfile>)": the lines of the first callback,
    the scripts of the descriptor, the lines of the second one. *)
Definition writeCmd (conn : string) (before after : list string) : M unit :=
  d ← get;
  modify (emit (EvWriteCmd conn
                  (before ++ domain.Scripts (inCmd (base d)) ++ after))).

(** Modelled from the spec: BaseExecutor.closeChannels is not under
    src/; the log channel is closed. *)
Definition closeChannels : M unit := modify (emit EvCloseChannels).

(** d.stdOutWg.Add(n) *)
Definition stdOutWg_Add (n : Z) : M unit := modify (emit (EvWgAdd n)).

(** time.Sleep *)
Definition Sleep (dur : Duration) : M unit := modify (emit (EvSleep dur)).

(** *** Private methods of DockerExecutor *)

Definition getVolume (name : string) : M (bool * option types.Volume) :=
  d ← get;
  r ← cli_VolumeList (context (base d)) name;
  list ← valueOrPanic r;
  match list with
  | [v] => mret (true, Some v)
  | _ => mret (false, None)
  end.

(** create job volume based on flow id *)
Definition initJobVolume : M unit :=
  d ← get;
  let name := "flow-" +:+ domain.FlowId (inCmd (base d)) in
  '(ok, v) ← getVolume name;
  if (ok : bool) then
    v' ← deref v;
    modify (set_flowVolume v')
  else
    d ← get;
    r ← cli_VolumeCreate (context (base d)) name;
    created ← valueOrPanic r;
    modify (set_flowVolume created).

(** The loop of initConfig over the declared volumes: a volume the
    daemon does not know is skipped, the others are bound. *)
Fixpoint bindVolumes (vs : list DockerVolume) : M unit :=
  match vs with
  | [] => mret tt
  | v :: rest =>
      '(ok, _) ← getVolume (Name v);
      (if (ok : bool) then
         d ← get;
         hc ← deref (hostConfig d);
         modify (set_hostConfig (Some
           {| types.NetworkMode := types.NetworkMode hc;
              types.PortBindings := types.PortBindings hc;
              types.Binds := types.Binds hc ++ [toBindStr host v] |}))
       else mret tt);;
      bindVolumes rest
  end.

Definition initConfig : M unit :=
  d ← get;
  let docker := domain.Docker (inCmd (base d)) in
  (* set work dir in the container *)
  modify (set_workDir
    (Join [dockerWorkspace; ParseString host (domain.FlowId (inCmd (base d)))]));;
  modify (fun d => set_vars <[domain.VarAgentJobDir := workDir d]> d);;
  modify (set_vars <[domain.VarAgentPluginDir := dockerPluginDir]>);;
  (* docker.Ports is the first dereference of the pointer *)
  docker ← deref docker;
  '(portSet, portMap) ← valueOrPanic (ParsePortSpecs host (domain.Ports docker));
  d ← get;
  let image := ParseStringWithSource host (domain.Image docker) (vars (base d)) in
  let entrypoint :=
    map (fun item => ParseStringWithSource host item (vars (base d)))
        (domain.Entrypoint docker) in
  modify (set_containerConfig (Some
    {| types.Image := image;
       types.Env := domain.ToStringArray (vars (base d));
       types.Entrypoint := entrypoint;
       types.ExposedPorts := portSet;
       types.Tty := false;
       types.AttachStdin := true;
       types.AttachStderr := true;
       types.AttachStdout := true;
       types.OpenStdin := true;
       types.StdinOnce := true;
       types.WorkingDir := workDir d |}));;
  modify (set_hostConfig (Some
    {| types.NetworkMode := domain.NetworkMode docker;
       types.PortBindings := portMap;
       types.Binds := [types.Name (flowVolume d) +:+ ":" +:+ workDir d] |}));;
  bindVolumes (volumes d).

Definition handleErrors (err : error) : M (option error) :=
  if decide (err = DeadlineExceeded) then
    toTimeOutStatus;;
    (* reset context for further docker operation *)
    modify (set_context Background);;
    mret None
  else if decide (err = Canceled) then
    toKilledStatus;;
    (* reset context for further docker operation *)
    modify (set_context Background);;
    mret None
  else
    toErrorStatus err;;
    mret (Some err).

Definition pullImage : M unit :=
  d ← get;
  config ← deref (containerConfig d);
  let image := types.Image config in
  let fullRef :=
    if Contains image "/" then "docker.io/" +:+ image
    else "docker.io/library/" +:+ image in
  r ← cli_ImagePull (context (base d)) fullRef;
  reader ← valueOrPanic r;
  writeLog reader.

Definition tryToResume : M bool :=
  d ← get;
  let containerIdToReuse := domain.CmdIn_ContainerId (inCmd (base d)) in
  if util.IsEmptyString containerIdToReuse then mret false
  else
    r ← cli_ContainerInspect (context (base d)) containerIdToReuse;
    if client.IsErrContainerNotFound (errOf r) then mret false
    else
      inspect ← valueOrPanic r;
      if negb (String.eqb (types.StateStatus inspect) "exited") then mret false
      else
        let timeout := 5 * Second in
        err ← cli_ContainerRestart (context (base d)) containerIdToReuse timeout;
        match err with
        | None =>
            (* resume *)
            modify (set_containerId containerIdToReuse);;
            modify (set_CmdResult (with_ContainerId containerIdToReuse));;
            mret true
        | Some _ =>
            (* delete container that cannot resume *)
            cli_ContainerRemove (context (base d)) containerIdToReuse true;;
            mret false
        end.

Definition startContainer : M unit :=
  resumed ← tryToResume;
  if (resumed : bool) then mret tt
  else
    d ← get;
    r ← cli_ContainerCreate (context (base d)) (containerConfig d) (hostConfig d);
    cid ← valueOrPanic r;
    modify (set_containerId cid);;
    modify (set_CmdResult (with_ContainerId cid));;
    err ← cli_ContainerStart (context (base d)) cid;
    PanicIfErr err.

Definition copyPlugins : M unit :=
  d ← get;
  if negb (util.IsEmptyString (pluginDir (base d))) then
    reader ← valueOrPanic (tarArchiveFromPath host (pluginDir (base d)));
    err ← cli_CopyToContainer (context (base d)) (containerId d)
            dockerWorkspace reader true;
    PanicIfErr err
  else mret tt.

(** The lines the callback initScriptInVolume sends. *)
Definition initScriptInVolume (vs : list DockerVolume) : list string :=
  flat_map (fun v =>
    if util.IsEmptyString (Script v) then []
    else ["source " +:+ scriptPath host v]) vs.

(** The line the callback writeEnv sends. *)
Definition writeEnv : list string := ["env > " +:+ dockerEnvFile].

Definition runCmdInContainer : M string :=
  d ← get;
  let config :=
    {| types.ExecTty := false;
       types.ExecAttachStdin := true;
       types.ExecAttachStderr := true;
       types.ExecAttachStdout := true;
       types.Cmd := [linuxBash host] |} in
  r ← cli_ContainerExecCreate (context (base d)) (containerId d) config;
  execId ← valueOrPanic r;
  r ← cli_ContainerExecAttach (context (base d)) execId
        {| types.ExecTty := false;
           types.ExecAttachStdin := false;
           types.ExecAttachStderr := false;
           types.ExecAttachStdout := false;
           types.Cmd := [] |};
  attach ← valueOrPanic r;
  writeLog (types.Reader_ attach);;
  writeCmd (types.Conn attach) (initScriptInVolume (volumes d)) writeEnv;;
  mret execId.

Definition exportEnv : M unit :=
  d ← get;
  r ← cli_CopyFromContainer (context (base d)) (containerId d) dockerEnvFile;
  match r with
  | Err _ => mret tt
  | Ok reader =>
      modify (set_CmdResult
        (with_Output
           (Some (readEnvFromReader host reader
                    (domain.EnvFilters (inCmd (base d)))))))
  end.

Definition cleanupContainer : M unit :=
  d ← get;
  (* option.IsDeleteContainer dereferences the pointer *)
  option ← deref (domain.Docker (inCmd (base d)));
  if domain.IsDeleteContainer option then
    cli_ContainerRemove (context (base d)) (containerId d) true;;
    mret tt
  else if domain.IsStopContainer option then
    cli_ContainerStop (context (base d)) (containerId d);;
    mret tt
  else mret tt.

(** The polling loop of waitForExit; [fuel] bounds the number of
    polls, and the loop has not ended when it runs out. *)
Fixpoint waitForExit_loop (fuel : nat) (eid : string) : M Z :=
  match fuel with
  | O => fun _ => Spin
  | S fuel' =>
      d ← get;
      r ← cli_ContainerExecInspect (context (base d)) eid;
      inspect ← valueOrPanic r;
      if negb (types.Running inspect) then mret (types.ExitCode inspect)
      else
        Sleep (1 * Second);;
        waitForExit_loop fuel' eid
  end.

Definition waitForExit (fuel : nat) (eid : string) : M Z :=
  d ← get;
  r ← cli_ContainerExecInspect (context (base d)) eid;
  inspect ← valueOrPanic r;
  toStartStatus (types.Pid inspect);;
  waitForExit_loop fuel eid.

(** *** Init and Start *)

(** The body of Init; its deferred function turns a panic into the
    returned error. *)
Definition Init_body : M unit :=
  match NewEnvClient host with
  | Ok k => modify (set_cli (Some k))
  | Err e => modify (set_cli None);; panic e
  end;;
  initJobVolume;;
  initConfig.

Definition Init : M (option error) :=
  fun d =>
    match Init_body d with
    | Ret _ d' => Ret None d'
    | Panic e d' => Ret (Some e) d'
    | Spin => Spin
    end.

(** The end of Start's body: the status of the exit code is taken
    only when no finish status is there yet. *)
Definition Start_finish (exitCode : Z) : M (option error) :=
  d ← get;
  if domain.IsFinishStatus (CmdResult (base d)) then mret None
  else
    toFinishStatus exitCode;;
    mret None.

Definition Start_body (fuel : nat) : M (option error) :=
  (* one for pull image output, and one for cmd output *)
  stdOutWg_Add 2;;
  pullImage;;
  startContainer;;
  copyPlugins;;
  eid ← runCmdInContainer;
  exitCode ← waitForExit fuel eid;
  exportEnv;;
  Start_finish exitCode.

(** Start's body up to the exit of the command, as a step of its
    own: [Start_body] is this step, then exportEnv and
    [Start_finish]. *)
Definition Start_untilExit (fuel : nat) : M Z :=
  stdOutWg_Add 2;;
  pullImage;;
  startContainer;;
  copyPlugins;;
  eid ← runCmdInContainer;
  waitForExit fuel eid.

(** The deferred function of Start: [recovered] is the value of
    recover(), [out] the result the body has set.  A panic of the
    deferred function itself is not recovered: it leaves Start. *)
Definition Start_deferred (recovered : option error) (out : option error)
  : M (option error) :=
  out ← match recovered with
        | Some err => handleErrors err
        | None => mret out
        end;
  d ← get;
  match cli d with
  | Some _ => cleanupContainer
  | None => mret tt
  end;;
  closeChannels;;
  mret out.

Definition Start (fuel : nat) : M (option error) :=
  fun d =>
    match Start_body fuel d with
    | Ret out d' => Start_deferred None out d'
    | Panic e d' => Start_deferred (Some e) None d'
    | Spin => Spin
    end.

End WithHost.

End executor.

(* ================================================================== *)
(** ** Scenarios: the descriptor of the repository's container test on
       scripted daemons                                                *)
(* ================================================================== *)

Module scenario.
Import gostd executor.

(** A daemon scripted by its answers to the pull, the inspection and
    the restart of a container, the creation of a container and the
    copy out of it; the command runs for [polls] inspections and exits
    with [exitCode].  Every other request succeeds. *)
Definition isExecInspect (e : types.Event) : bool :=
  match e with
  | types.EvCall (types.ReqContainerExecInspect _ _) => true
  | _ => false
  end.

Definition daemon (pull : result types.Reader)
  (inspect : string -> result types.ContainerJSON) (restart : option error)
  (create : result string) (polls : nat) (exitCode : Z)
  (copyOut : result types.Reader) : client.Client :=
  {| client.ImagePull := fun _ _ _ => pull;
     client.ContainerCreate := fun _ _ _ _ => create;
     client.ContainerStart := fun _ _ _ => None;
     client.ContainerInspect := fun _ _ id => inspect id;
     client.ContainerRestart := fun _ _ _ _ => restart;
     client.ContainerRemove := fun _ _ _ _ => None;
     client.ContainerStop := fun _ _ _ => None;
     client.CopyToContainer := fun _ _ _ _ _ _ => None;
     client.ContainerExecCreate := fun _ _ _ _ => Ok "exec-1";
     client.ContainerExecAttach := fun _ _ eid _ =>
       Ok {| types.Conn := eid; types.Reader_ := "bbb" |};
     client.ContainerExecInspect := fun h _ _ =>
       Ok {| types.Pid := 42;
             types.Running := Nat.ltb (length (filter isExecInspect h)) polls;
             types.ExitCode := exitCode |};
     client.CopyFromContainer := fun _ _ _ _ => copyOut;
     client.VolumeList := fun _ _ _ => Ok [];
     client.VolumeCreate := fun _ _ name => Ok {| types.Name := name |} |}.

Definition notFound (id : string) : result types.ContainerJSON :=
  Err (ErrContainerNotFound id).

Definition exited (id : string) : result types.ContainerJSON :=
  Ok {| types.ID := id; types.StateStatus := "exited" |}.

(** Pull, creation and copy succeed, no container is there to resume,
    the command exits with 0 after two polls. *)
Definition healthy : client.Client :=
  daemon (Ok "pulling") notFound None (Ok "c-new") 2 0 (Ok "FLOW_VVV=flowci").

(** A host that reaches the daemon [k]; none of the strings of the
    scenario refers to a variable, so the expansions leave them as they
    are. *)
Definition host (k : result client.Client) : Host :=
  {| NewEnvClient := k;
     Now := fun h => Z.of_nat (length h);
     ParseString := fun s => s;
     ParseStringWithSource := fun s _ => s;
     ParsePortSpecs := fun _ => Ok (∅, ∅);
     tarArchiveFromPath := fun _ => Ok "tar";
     readEnvFromReader := fun _ _ => ∅;
     toBindStr := fun v => Name v +:+ ":" +:+ Dest v;
     scriptPath := fun v => Dest v +:+ "/" +:+ Script v;
     linuxBash := "/bin/bash" |}.

(** The container spec of createDockerTestCmd. *)
Definition spec : domain.DockerOption :=
  {| domain.Image := "ubuntu:18.04";
     domain.Entrypoint := ["/bin/bash"];
     domain.Ports := [];
     domain.NetworkMode := "";
     domain.IsStopContainer := true;
     domain.IsDeleteContainer := true |}.

(** createDockerTestCmd of docker_executor_test.go, with the flow id
    the test sets and a container to resume. *)
Definition cmd (containerId : string) : domain.CmdIn :=
  {| domain.CmdIn_Cmd :=
       {| domain.ID := "1-1-1"; domain.AllowFailure := false;
          domain.Plugin := "" |};
     domain.Type_ := domain.CmdTypeShell;
     domain.Scripts :=
       ["echo bbb"; "sleep 5"; ">&2 echo $INPUT_VAR";
        "export FLOW_VVV=flowci"; "export FLOW_AAA=flow..."];
     domain.WorkDir := "";
     domain.Timeout := 1800;
     domain.Inputs := {[ "INPUT_VAR" := "aaa" ]};
     domain.EnvFilters := ["FLOW_"];
     domain.FlowId := "flowid";
     domain.Docker := Some spec;
     domain.CmdIn_ContainerId := containerId |}.

(** The same descriptor without a container spec (Docker is nil). *)
Definition cmdWithoutSpec : domain.CmdIn :=
  let c := cmd "" in
  {| domain.CmdIn_Cmd := domain.CmdIn_Cmd c;
     domain.Type_ := domain.Type_ c;
     domain.Scripts := domain.Scripts c;
     domain.WorkDir := domain.WorkDir c;
     domain.Timeout := domain.Timeout c;
     domain.Inputs := domain.Inputs c;
     domain.EnvFilters := domain.EnvFilters c;
     domain.FlowId := domain.FlowId c;
     domain.Docker := None;
     domain.CmdIn_ContainerId := "" |}.

(** An executor as constructed for [c]: pending, nothing initialised. *)
Definition fresh (c : domain.CmdIn) : DockerExecutor :=
  {| base :=
       {| context := JobContext;
          inCmd := c;
          CmdResult :=
            {| domain.ExecutedCmd_Cmd := domain.CmdIn_Cmd c;
               domain.ProcessId := 0;
               domain.Status := domain.CmdStatusPending;
               domain.Code := domain.CmdExitCodeUnknow;
               domain.Output := None;
               domain.StartAt := 0;
               domain.FinishAt := 0;
               domain.Error := "";
               domain.LogSize := 0;
               domain.ContainerId := "" |};
          vars := domain.Inputs c;
          pluginDir := "" |};
     volumes := [];
     flowVolume := {| types.Name := "" |};
     cli := None;
     containerConfig := None;
     hostConfig := None;
     containerId := "";
     workDir := "";
     envFile := "";
     trace := [] |}.

(** The state Init leaves, whatever it returns. *)
Definition initialised (h : Host) (c : domain.CmdIn) : DockerExecutor :=
  match Init h (fresh c) with
  | Ret _ d => d
  | _ => fresh c
  end.

(** Init, then Start on the daemon [k]: the returned error, the result
    and the trace in the order of the events. *)
Definition run (k : client.Client) (c : domain.CmdIn) (fuel : nat)
  : option (option error * domain.ExecutedCmd * list types.Event) :=
  match Start (host (Ok k)) fuel (initialised (host (Ok k)) c) with
  | Ret out d => Some (out, CmdResult (base d), rev (trace d))
  | _ => None
  end.

(** The daemons of the scenarios below: the pull is cancelled, times
    out, or is denied; the inspection of the container to resume fails;
    the container to resume has exited and restarts, or does not
    restart; the copy of the env dump fails. *)
Definition cancelled : client.Client :=
  daemon (Err Canceled) notFound None (Ok "c-new") 2 0 (Ok "FLOW_VVV=flowci").

Definition timedOut : client.Client :=
  daemon (Err DeadlineExceeded) notFound None (Ok "c-new") 2 0
    (Ok "FLOW_VVV=flowci").

Definition pullDenied : client.Client :=
  daemon (Err (ErrOther "pull access denied")) notFound None (Ok "c-new") 2 0
    (Ok "FLOW_VVV=flowci").

Definition inspectFails : client.Client :=
  daemon (Ok "pulling") (fun _ => Err (ErrOther "daemon unreachable")) None
    (Ok "c-new") 2 0 (Ok "FLOW_VVV=flowci").

Definition resumable : client.Client :=
  daemon (Ok "pulling") exited None (Ok "c-new") 2 0 (Ok "FLOW_VVV=flowci").

Definition restartFails : client.Client :=
  daemon (Ok "pulling") exited (Some (ErrOther "cannot restart")) (Ok "c-new")
    2 0 (Ok "FLOW_VVV=flowci").

Definition copyFails : client.Client :=
  daemon (Ok "pulling") notFound None (Ok "c-new") 2 0
    (Err (ErrOther "no such file")).

(** The state an outcome carries. *)
Definition stateOf {A} (o : outcome A) (otherwise : DockerExecutor)
  : DockerExecutor :=
  match o with
  | Ret _ d | Panic _ d => d
  | Spin => otherwise
  end.

End scenario.

(* ================================================================== *)
(** ** Notions used to state the properties                            *)
(* ================================================================== *)

Module props.
Import gostd executor.
Import types(Call(..), Event(..)).

(** A list of events joins the trace, the first of the list being the
    latest. *)
Definition emits (evs : list Event) (d : DockerExecutor) : DockerExecutor :=
  fold_right emit d evs.

(** The cleanup policy in the spec's words, for the container spec
    [option]: force-remove when deleteOnExit is set, otherwise stop when
    stopOnExit is set, as the request the policy asks for on the
    executor's container under its current context. *)
Definition policyRequest (option : domain.DockerOption) (d : DockerExecutor)
  : list Event :=
  if domain.IsDeleteContainer option then
    [EvCall (ReqContainerRemove (context (base d)) (containerId d) true)]
  else if domain.IsStopContainer option then
    [EvCall (ReqContainerStop (context (base d)) (containerId d))]
  else [].

(** The policy of the executor's own descriptor; a descriptor without
    a container spec has none. *)
Definition cleanupPolicy (d : DockerExecutor) : list Event :=
  match domain.Docker (inCmd (base d)) with
  | Some option => policyRequest option d
  | None => []
  end.

(** The deferred cleanup of Start has what it dereferences: the
    descriptor carries a container spec, or there is no client and the
    cleanup is skipped. *)
Definition cleanable (d : DockerExecutor) : Prop :=
  cli d = None \/ domain.Docker (inCmd (base d)) <> None.

(** [m] leaves the part [f] of the executor as it is, whether it returns
    or panics. *)
Definition keeps {T A} (f : DockerExecutor -> T) (m : M A) : Prop :=
  forall d,
    match m d with
    | Ret _ d' | Panic _ d' => f d' = f d
    | Spin => True
    end.

End props.

(* ================================================================== *)
(** ** Package dao: the two string helpers (flatCamelString,
       capitalFirstChar)                                              *)
(* ================================================================== *)

Module unicode.

(** A rune is a code point. *)
Definition rune := Z.

(** The case tables of package unicode, as far as the helpers use them:
    they are taken as given, and known on the ASCII range. *)
Record Tables : Type := {
  IsUpper : rune -> bool;
  ToLower : rune -> rune;
  ToUpper : rune -> rune
}.

(** What the tables are on ASCII: the upper-case letters are 'A'..'Z',
    and the two mappings move a letter by 32. *)
Definition asciiCase (u : Tables) : Prop :=
  forall r, 0 <= r < 128 ->
    IsUpper u r = (65 <=? r) && (r <=? 90) /\
    ToLower u r = (if (65 <=? r) && (r <=? 90) then r + 32 else r) /\
    ToUpper u r = (if (97 <=? r) && (r <=? 122) then r - 32 else r).

(** Tables that know the ASCII letters only. *)
Definition asciiOnly : Tables :=
  {| IsUpper := fun r => (65 <=? r) && (r <=? 90);
     ToLower := fun r => if (65 <=? r) && (r <=? 90) then r + 32 else r;
     ToUpper := fun r => if (97 <=? r) && (r <=? 122) then r - 32 else r |}.

End unicode.

Module utf8.
Import unicode.

(** rune(b) of a byte, and byte(r) of a rune (the low eight bits). *)
Definition runeOfByte (c : ascii) : rune := Z.of_N (N_of_ascii c).
Definition byteOfRune (r : rune) : ascii := ascii_of_N (Z.to_N (r mod 256)).

Definition RuneError : rune := 65533.

(** A continuation byte within [lo, hi]. *)
Definition within (lo hi : Z) (c : ascii) : bool :=
  (lo <=? runeOfByte c) && (runeOfByte c <=? hi).

(** The payload bits of a continuation byte. *)
Definition cont (c : ascii) : Z := Z.land (runeOfByte c) 63.

(** utf8.DecodeRuneInString on a non-empty string [String c0 rest]: the
    rune and its width in bytes.  A first byte that starts no sequence, a
    sequence cut short, and a continuation byte out of range give
    RuneError with width 1. *)
Definition DecodeRune (c0 : ascii) (rest : string) : rune * nat :=
  let b0 := runeOfByte c0 in
  if b0 <? 128 then (b0, 1%nat)
  else if (b0 <? 194) || (244 <? b0) then (RuneError, 1%nat)
  else if b0 <? 224 then
    match rest with
    | String c1 _ =>
        if within 128 191 c1 then (Z.lor (Z.shiftl (Z.land b0 31) 6) (cont c1), 2%nat)
        else (RuneError, 1%nat)
    | EmptyString => (RuneError, 1%nat)
    end
  else if b0 <? 240 then
    match rest with
    | String c1 (String c2 _) =>
        let lo := if b0 =? 224 then 160 else 128 in
        let hi := if b0 =? 237 then 159 else 191 in
        if within lo hi c1 && within 128 191 c2
        then (Z.lor (Z.lor (Z.shiftl (Z.land b0 15) 12) (Z.shiftl (cont c1) 6))
                (cont c2), 3%nat)
        else (RuneError, 1%nat)
    | _ => (RuneError, 1%nat)
    end
  else
    match rest with
    | String c1 (String c2 (String c3 _)) =>
        let lo := if b0 =? 240 then 144 else 128 in
        let hi := if b0 =? 244 then 143 else 191 in
        if within lo hi c1 && within 128 191 c2 && within 128 191 c3
        then (Z.lor (Z.lor (Z.lor (Z.shiftl (Z.land b0 7) 18) (Z.shiftl (cont c1) 12))
                       (Z.shiftl (cont c2) 6)) (cont c3), 4%nat)
        else (RuneError, 1%nat)
    | _ => (RuneError, 1%nat)
    end.

(** [for i, c := range s]: the runes of [s] with the byte offsets they
    start at.  [i] is the offset of the first byte of [s], [skip] the
    number of bytes of [s] that belong to the rune decoded last. *)
Fixpoint rangeFrom (i skip : nat) (s : string) : list (nat * rune) :=
  match s with
  | EmptyString => []
  | String c rest =>
      match skip with
      | S skip' => rangeFrom (S i) skip' rest
      | O =>
          let '(r, width) := DecodeRune c rest in
          (i, r) :: rangeFrom (S i) (Nat.pred width) rest
      end
  end.

Definition range (s : string) : list (nat * rune) := rangeFrom 0 0 s.

End utf8.

Module dao.
Import unicode utf8.

(** One turn of the loop of flatCamelString: what it writes to the
    builder for the rune [r] at offset [i]. *)
Definition flatCamelWrite (u : Tables) (ir : nat * rune) : string :=
  let '(i, r) := ir in
  if IsUpper u r then
    let r' := ToLower u r in
    (if (0 <? i)%nat then "_" else "") +:+ String (byteOfRune r') ""
  else String (byteOfRune r) "".

(** change camel string to string with '_' *)
Definition flatCamelString (u : Tables) (v : string) : string :=
  fold_left (fun builder ir => builder +:+ flatCamelWrite u ir) (range v) "".

(** capitalFirstChar; [bytes[0]] of an empty string is out of range, and
    the function panics (the result is [None]). *)
Definition capitalFirstChar (u : Tables) (v : string) : option string :=
  match v with
  | EmptyString => None
  | String b0 rest => Some (String (byteOfRune (ToUpper u (runeOfByte b0))) rest)
  end.

(** A string of ASCII bytes. *)
Definition isASCII (v : string) : Prop :=
  Forall (fun c => runeOfByte c < 128) (list_ascii_of_string v).

(** The byte is an upper-case ASCII letter. *)
Definition upperByte (c : ascii) : bool :=
  (65 <=? runeOfByte c) && (runeOfByte c <=? 90).

(** The lower-case letter of an upper-case ASCII letter; other bytes
    stay. *)
Definition lowerByte (c : ascii) : ascii :=
  if upperByte c then byteOfRune (runeOfByte c + 32) else c.

(** Snake case, said directly on ASCII bytes: every upper-case letter
    becomes its lower-case letter, with an underscore before it unless
    it is the first byte of the string ([first]). *)
Fixpoint snake (first : bool) (v : string) : string :=
  match v with
  | EmptyString => ""
  | String c rest =>
      (if upperByte c && negb first then "_" else "")
      +:+ String (lowerByte c) (snake false rest)
  end.

(** The number of bytes of [v] that are upper-case ASCII letters. *)
Fixpoint countUpper (v : string) : nat :=
  match v with
  | EmptyString => 0%nat
  | String c rest => ((if upperByte c then 1 else 0) + countUpper rest)%nat
  end.

End dao.

(* ================================================================== *)
(** ** Notions used to state what a run sends to the daemon            *)
(* ================================================================== *)

Module runs.
Import gostd executor.
Import types(Call(..), Event(..)).

(** The context a request is sent under. *)
Definition callContext (c : Call) : Context :=
  match c with
  | ReqImagePull ctx _ => ctx
  | ReqContainerCreate ctx _ _ => ctx
  | ReqContainerStart ctx _ => ctx
  | ReqContainerInspect ctx _ => ctx
  | ReqContainerRestart ctx _ _ => ctx
  | ReqContainerRemove ctx _ _ => ctx
  | ReqContainerStop ctx _ => ctx
  | ReqCopyToContainer ctx _ _ _ _ => ctx
  | ReqContainerExecCreate ctx _ _ => ctx
  | ReqContainerExecAttach ctx _ _ => ctx
  | ReqContainerExecInspect ctx _ => ctx
  | ReqCopyFromContainer ctx _ _ => ctx
  | ReqVolumeList ctx _ => ctx
  | ReqVolumeCreate ctx _ => ctx
  end.

(** Started in state [d], the step [m] ends (if it ends) in a state
    where [I] holds, having added to the trace only events that satisfy
    [P]. *)
Definition sends (I : DockerExecutor -> Prop) (P : Event -> Prop) {A}
  (m : M A) (d : DockerExecutor) : Prop :=
  match m d with
  | Ret _ d' | Panic _ d' =>
      I d' /\ exists evs, trace d' = evs ++ trace d /\ Forall P evs
  | Spin => True
  end.

(** What Start's body may do, for the context [ctx] and the container
    to resume [resumeId]: every request goes under [ctx]; volumes are
    neither listed nor created, no container is stopped, a removal is the
    forced one of [resumeId]; the channels are not closed. *)
Definition bodyEvent (ctx : Context) (resumeId : string) (ev : Event) : Prop :=
  match ev with
  | EvCall (ReqVolumeList _ _) => False
  | EvCall (ReqVolumeCreate _ _) => False
  | EvCall (ReqContainerStop _ _) => False
  | EvCall (ReqContainerRemove c id force) =>
      c = ctx /\ id = resumeId /\ force = true
  | EvCall call => callContext call = ctx
  | EvCloseChannels => False
  | _ => True
  end.

(** What Start's body keeps of the state [d0] it starts in: the
    context, the descriptor and the client. *)
Definition bodyInv (d0 d : DockerExecutor) : Prop :=
  context (base d) = context (base d0) /\ inCmd (base d) = inCmd (base d0) /\
  cli d = cli d0.

(** What Start's body keeps of the result of the state [d0] it starts
    in, up to its last step: the status is as it was or Running, the
    exit code is as it was. *)
Definition statusInv (d0 d : DockerExecutor) : Prop :=
  (domain.Status (CmdResult (base d)) = domain.Status (CmdResult (base d0)) \/
   domain.Status (CmdResult (base d)) = domain.CmdStatusRunning) /\
  domain.Code (CmdResult (base d)) = domain.Code (CmdResult (base d0)).

(** The declared volumes the daemon [k] knows, asked one after the
    other under [ctx] from the history [h] on: a volume counts when the
    daemon lists exactly one volume of its name. *)
Fixpoint boundVolumes (k : client.Client) (ctx : Context) (h : list Event)
  (vs : list DockerVolume) : list DockerVolume :=
  match vs with
  | [] => []
  | v :: rest =>
      let h' := EvCall (ReqVolumeList ctx (Name v)) :: h in
      match client.VolumeList k h ctx (Name v) with
      | Ok [_] => v :: boundVolumes k ctx h' rest
      | _ => boundVolumes k ctx h' rest
      end
  end.

(** The request is one about volumes. *)
Definition isVolumeRequest (ev : Event) : bool :=
  match ev with
  | EvCall (ReqVolumeList _ _) | EvCall (ReqVolumeCreate _ _) => true
  | _ => false
  end.

(** The event is an inspection of the exec session [eid]. *)
Definition isExecInspectOf (eid : string) (ev : Event) : bool :=
  match ev with
  | EvCall (ReqContainerExecInspect _ e) => String.eqb e eid
  | _ => false
  end.

End runs.

(* ================================================================== *)
(** ** Further scenarios                                               *)
(* ================================================================== *)

Module cases.
Import gostd executor.

(** The daemon [k], but with the given answers to ContainerStart and to
    VolumeList (by volume name). *)
Definition daemonWith (start : option error)
  (volumes : string -> result (list types.Volume)) (k : client.Client)
  : client.Client :=
  {| client.ImagePull := client.ImagePull k;
     client.ContainerCreate := client.ContainerCreate k;
     client.ContainerStart := fun _ _ _ => start;
     client.ContainerInspect := client.ContainerInspect k;
     client.ContainerRestart := client.ContainerRestart k;
     client.ContainerRemove := client.ContainerRemove k;
     client.ContainerStop := client.ContainerStop k;
     client.CopyToContainer := client.CopyToContainer k;
     client.ContainerExecCreate := client.ContainerExecCreate k;
     client.ContainerExecAttach := client.ContainerExecAttach k;
     client.ContainerExecInspect := client.ContainerExecInspect k;
     client.CopyFromContainer := client.CopyFromContainer k;
     client.VolumeList := fun _ _ name => volumes name;
     client.VolumeCreate := client.VolumeCreate k |}.

(** The daemon knows the job volume of the flow and a volume "cache". *)
Definition knownVolumes (name : string) : result (list types.Volume) :=
  if String.eqb name "flow-flowid" || String.eqb name "cache"
  then Ok [ {| types.Name := name |} ] else Ok [].

Definition withVolumes : client.Client :=
  daemonWith None knownVolumes scenario.healthy.

(** The created container does not start. *)
Definition startFails : client.Client :=
  daemonWith (Some (ErrOther "cannot start container")) (fun _ => Ok [])
    scenario.healthy.

(** No container can be created. *)
Definition createFails : client.Client :=
  scenario.daemon (Ok "pulling") scenario.notFound None
    (Err (ErrOther "No such image")) 2 0 (Ok "FLOW_VVV=flowci").

(** The inspection of the container to resume is cancelled, or runs
    into the deadline. *)
Definition inspectCancelled : client.Client :=
  scenario.daemon (Ok "pulling") (fun _ => Err Canceled) None (Ok "c-new") 2 0
    (Ok "FLOW_VVV=flowci").

Definition inspectTimesOut : client.Client :=
  scenario.daemon (Ok "pulling") (fun _ => Err DeadlineExceeded) None
    (Ok "c-new") 2 0 (Ok "FLOW_VVV=flowci").


(** The container to resume is running. *)
Definition live : client.Client :=
  scenario.daemon (Ok "pulling")
    (fun id => Ok {| types.ID := id; types.StateStatus := "running" |})
    None (Ok "c-new") 2 0 (Ok "FLOW_VVV=flowci").

(** A host whose port parser rejects the descriptor's ports. *)
Definition badPorts (k : client.Client) : Host :=
  let h := scenario.host (Ok k) in
  {| NewEnvClient := NewEnvClient h;
     Now := Now h;
     ParseString := ParseString h;
     ParseStringWithSource := ParseStringWithSource h;
     ParsePortSpecs := fun _ => Err (ErrOther "Invalid containerPort: x");
     tarArchiveFromPath := tarArchiveFromPath h;
     readEnvFromReader := readEnvFromReader h;
     toBindStr := toBindStr h;
     scriptPath := scriptPath h;
     linuxBash := linuxBash h |}.

(** Two declared volumes: the daemon of [withVolumes] knows the first. *)
Definition declared : list DockerVolume :=
  [ {| Name := "cache"; Dest := "/cache"; Script := "init.sh" |};
    {| Name := "missing"; Dest := "/missing"; Script := "" |} ].

(** An executor as constructed for [c], with the client [k] and the
    declared volumes [vs]. *)
Definition constructed (k : client.Client) (vs : list DockerVolume)
  (c : domain.CmdIn) : DockerExecutor :=
  let d := scenario.fresh c in
  {| base := base d; volumes := vs; flowVolume := flowVolume d;
     cli := Some k; containerConfig := containerConfig d;
     hostConfig := hostConfig d; containerId := containerId d;
     workDir := workDir d; envFile := envFile d; trace := trace d |}.

End cases.

Example Clean_ex1 : gostd.Clean "/ws//a/../b/./" = "/ws/b". Proof. reflexivity. Qed.
Example Clean_ex2 : gostd.Clean "../../a/.." = "../..". Proof. reflexivity. Qed.
Example Clean_ex3 : gostd.Clean "/../a" = "/a". Proof. reflexivity. Qed.
Example Clean_ex4 : gostd.Clean "a/.." = ".". Proof. reflexivity. Qed.
Example Clean_ex5 : gostd.Clean "/" = "/". Proof. reflexivity. Qed.
Example Join_ex1 : gostd.Join ["/ws"; ""] = "/ws". Proof. reflexivity. Qed.
Example Join_ex2 : gostd.Join ["/ws"; "flowid"] = "/ws/flowid". Proof. reflexivity. Qed.
Example Join_ex3 : gostd.Join [""; ""] = "". Proof. reflexivity. Qed.
Example Contains_ex1 : gostd.Contains "flowci/gosdk:1.0" "/" = true. Proof. reflexivity. Qed.
Example Contains_ex2 : gostd.Contains "ubuntu:18.04" "/" = false. Proof. reflexivity. Qed.

(* ================================================================== *)
(** ** Facts about the standard-library functions                      *)
(* ================================================================== *)

Lemma HasPrefix_empty (s : string) : gostd.HasPrefix s "" = true.
Proof. destruct s; reflexivity. Qed.

(** strings.Contains(s, "/") holds exactly when the byte '/' occurs in [s]. *)
Lemma Contains_slash (s : string) :
  gostd.Contains s "/" = true <-> In "/"%char (list_ascii_of_string s).
Proof.
  induction s as [|c s IH]; cbn [gostd.Contains gostd.HasPrefix list_ascii_of_string In].
  - split; [discriminate | tauto].
  - rewrite HasPrefix_empty, andb_true_r, orb_true_iff, IH, Ascii.eqb_eq.
    split; intros [H|H]; auto.
Qed.

Lemma Contains_slash_false (s : string) :
  gostd.Contains s "/" = false <-> ~ In "/"%char (list_ascii_of_string s).
Proof.
  rewrite <- Contains_slash. destruct (gostd.Contains s "/"); split; congruence.
Qed.

(* ================================================================== *)
(** ** Package domain: the constants                                   *)
(* ================================================================== *)

(** C10. The three command-type constants are the same string "SHELL",
    so the Type field of a descriptor tells a shell command from a kill
    or a close command in no case: whichever of the three it is compared
    with, the answer is the same. *)
Theorem CmdType_constants_coincide :
  domain.CmdTypeShell = "SHELL" /\
  domain.CmdTypeKill = "SHELL" /\
  domain.CmdTypeClose = "SHELL" /\
  forall c : domain.CmdIn,
    String.eqb (domain.Type_ c) domain.CmdTypeShell
      = String.eqb (domain.Type_ c) domain.CmdTypeKill /\
    String.eqb (domain.Type_ c) domain.CmdTypeShell
      = String.eqb (domain.Type_ c) domain.CmdTypeClose.
Proof. repeat split. Qed.

(* ================================================================== *)
(** ** The container executor                                          *)
(* ================================================================== *)

Import gostd executor props.
Import types(Call(..), Event(..)).

(** Unfold the monad and the primitive steps, then compute. *)
Ltac exec_unfold :=
  unfold mbind, M_bind, mret, M_ret, get, modify, panic, request,
    valueOrPanic, PanicIfErr, deref, errOf in *.

Ltac exec_simpl := exec_unfold; cbn.

Section Keeps.
Context {T : Type} (f : DockerExecutor -> T).

Lemma keeps_ret {A} (a : A) : keeps f (mret a).
Proof. intros d. reflexivity. Qed.

Lemma keeps_get : keeps f get.
Proof. intros d. reflexivity. Qed.

Lemma keeps_panic {A} e : keeps f (@panic A e).
Proof. intros d. reflexivity. Qed.

Lemma keeps_spin {A} : keeps f (fun _ => @Spin A).
Proof. intros d. exact I. Qed.

Lemma keeps_modify g : (forall d, f (g d) = f d) -> keeps f (modify g).
Proof. intros H d. apply H. Qed.

Lemma keeps_request {A} c (answer : client.Client -> list Event -> A) :
  (forall e d, f (emit e d) = f d) -> keeps f (request c answer).
Proof. intros H d. unfold request. destruct (cli d); [apply H | reflexivity]. Qed.

Lemma keeps_bind {A B} (m : M A) (k : A -> M B) :
  keeps f m -> (forall a, keeps f (k a)) -> keeps f (m ≫= k).
Proof.
  intros Hm Hk d. specialize (Hm d). unfold mbind, M_bind.
  destruct (m d) as [a d1|e d1|]; [|exact Hm|exact I].
  specialize (Hk a d1). destruct (k a d1); [congruence|congruence|exact I].
Qed.

End Keeps.

(** Walk through a method: binds, returns, requests, assignments and
    case distinctions. *)
Ltac keeps_step :=
  lazymatch goal with
  | |- keeps _ (mbind _ _) => apply keeps_bind; [|intros]
  | |- keeps _ (mret _) => apply keeps_ret
  | |- keeps _ get => apply keeps_get
  | |- keeps _ (panic _) => apply keeps_panic
  | |- keeps _ (fun _ => Spin) => apply keeps_spin
  | |- keeps _ (modify _) => apply keeps_modify; intros; reflexivity
  | |- keeps _ (request _ _) => apply keeps_request; intros; reflexivity
  | |- keeps _ (if ?b then _ else _) => destruct b
  | |- keeps _ (match ?x with _ => _ end) => destruct x
  end.

Ltac keeps_unfold :=
  unfold cli_ImagePull, cli_ContainerCreate, cli_ContainerStart,
    cli_ContainerInspect, cli_ContainerRestart, cli_ContainerRemove,
    cli_ContainerStop, cli_CopyToContainer, cli_ContainerExecCreate,
    cli_ContainerExecAttach, cli_ContainerExecInspect, cli_CopyFromContainer,
    cli_VolumeList, cli_VolumeCreate, valueOrPanic, PanicIfErr, deref,
    writeLog, writeCmd, closeChannels, stdOutWg_Add, Sleep,
    toStartStatus, toFinishStatus, toTimeOutStatus, toKilledStatus,
    toErrorStatus.


(** If a bind returns, so did its first step. *)
Lemma bind_Ret_inv {A B} (m : M A) (k : A -> M B) d b d' :
  (m ≫= k) d = Ret b d' ->
  exists a d1, m d = Ret a d1 /\ k a d1 = Ret b d'.
Proof.
  unfold mbind, M_bind. destruct (m d) as [a d1|e d1|]; try discriminate.
  intros H. exists a, d1. split; [reflexivity | exact H].
Qed.

(** Two returns are equal only when their values and their states are. *)
Lemma Ret_inj {A : Type} (a a' : A) (d d' : DockerExecutor) :
  Ret a d = Ret a' d' -> a = a' /\ d = d'.
Proof. intros H. injection H as -> ->. now split. Qed.

Lemma bind_Ret {A B} (m : M A) (k : A -> M B) d a d1 :
  m d = Ret a d1 -> (m ≫= k) d = k a d1.
Proof. intros H. unfold mbind, M_bind. now rewrite H. Qed.

Lemma bind_Panic {A B} (m : M A) (k : A -> M B) d e d1 :
  m d = Panic e d1 -> (m ≫= k) d = Panic e d1.
Proof. intros H. unfold mbind, M_bind. now rewrite H. Qed.

Lemma bind_assoc {A B C} (m : M A) (k1 : A -> M B) (k2 : B -> M C) d :
  ((m ≫= k1) ≫= k2) d = (m ≫= (fun a => k1 a ≫= k2)) d.
Proof. unfold mbind, M_bind. destruct (m d); reflexivity. Qed.

(* ================================================================== *)
(** ** What a run sends                                                *)
(* ================================================================== *)

Import runs.

Section Sends.
Context (I : DockerExecutor -> Prop) (P : Event -> Prop).
Context (I_emit : forall e d, I d -> I (emit e d)).

Lemma sends_ret {A} (a : A) d : I d -> sends I P (mret a) d.
Proof. intros H. split; [exact H|]. exists []. split; [reflexivity|constructor]. Qed.

Lemma sends_panic {A} e d : I d -> sends I P (@panic A e) d.
Proof. intros H. split; [exact H|]. exists []. split; [reflexivity|constructor]. Qed.

Lemma sends_spin {A} d : sends I P (fun _ => @Spin A) d.
Proof. exact Logic.I. Qed.

Lemma sends_get_bind {A} (k : DockerExecutor -> M A) d :
  sends I P (k d) d -> sends I P (get ≫= k) d.
Proof. intros H. exact H. Qed.

Lemma sends_bind {A B} (m : M A) (k : A -> M B) d :
  sends I P m d -> (forall a d', I d' -> sends I P (k a) d') ->
  sends I P (m ≫= k) d.
Proof.
  unfold sends, mbind, M_bind. intros Hm Hk.
  destruct (m d) as [a d1|e d1|]; [|exact Hm|exact Logic.I].
  destruct Hm as (HI & evs & Ht & HP). specialize (Hk a d1 HI).
  destruct (k a d1) as [b d2|e d2|]; [| |exact Logic.I];
    destruct Hk as (HI2 & evs2 & Ht2 & HP2); (split; [exact HI2|]);
    exists (evs2 ++ evs); (split; [now rewrite Ht2, Ht, app_assoc|]);
    apply Forall_app; now split.
Qed.

Lemma sends_modify g d :
  I (g d) -> trace (g d) = trace d -> sends I P (modify g) d.
Proof. intros H Ht. split; [exact H|]. exists []. split; [exact Ht|constructor]. Qed.

Lemma sends_emit ev d : I d -> P ev -> sends I P (modify (emit ev)) d.
Proof.
  intros H HP. split; [now apply I_emit|]. exists [ev].
  split; [reflexivity|]. now constructor.
Qed.

Lemma sends_request {A} c (answer : client.Client -> list Event -> A) d :
  I d -> P (EvCall c) -> sends I P (request c answer) d.
Proof.
  intros H HP. unfold sends, request. destruct (cli d).
  - split; [now apply I_emit|]. exists [EvCall c]. split; [reflexivity|]. now constructor.
  - split; [exact H|]. exists []. split; [reflexivity|constructor].
Qed.

End Sends.

(** Walk through a method, leaving the side conditions. *)
Ltac sends_step :=
  lazymatch goal with
  | |- sends _ _ (mbind _ get) _ => apply sends_get_bind; cbv beta
  | |- sends _ _ (mbind _ _) _ => apply sends_bind; [|intros ? ? ?]
  | |- sends _ _ (mret _) _ => apply sends_ret
  | |- sends _ _ (panic _) _ => apply sends_panic
  | |- sends _ _ (fun _ => Spin) _ => apply sends_spin
  | |- sends _ _ (modify (emit _)) _ => apply sends_emit
  | |- sends _ _ (modify _) _ => apply sends_modify
  | |- sends _ _ (request _ _) _ => apply sends_request
  | |- sends _ _ (if ?b then _ else _) _ => destruct b eqn:?
  | |- sends _ _ (match ?x with _ => _ end) _ => destruct x eqn:?
  end.

Ltac sends_side :=
  lazymatch goal with
  | |- sends _ _ _ _ => idtac
  | |- _ =>
      try solve [ intros; cbn in *;
                  intuition (subst; try reflexivity; try congruence; eauto) ]
  end.

Ltac sends_tac := keeps_unfold; repeat (sends_step; sends_side).


Section BodyFacts.
Context (host : Host).

Lemma bodyInv_emit d0 e d : bodyInv d0 d -> bodyInv d0 (emit e d).
Proof. intros H. exact H. Qed.

Lemma waitForExit_loop_sends d0 fuel eid d :
  bodyInv d0 d ->
  sends (bodyInv d0)
    (bodyEvent (context (base d0)) (domain.CmdIn_ContainerId (inCmd (base d0))))
    (waitForExit_loop fuel eid) d.
Proof.
  revert d. induction fuel as [|fuel IH]; intros d HI; cbn [waitForExit_loop].
  - apply sends_spin.
  - unfold bodyInv in *. sends_tac. apply IH. assumption.
Qed.

(** Start's body keeps the context, the descriptor and the client, and
    sends only what [bodyEvent] allows. *)
Lemma Start_body_sends fuel d :
  sends (bodyInv d)
    (bodyEvent (context (base d)) (domain.CmdIn_ContainerId (inCmd (base d))))
    (Start_body host fuel) d.
Proof.
  assert (HI : bodyInv d d) by (repeat split).
  revert HI. generalize d at 1 3 4 5 as d0. intros d0 HI.
  unfold Start_body, pullImage, startContainer, tryToResume, copyPlugins,
    runCmdInContainer, waitForExit, exportEnv, Start_finish.
  unfold bodyInv in *.
  keeps_unfold.
  repeat first [ apply waitForExit_loop_sends; unfold bodyInv; sends_side
               | sends_step; sends_side ].
Qed.

End BodyFacts.

Section ExecutorFacts.
Context (host : Host).

Lemma trace_emits evs d : trace (emits evs d) = evs ++ trace d.
Proof. induction evs as [|e evs IH]; simpl; [reflexivity | now rewrite IH]. Qed.

Lemma base_emits evs d : base (emits evs d) = base d.
Proof. induction evs as [|e evs IH]; simpl; [reflexivity | exact IH]. Qed.

Lemma cli_emits evs d : cli (emits evs d) = cli d.
Proof. induction evs as [|e evs IH]; simpl; [reflexivity | exact IH]. Qed.

Lemma containerId_emits evs d : containerId (emits evs d) = containerId d.
Proof. induction evs as [|e evs IH]; simpl; [reflexivity | exact IH]. Qed.

(** cleanupContainer on a client that is there, for a descriptor with
    a container spec: the request of the policy is sent, nothing else
    changes, and the answer is dropped. *)
Lemma cleanupContainer_policy d k :
  cli d = Some k ->
  domain.Docker (inCmd (base d)) <> None ->
  cleanupContainer d = Ret tt (emits (cleanupPolicy d) d).
Proof.
  intros Hk Hspec. unfold cleanupContainer, cleanupPolicy, policyRequest,
    cli_ContainerRemove, cli_ContainerStop. exec_simpl.
  destruct (domain.Docker (inCmd (base d))) as [option|]; [|congruence]. cbn.
  destruct (domain.IsDeleteContainer _); cbn; rewrite ?Hk; cbn; [reflexivity|].
  destruct (domain.IsStopContainer _); cbn; rewrite ?Hk; reflexivity.
Qed.

(** cleanupContainer for a descriptor without a container spec: the
    dereference of the nil pointer panics before anything is asked of
    the daemon. *)
Lemma cleanupContainer_without_spec d :
  domain.Docker (inCmd (base d)) = None ->
  cleanupContainer d = Panic ErrNilPointer d.
Proof. intros H. unfold cleanupContainer. exec_simpl. now rewrite H. Qed.

Lemma cleanable_spec d option :
  domain.Docker (inCmd (base d)) = Some option -> cleanable d.
Proof. intros H. right. congruence. Qed.

Lemma cleanable_eq d d' :
  cli d' = cli d -> inCmd (base d') = inCmd (base d) ->
  cleanable d -> cleanable d'.
Proof. unfold cleanable. intros -> ->. tauto. Qed.

(** An executor is cleanable, or it has a client and no container
    spec. *)
Lemma cleanable_dec d :
  cleanable d \/
  ((exists k, cli d = Some k) /\ domain.Docker (inCmd (base d)) = None).
Proof.
  unfold cleanable. destruct (cli d) as [k|]; [|now left; left].
  destruct (domain.Docker (inCmd (base d))); [left; right; discriminate|].
  right. split; [now exists k | reflexivity].
Qed.

(** handleErrors always returns: it sets the status the error maps to
    and leaves the client, the descriptor, the container and the trace
    as they are. *)
Lemma handleErrors_returns err d :
  exists d',
    handleErrors host err d
      = Ret (if decide (err = DeadlineExceeded) then None
             else if decide (err = Canceled) then None else Some err) d' /\
    cli d' = cli d /\ inCmd (base d') = inCmd (base d) /\
    containerId d' = containerId d /\ trace d' = trace d /\
    domain.Output (CmdResult (base d')) = domain.Output (CmdResult (base d)) /\
    domain.ContainerId (CmdResult (base d'))
      = domain.ContainerId (CmdResult (base d)).
Proof.
  unfold handleErrors, toTimeOutStatus, toKilledStatus, toErrorStatus.
  destruct (decide (err = DeadlineExceeded)); [|destruct (decide (err = Canceled))];
    exec_simpl; eexists; repeat split.
Qed.

(** The deferred function of Start after a body that returned. *)
Lemma Start_deferred_returned out d :
  cleanable d ->
  Start_deferred host None out d
    = Ret out (emit EvCloseChannels
                 (match cli d with
                  | Some _ => emits (cleanupPolicy d) d
                  | None => d
                  end)).
Proof.
  intros Hc. unfold Start_deferred, closeChannels. exec_simpl.
  destruct (cli d) as [k|] eqn:Hk; [|reflexivity].
  destruct Hc as [Hc|Hc]; [congruence|].
  rewrite (cleanupContainer_policy d k Hk Hc). reflexivity.
Qed.

(** The deferred function of Start on an executor with a client and no
    container spec, after a body that returned: the cleanup panics, the
    channels are not closed, and the panic leaves Start. *)
Lemma Start_deferred_returned_without_spec out d k :
  cli d = Some k ->
  domain.Docker (inCmd (base d)) = None ->
  Start_deferred host None out d = Panic ErrNilPointer d.
Proof.
  intros Hk Hspec. unfold Start_deferred. exec_simpl. rewrite Hk.
  now rewrite (cleanupContainer_without_spec d Hspec).
Qed.

End ExecutorFacts.

Section StartFacts.
Context (host : Host).

Lemma getVolume_keeps {T} (f : DockerExecutor -> T) name :
  (forall e d, f (emit e d) = f d) -> keeps f (getVolume name).
Proof.
  intros H. unfold getVolume. keeps_unfold.
  apply keeps_bind; [apply keeps_get|intros d].
  apply keeps_bind; [apply keeps_request, H|intros r].
  apply keeps_bind; [destruct r; [apply keeps_ret|apply keeps_panic]|intros l].
  destruct l as [|v [|]]; apply keeps_ret.
Qed.

Lemma waitForExit_loop_keeps {T} (f : DockerExecutor -> T) fuel eid :
  (forall e d, f (emit e d) = f d) -> keeps f (waitForExit_loop fuel eid).
Proof.
  intros H. induction fuel as [|fuel IH]; cbn [waitForExit_loop].
  - apply keeps_spin.
  - keeps_unfold.
    apply keeps_bind; [apply keeps_get|intros d].
    apply keeps_bind; [apply keeps_request, H|intros r].
    apply keeps_bind; [destruct r; [apply keeps_ret|apply keeps_panic]|intros i].
    destruct (negb _); [apply keeps_ret|].
    apply keeps_bind; [apply keeps_modify; intros; apply H | intros _; exact IH].
Qed.

(** Start's body never touches the client nor the descriptor. *)
Lemma Start_body_keeps_cli fuel : keeps cli (Start_body host fuel).
Proof.
  unfold Start_body, pullImage, startContainer, tryToResume, copyPlugins,
    runCmdInContainer, waitForExit, exportEnv, Start_finish.
  keeps_unfold.
  repeat first [ apply waitForExit_loop_keeps; intros; reflexivity | keeps_step ].
Qed.

Lemma Start_body_keeps_inCmd fuel :
  keeps (fun d => inCmd (base d)) (Start_body host fuel).
Proof.
  unfold Start_body, pullImage, startContainer, tryToResume, copyPlugins,
    runCmdInContainer, waitForExit, exportEnv, Start_finish.
  keeps_unfold.
  repeat first [ apply waitForExit_loop_keeps; intros; reflexivity | keeps_step ].
Qed.

(** The deferred function of Start after a body that panicked with
    [err]: handleErrors, then the cleanup when the client is there,
    then the channels are closed. *)
Lemma Start_deferred_recovered err d :
  cleanable d ->
  exists d1,
    handleErrors host err d
      = Ret (if decide (err = DeadlineExceeded) then None
             else if decide (err = Canceled) then None else Some err) d1 /\
    Start_deferred host (Some err) None d
      = Ret (if decide (err = DeadlineExceeded) then None
             else if decide (err = Canceled) then None else Some err)
            (emit EvCloseChannels
               (match cli d1 with
                | Some _ => emits (cleanupPolicy d1) d1
                | None => d1
                end)).
Proof.
  intros Hc.
  destruct (handleErrors_returns host err d) as (d1 & Hh & Hcli & Hin & _).
  exists d1. split; [exact Hh|].
  pose proof (cleanable_eq d d1 Hcli Hin Hc) as Hc1.
  unfold Start_deferred, closeChannels.
  unfold mbind at 1. unfold M_bind at 1. rewrite Hh.
  exec_simpl. destruct (cli d1) as [k|] eqn:Hk; [|reflexivity].
  destruct Hc1 as [Hc1|Hc1]; [congruence|].
  rewrite (cleanupContainer_policy d1 k Hk Hc1). reflexivity.
Qed.

(** The deferred function of Start on an executor with a client and no
    container spec, after a body that panicked: handleErrors has set the
    status of the error, then the cleanup panics, the channels are not
    closed, and the panic leaves Start. *)
Lemma Start_deferred_recovered_without_spec err d k :
  cli d = Some k ->
  domain.Docker (inCmd (base d)) = None ->
  exists d1,
    handleErrors host err d
      = Ret (if decide (err = DeadlineExceeded) then None
             else if decide (err = Canceled) then None else Some err) d1 /\
    Start_deferred host (Some err) None d = Panic ErrNilPointer d1.
Proof.
  intros Hk Hspec.
  destruct (handleErrors_returns host err d) as (d1 & Hh & Hcli & Hin & _).
  exists d1. split; [exact Hh|].
  unfold Start_deferred.
  unfold mbind at 1. unfold M_bind at 1. rewrite Hh.
  exec_simpl. rewrite Hcli, Hk.
  rewrite (cleanupContainer_without_spec d1); [reflexivity|congruence].
Qed.

Lemma cleanupPolicy_eq d d' :
  base d' = base d -> containerId d' = containerId d ->
  cleanupPolicy d' = cleanupPolicy d.
Proof. intros Hb Hc. unfold cleanupPolicy, policyRequest. now rewrite Hb, Hc. Qed.

Lemma cleanupPolicy_spec d option :
  domain.Docker (inCmd (base d)) = Some option ->
  cleanupPolicy d = policyRequest option d.
Proof. intros H. unfold cleanupPolicy. now rewrite H. Qed.

(** Start's body leaves a cleanable executor cleanable. *)
Lemma Start_body_cleanable fuel d :
  cleanable d ->
  match Start_body host fuel d with
  | Ret _ d1 | Panic _ d1 => cleanable d1
  | Spin => True
  end.
Proof.
  intros Hc.
  pose proof (Start_body_keeps_cli fuel d) as Hcli.
  pose proof (Start_body_keeps_inCmd fuel d) as Hin.
  destruct (Start_body host fuel d); try exact I; now apply (cleanable_eq d).
Qed.

(** The end of Start's body returns nil, always. *)
Lemma Start_finish_nil exitCode d out d' :
  Start_finish host exitCode d = Ret out d' -> out = None.
Proof.
  unfold Start_finish, toFinishStatus. exec_simpl.
  destruct (domain.IsFinishStatus _); cbn; congruence.
Qed.

Lemma Start_body_nil fuel d out d' :
  Start_body host fuel d = Ret out d' -> out = None.
Proof.
  unfold Start_body. intros H.
  do 7 (apply bind_Ret_inv in H; destruct H as (? & ? & _ & H)).
  eapply Start_finish_nil, H.
Qed.

(** Start after a body that panicked with [e]. *)
Lemma Start_after_panic fuel d e d1 :
  cleanable d ->
  Start_body host fuel d = Panic e d1 ->
  exists d',
    Start host fuel d
      = Ret (if decide (e = DeadlineExceeded) then None
             else if decide (e = Canceled) then None else Some e) d' /\
    (e = Canceled ->
       domain.Status (CmdResult (base d')) = domain.CmdStatusKilled /\
       context (base d') = Background) /\
    (e = DeadlineExceeded ->
       domain.Status (CmdResult (base d')) = domain.CmdStatusTimeout /\
       context (base d') = Background) /\
    (e <> Canceled -> e <> DeadlineExceeded ->
       domain.Status (CmdResult (base d')) = domain.CmdStatusException /\
       domain.Error (CmdResult (base d')) = gostd.Error e /\
       context (base d') = context (base d1)) /\
    trace d'
      = EvCloseChannels
          :: (match cli d1 with
              | Some _ => cleanupPolicy d'
              | None => []
              end) ++ trace d1.
Proof.
  intros Hcl Hbody. unfold Start.
  pose proof (Start_body_cleanable fuel d Hcl) as Hcl1.
  rewrite Hbody in Hcl1 |- *.
  destruct (Start_deferred_recovered e d1 Hcl1) as (d2 & Hh & Hd).
  destruct (handleErrors_returns host e d1) as (d2' & Hh' & Hc & _ & _ & Ht & _).
  rewrite Hh in Hh'. injection Hh' as <-.
  rewrite Hd. eexists. split; [reflexivity|].
  assert (Hbase : base (emit EvCloseChannels
             (match cli d2 with
              | Some _ => emits (cleanupPolicy d2) d2
              | None => d2
              end)) = base d2).
  { destruct (cli d2); cbn; [apply base_emits | reflexivity]. }
  rewrite Hbase.
  unfold handleErrors, toTimeOutStatus, toKilledStatus, toErrorStatus in Hh.
  split; [|split; [|split]].
  - intros ->. exec_simpl. now injection Hh as <-.
  - intros ->. exec_simpl. now injection Hh as <-.
  - intros Hc1 Hc2.
    destruct (decide (e = DeadlineExceeded)); [congruence|].
    destruct (decide (e = Canceled)); [congruence|].
    exec_simpl. now injection Hh as <-.
  - rewrite <- Hc. destruct (cli d2); cbn [trace emit].
    + rewrite trace_emits, Ht. f_equal. f_equal.
      symmetry. apply cleanupPolicy_eq; cbn;
        [apply base_emits | apply containerId_emits].
    + now rewrite Ht.
Qed.

(** Start after a body that panicked with [e] in state [d1]: the
    result is the one of [d1] with what handleErrors writes for [e]. *)
Lemma Start_after_panic_result fuel d e d1 :
  cleanable d ->
  Start_body host fuel d = Panic e d1 ->
  exists d',
    Start host fuel d
      = Ret (if decide (e = DeadlineExceeded) then None
             else if decide (e = Canceled) then None else Some e) d' /\
    containerId d' = containerId d1 /\
    inCmd (base d') = inCmd (base d1) /\
    CmdResult (base d')
      = let r := with_FinishAt (Now host (trace d1)) (CmdResult (base d1)) in
        if decide (e = DeadlineExceeded)
        then with_Status domain.CmdStatusTimeout
               (with_Code domain.CmdExitCodeTimeOut r)
        else if decide (e = Canceled)
        then with_Status domain.CmdStatusKilled
               (with_Code domain.CmdExitCodeKilled r)
        else with_Status domain.CmdStatusException (with_Error (Error e) r).
Proof.
  intros Hcl Hbody. unfold Start.
  pose proof (Start_body_cleanable fuel d Hcl) as Hcl1.
  rewrite Hbody in Hcl1 |- *.
  destruct (Start_deferred_recovered e d1 Hcl1) as (d2 & Hh & Hd).
  rewrite Hd. eexists. split; [reflexivity|].
  assert (Hbase : base (emit EvCloseChannels
             (match cli d2 with
              | Some _ => emits (cleanupPolicy d2) d2
              | None => d2
              end)) = base d2).
  { destruct (cli d2); cbn; [apply base_emits | reflexivity]. }
  assert (Hid : containerId (emit EvCloseChannels
             (match cli d2 with
              | Some _ => emits (cleanupPolicy d2) d2
              | None => d2
              end)) = containerId d2).
  { destruct (cli d2); cbn; [apply containerId_emits | reflexivity]. }
  rewrite Hbase, Hid. clear Hbase Hid Hd.
  unfold handleErrors, toTimeOutStatus, toKilledStatus, toErrorStatus in Hh.
  destruct (decide (e = DeadlineExceeded)); [|destruct (decide (e = Canceled))];
    exec_simpl; injection Hh as <-; repeat split.
Qed.

(** Start on an executor with a client whose descriptor has no
    container spec: the deferred cleanup dereferences the nil pointer
    after recover() has been used, so Start panics instead of returning,
    and the channels are not closed. *)
Lemma Start_without_spec_panics fuel d k :
  cli d = Some k ->
  domain.Docker (inCmd (base d)) = None ->
  Start_body host fuel d <> Spin ->
  exists d' added,
    Start host fuel d = Panic ErrNilPointer d' /\
    trace d' = added ++ trace d /\
    ~ In EvCloseChannels added.
Proof.
  intros Hk Hspec Hspin. unfold Start.
  pose proof (Start_body_keeps_cli fuel d) as Hcli.
  pose proof (Start_body_keeps_inCmd fuel d) as Hin.
  pose proof (Start_body_sends host fuel d) as Hs. unfold sends in Hs.
  destruct (Start_body host fuel d) as [out d1|e d1|]; [| |congruence].
  - rewrite (Start_deferred_returned_without_spec host out d1 k); [|congruence..].
    destruct Hs as (_ & evs & Ht & HP). exists d1, evs.
    split; [reflexivity|]. split; [exact Ht|].
    rewrite List.Forall_forall in HP. intros H. exact (HP _ H).
  - destruct (Start_deferred_recovered_without_spec e d1 k)
      as (d2 & Hh & Hd); [congruence..|].
    destruct (handleErrors_returns host e d1) as (d2' & Hh' & _ & _ & _ & Ht2 & _).
    rewrite Hh in Hh'. injection Hh' as <-.
    destruct Hs as (_ & evs & Ht & HP). exists d2, evs.
    split; [exact Hd|]. split; [congruence|].
    rewrite List.Forall_forall in HP. intros H. exact (HP _ H).
Qed.

(** A run of Start that returns was one on a cleanable executor. *)
Lemma Start_returns_cleanable fuel d out d' :
  Start host fuel d = Ret out d' -> cleanable d.
Proof.
  intros HS. destruct (cleanable_dec d) as [H|[[k Hk] Hspec]]; [exact H|].
  exfalso. unfold Start in HS.
  pose proof (Start_body_keeps_cli fuel d) as Hcli.
  pose proof (Start_body_keeps_inCmd fuel d) as Hin.
  destruct (Start_body host fuel d) as [o d1|e d1|]; [| |discriminate].
  - rewrite (Start_deferred_returned_without_spec host o d1 k) in HS;
      [discriminate|congruence..].
  - destruct (Start_deferred_recovered_without_spec e d1 k)
      as (d2 & _ & Hd); [congruence..|].
    rewrite Hd in HS. discriminate.
Qed.

(** C8, as the code has it, for an executor with a client
    (d.cli != nil) and a descriptor with the container spec [option].
    On every exit of Start, whether the body returned or panicked in
    state [d1], the deferred function sends the request of the cleanup
    policy and then closes the channels: a forced removal of the
    executor's container when deleteOnExit is set (whatever stopOnExit
    says), otherwise a stop when stopOnExit is set, otherwise nothing.
    Nothing lies between the body's last event and that request; and
    the body itself has stopped no container and removed none but the
    container named for the resume. *)
Theorem Start_cleanup_policy (fuel : nat) (d d1 : DockerExecutor)
  (k : client.Client) (option : domain.DockerOption) :
  cli d = Some k ->
  domain.Docker (inCmd (base d)) = Some option ->
  (exists out, Start_body host fuel d = Ret out d1) \/
  (exists e, Start_body host fuel d = Panic e d1) ->
  exists out d' body,
    Start host fuel d = Ret out d' /\
    containerId d' = containerId d1 /\
    trace d'
      = EvCloseChannels
          :: (if domain.IsDeleteContainer option then
                [EvCall (ReqContainerRemove (context (base d'))
                           (containerId d1) true)]
              else if domain.IsStopContainer option then
                [EvCall (ReqContainerStop (context (base d')) (containerId d1))]
              else [])
          ++ trace d1 /\
    trace d1 = body ++ trace d /\
    (forall ctx id, ~ In (EvCall (ReqContainerStop ctx id)) body) /\
    (forall ctx id force,
       In (EvCall (ReqContainerRemove ctx id force)) body ->
       id = domain.CmdIn_ContainerId (inCmd (base d)) /\ force = true).
Proof.
  intros Hk Hspec Hbody.
  pose proof (cleanable_spec d option Hspec) as Hcl.
  pose proof (Start_body_cleanable fuel d Hcl) as Hcl1.
  pose proof (Start_body_keeps_cli fuel d) as Hcli.
  pose proof (Start_body_keeps_inCmd fuel d) as Hin.
  pose proof (Start_body_sends host fuel d) as Hs. unfold sends in Hs.
  assert (Hbody' : exists evs,
            trace d1 = evs ++ trace d /\
            Forall (bodyEvent (context (base d))
                      (domain.CmdIn_ContainerId (inCmd (base d)))) evs /\
            cli d1 = Some k /\ inCmd (base d1) = inCmd (base d) /\ cleanable d1).
  { destruct Hbody as [[out Hb]|[e Hb]]; rewrite Hb in *;
      destruct Hs as (_ & evs & Ht & HP); exists evs; repeat split;
      try assumption; congruence. }
  destruct Hbody' as (body & Ht1 & HP & Hk1 & Hin1 & Hc1).
  assert (Hevents :
    (forall ctx id, ~ In (EvCall (ReqContainerStop ctx id)) body) /\
    (forall ctx id force,
       In (EvCall (ReqContainerRemove ctx id force)) body ->
       id = domain.CmdIn_ContainerId (inCmd (base d)) /\ force = true)).
  { rewrite List.Forall_forall in HP. split.
    - intros ctx id H. exact (HP _ H).
    - intros ctx id force H. specialize (HP _ H). cbn in HP. tauto. }
  destruct Hbody as [[out Hb]|[e Hb]].
  - unfold Start. rewrite Hb, (Start_deferred_returned host _ _ Hc1), Hk1.
    eexists out, _, body. split; [reflexivity|].
    split; [cbn; apply containerId_emits|].
    split; [|split; [exact Ht1|exact Hevents]].
    cbn [trace emit]. rewrite trace_emits. f_equal. f_equal.
    rewrite (cleanupPolicy_spec d1 option) by congruence.
    unfold policyRequest. cbn. now rewrite base_emits.
  - destruct (Start_after_panic fuel d e d1 Hcl Hb) as (d' & HS & _ & _ & _ & Htr).
    destruct (Start_after_panic_result fuel d e d1 Hcl Hb)
      as (d'' & HS' & Hid & Hin' & _).
    rewrite HS in HS'. injection HS' as <-.
    eexists _, d', body. split; [exact HS|]. split; [exact Hid|].
    split; [|split; [exact Ht1|exact Hevents]].
    rewrite Htr, Hk1, (cleanupPolicy_spec d' option) by congruence.
    unfold policyRequest. now rewrite Hid.
Qed.

(** C1, as the code has it, for a descriptor with a container spec.
    When Start's body panics with [e], Start returns all the same, and
    - for context.Canceled the status is Killed, the context is reset
      to the background context and Start returns nil;
    - for context.DeadlineExceeded the status is Timeout, with the same
      reset, and Start returns nil;
    - for any other error the status is Exception, the error field
      holds the error's message, the context stays, and Start returns
      that very error.
    In each case the cleanup of the deferred function runs under the
    context the executor then has.  When the body returns (whatever
    the exit code), Start returns nil. *)
Theorem Start_error_mapping (fuel : nat) (d : DockerExecutor)
  (option : domain.DockerOption) :
  domain.Docker (inCmd (base d)) = Some option ->
  (forall e d1, Start_body host fuel d = Panic e d1 ->
     exists d',
       Start host fuel d
         = Ret (if decide (e = DeadlineExceeded) then None
                else if decide (e = Canceled) then None else Some e) d' /\
       (e = Canceled ->
          domain.Status (CmdResult (base d')) = domain.CmdStatusKilled /\
          context (base d') = Background) /\
       (e = DeadlineExceeded ->
          domain.Status (CmdResult (base d')) = domain.CmdStatusTimeout /\
          context (base d') = Background) /\
       (e <> Canceled -> e <> DeadlineExceeded ->
          domain.Status (CmdResult (base d')) = domain.CmdStatusException /\
          domain.Error (CmdResult (base d')) = gostd.Error e /\
          context (base d') = context (base d1)) /\
       trace d'
         = EvCloseChannels
             :: (match cli d1 with
                 | Some _ => policyRequest option d'
                 | None => []
                 end) ++ trace d1) /\
  (forall out d1, Start_body host fuel d = Ret out d1 ->
     exists d', Start host fuel d = Ret None d').
Proof.
  intros Hspec. pose proof (cleanable_spec d option Hspec) as Hcl. split.
  - intros e d1 Hbody.
    destruct (Start_after_panic fuel d e d1 Hcl Hbody)
      as (d' & HS & Hcan & Hdl & Hoth & Htr).
    destruct (Start_after_panic_result fuel d e d1 Hcl Hbody)
      as (d'' & HS' & _ & Hin & _).
    rewrite HS in HS'. injection HS' as <-.
    pose proof (Start_body_keeps_inCmd fuel d) as Hin1. rewrite Hbody in Hin1.
    exists d'. repeat (split; [assumption|]).
    rewrite Htr, (cleanupPolicy_spec d' option); [reflexivity|congruence].
  - intros out d1 Hbody. unfold Start.
    pose proof (Start_body_cleanable fuel d Hcl) as Hcl1.
    rewrite Hbody in Hcl1 |- *.
    rewrite (Start_body_nil _ _ _ _ Hbody), (Start_deferred_returned host _ _ Hcl1).
    eexists. reflexivity.
Qed.

End StartFacts.

Section ResumeFacts.
Context (d : DockerExecutor) (k : client.Client) (Hk : cli d = Some k).

(** tryToResume, case by case of the daemon's answers. *)
Lemma tryToResume_cases :
  let id := domain.CmdIn_ContainerId (inCmd (base d)) in
  let ctx := context (base d) in
  let inspectEv := EvCall (ReqContainerInspect ctx id) in
  let restartEv := EvCall (ReqContainerRestart ctx id (5 * Second)) in
  let removeEv := EvCall (ReqContainerRemove ctx id true) in
  tryToResume d =
    if util.IsEmptyString id then Ret false d
    else
      match client.ContainerInspect k (trace d) ctx id with
      | Err e =>
          if client.IsErrContainerNotFound (Some e)
          then Ret false (emit inspectEv d)
          else Panic e (emit inspectEv d)
      | Ok inspect =>
          if negb (String.eqb (types.StateStatus inspect) "exited")
          then Ret false (emit inspectEv d)
          else
            match client.ContainerRestart k (inspectEv :: trace d) ctx id
                    (5 * Second) with
            | None =>
                Ret true
                  (set_CmdResult (with_ContainerId id)
                     (set_containerId id (emits [restartEv; inspectEv] d)))
            | Some _ =>
                Ret false (emits [removeEv; restartEv; inspectEv] d)
            end
      end.
Proof.
  intros id ctx inspectEv restartEv removeEv.
  unfold tryToResume, cli_ContainerInspect, cli_ContainerRestart,
    cli_ContainerRemove. exec_simpl. fold id ctx.
  destruct (util.IsEmptyString id); [reflexivity|].
  cbn. rewrite Hk. cbn.
  destruct (client.ContainerInspect k (trace d) ctx id) as [inspect|e]; cbn.
  - destruct (String.eqb _ _); cbn; [|reflexivity].
    rewrite Hk. cbn.
    destruct (client.ContainerRestart _ _ _ _ _); cbn; [|reflexivity].
    rewrite Hk. reflexivity.
  - destruct e; reflexivity.
Qed.

(** C2.  With a client, and [id] the containerId of the descriptor:
    - tryToResume reuses the container exactly when [id] is not empty,
      the inspection finds the container with status "exited", and the
      restart, asked with a timeout of five seconds, succeeds; the
      executor then holds [id] as its container, in the result too;
    - in that case startContainer creates nothing and the result's
      containerId is [id];
    - when the restart fails instead, the container is force-removed
      and a fresh container is asked for; the id the daemon answers
      with is the one recorded, in the executor and in the result
      (also when starting the fresh container then fails). *)
Theorem resume_semantics :
  let id := domain.CmdIn_ContainerId (inCmd (base d)) in
  let ctx := context (base d) in
  let inspectEv := EvCall (ReqContainerInspect ctx id) in
  let restartEv := EvCall (ReqContainerRestart ctx id (5 * Second)) in
  let removeEv := EvCall (ReqContainerRemove ctx id true) in
  let createEv :=
    EvCall (ReqContainerCreate ctx (containerConfig d) (hostConfig d)) in
  let startEv cid := EvCall (ReqContainerStart ctx cid) in
  (forall d',
     tryToResume d = Ret true d' <->
     id <> "" /\
     (exists inspect,
        client.ContainerInspect k (trace d) ctx id = Ok inspect /\
        types.StateStatus inspect = "exited") /\
     client.ContainerRestart k (inspectEv :: trace d) ctx id (5 * Second) = None /\
     d' = set_CmdResult (with_ContainerId id)
            (set_containerId id (emits [restartEv; inspectEv] d))) /\
  (forall d',
     tryToResume d = Ret true d' ->
     startContainer d = Ret tt d' /\
     domain.ContainerId (CmdResult (base d')) = id /\
     containerId d' = id) /\
  (forall inspect e cid,
     id <> "" ->
     client.ContainerInspect k (trace d) ctx id = Ok inspect ->
     types.StateStatus inspect = "exited" ->
     client.ContainerRestart k (inspectEv :: trace d) ctx id (5 * Second) = Some e ->
     client.ContainerCreate k (removeEv :: restartEv :: inspectEv :: trace d)
       ctx (containerConfig d) (hostConfig d) = Ok cid ->
     exists d',
       (startContainer d = Ret tt d' \/ exists e', startContainer d = Panic e' d') /\
       domain.ContainerId (CmdResult (base d')) = cid /\
       containerId d' = cid /\
       trace d'
         = startEv cid :: createEv :: removeEv :: restartEv :: inspectEv :: trace d).
Proof.
  intros id ctx inspectEv restartEv removeEv createEv startEv.
  pose proof tryToResume_cases as Hcases. cbv zeta in Hcases.
  fold id ctx inspectEv restartEv removeEv in Hcases.
  assert (Hreuse : forall d',
     tryToResume d = Ret true d' <->
     id <> "" /\
     (exists inspect,
        client.ContainerInspect k (trace d) ctx id = Ok inspect /\
        types.StateStatus inspect = "exited") /\
     client.ContainerRestart k (inspectEv :: trace d) ctx id (5 * Second) = None /\
     d' = set_CmdResult (with_ContainerId id)
            (set_containerId id (emits [restartEv; inspectEv] d))).
  { intros d'. rewrite Hcases. unfold util.IsEmptyString.
    destruct (String.eqb_spec id "") as [He|He].
    { split; [discriminate | tauto]. }
    destruct (client.ContainerInspect k (trace d) ctx id) as [inspect|e].
    - destruct (String.eqb_spec (types.StateStatus inspect) "exited") as [Hs|Hs]; cbn.
      + destruct (client.ContainerRestart k _ ctx id _).
        * split; [discriminate|]. intros (_ & _ & H & _). discriminate.
        * split.
          -- intros H. injection H as <-. eauto 10.
          -- intros (_ & _ & _ & ->). reflexivity.
      + split; [discriminate|].
        intros (_ & (i & Hi & Hs') & _). congruence.
    - split.
      + destruct (client.IsErrContainerNotFound _); discriminate.
      + intros (_ & (i & Hi & _) & _). discriminate. }
  split; [exact Hreuse|]. split.
  - intros d' H. pose proof H as H'. apply Hreuse in H' as (_ & _ & _ & ->).
    split; [|split; reflexivity].
    unfold startContainer. now rewrite (bind_Ret _ _ _ _ _ H).
  - intros inspect e cid Hid Hi Hs Hr Hc.
    assert (Htry : tryToResume d = Ret false (emits [removeEv; restartEv; inspectEv] d)).
    { rewrite Hcases. unfold util.IsEmptyString.
      destruct (String.eqb_spec id ""); [contradiction|].
      rewrite Hi, Hs. cbn. now rewrite Hr. }
    unfold startContainer. rewrite (bind_Ret _ _ _ _ _ Htry).
    unfold cli_ContainerCreate, cli_ContainerStart. exec_simpl.
    rewrite Hk. cbn. fold ctx. rewrite Hc. cbn. rewrite Hk. cbn.
    destruct (client.ContainerStart k _ ctx cid); eauto 10.
Qed.

End ResumeFacts.

Section InspectionFacts.
Context (host : Host).

(** C3, as the code has it, for a descriptor with a container spec.
    Start has pulled the image and reaches startContainer in state [d1],
    with a containerId to resume.  When the inspection of that container
    fails with an error other than container-not-found, startContainer
    panics with that error right after the inspection: no container is
    created (the executor's container id is as it was), nothing else is
    asked of the daemon but the cleanup, and the job is failed: the
    status is Timeout for context.DeadlineExceeded, Killed for
    context.Canceled, and Exception with the error's message for any
    other error, and Start returns nil for the two context errors and
    the error itself otherwise.  Only a container-not-found answer
    makes the executor go on: tryToResume answers false and
    startContainer asks for a fresh container next, whose id is the one
    recorded. *)
Theorem inspection_error_fails_the_job
  (fuel : nat) (d d1 : DockerExecutor) (k : client.Client)
  (option : domain.DockerOption) :
  domain.Docker (inCmd (base d)) = Some option ->
  (stdOutWg_Add 2 ≫= fun _ => pullImage) d = Ret tt d1 ->
  cli d1 = Some k ->
  let id := domain.CmdIn_ContainerId (inCmd (base d1)) in
  let ctx := context (base d1) in
  let inspectEv := EvCall (ReqContainerInspect ctx id) in
  util.IsEmptyString id = false ->
  (forall e,
     client.ContainerInspect k (trace d1) ctx id = Err e ->
     client.IsErrContainerNotFound (Some e) = false ->
     startContainer d1 = Panic e (emit inspectEv d1) /\
     exists d',
       Start host fuel d
         = Ret (if decide (e = DeadlineExceeded) then None
                else if decide (e = Canceled) then None else Some e) d' /\
       domain.Status (CmdResult (base d'))
         = (if decide (e = DeadlineExceeded) then domain.CmdStatusTimeout
            else if decide (e = Canceled) then domain.CmdStatusKilled
            else domain.CmdStatusException) /\
       (e <> Canceled -> e <> DeadlineExceeded ->
          domain.Error (CmdResult (base d')) = gostd.Error e) /\
       containerId d' = containerId d1 /\
       trace d' = EvCloseChannels :: policyRequest option d' ++ inspectEv :: trace d1) /\
  (forall e,
     client.ContainerInspect k (trace d1) ctx id = Err e ->
     client.IsErrContainerNotFound (Some e) = true ->
     tryToResume d1 = Ret false (emit inspectEv d1) /\
     forall cid,
       client.ContainerCreate k (inspectEv :: trace d1) ctx
         (containerConfig d1) (hostConfig d1) = Ok cid ->
       exists d2,
         (startContainer d1 = Ret tt d2 \/
          exists e', startContainer d1 = Panic e' d2) /\
         containerId d2 = cid /\
         trace d2
           = EvCall (ReqContainerStart ctx cid)
               :: EvCall (ReqContainerCreate ctx (containerConfig d1) (hostConfig d1))
               :: inspectEv :: trace d1).
Proof.
  intros Hspec Hpull Hk id ctx inspectEv Hid.
  pose proof (cleanable_spec d option Hspec) as Hcl. split.
  - intros e Hi Hnf.
    assert (Htry : tryToResume d1 = Panic e (emit inspectEv d1)).
    { rewrite (tryToResume_cases d1 k Hk). cbv zeta. fold id ctx inspectEv.
      now rewrite Hid, Hi, Hnf. }
    assert (Hstart : startContainer d1 = Panic e (emit inspectEv d1)).
    { unfold startContainer. now rewrite (bind_Panic _ _ _ _ _ Htry). }
    split; [exact Hstart|].
    assert (Hbody : Start_body host fuel d = Panic e (emit inspectEv d1)).
    { unfold Start_body.
      rewrite <- (bind_assoc (stdOutWg_Add 2) (fun _ => pullImage)).
      rewrite (bind_Ret _ _ _ _ _ Hpull).
      now rewrite (bind_Panic _ _ _ _ _ Hstart). }
    destruct (Start_after_panic host fuel d _ _ Hcl Hbody)
      as (d' & HS & _ & _ & _ & Htr).
    destruct (Start_after_panic_result host fuel d _ _ Hcl Hbody)
      as (d'' & HS' & Hcid & Hin & Hres).
    rewrite HS in HS'. injection HS' as <-.
    pose proof (Start_body_keeps_inCmd host fuel d) as Hin0.
    rewrite Hbody in Hin0.
    exists d'. split; [exact HS|]. split; [|split; [|split]].
    + rewrite Hres. cbv zeta.
      destruct (decide (e = DeadlineExceeded)); [reflexivity|].
      destruct (decide (e = Canceled)); reflexivity.
    + intros Hc Hd. rewrite Hres. cbv zeta.
      destruct (decide (e = DeadlineExceeded)); [contradiction|].
      destruct (decide (e = Canceled)); [contradiction|]. reflexivity.
    + exact Hcid.
    + rewrite Htr. cbn [cli emit trace]. rewrite Hk.
      rewrite (cleanupPolicy_spec d' option); [reflexivity|congruence].
  - intros e Hi Hnf.
    assert (Htry : tryToResume d1 = Ret false (emit inspectEv d1)).
    { rewrite (tryToResume_cases d1 k Hk). cbv zeta. fold id ctx inspectEv.
      now rewrite Hid, Hi, Hnf. }
    split; [exact Htry|]. intros cid Hc.
    unfold startContainer. rewrite (bind_Ret _ _ _ _ _ Htry).
    unfold cli_ContainerCreate, cli_ContainerStart. exec_simpl.
    rewrite Hk. cbn. fold ctx. rewrite Hc. cbn. rewrite Hk. cbn.
    destruct (client.ContainerStart k _ ctx cid); eauto 10.
Qed.

End InspectionFacts.

Section ExitFacts.
Context (host : Host).

Lemma Start_body_split fuel d :
  Start_body host fuel d
    = (Start_untilExit host fuel ≫= fun exitCode =>
         exportEnv host ≫= fun _ => Start_finish host exitCode) d.
Proof.
  unfold Start_body, Start_untilExit. unfold mbind, M_bind.
  destruct (stdOutWg_Add 2 d) as [? d1|? ?|]; [|reflexivity..].
  destruct (pullImage d1) as [? d2|? ?|]; [|reflexivity..].
  destruct (startContainer d2) as [? d3|? ?|]; [|reflexivity..].
  destruct (copyPlugins host d3) as [? d4|? ?|]; [|reflexivity..].
  destruct (runCmdInContainer host d4) as [eid d5|? ?|]; [|reflexivity..].
  destruct (waitForExit host fuel eid d5); reflexivity.
Qed.

(** When waitForExit returns, the status is Running: toStartStatus set
    it and the polling loop leaves the result alone. *)
Lemma waitForExit_running fuel eid d exitCode d1 :
  waitForExit host fuel eid d = Ret exitCode d1 ->
  domain.Status (CmdResult (base d1)) = domain.CmdStatusRunning.
Proof.
  unfold waitForExit. intros H.
  do 3 (apply bind_Ret_inv in H; destruct H as (? & ? & _ & H)).
  apply bind_Ret_inv in H. destruct H as (? & d0 & Hs & H).
  pose proof (waitForExit_loop_keeps (fun d => CmdResult (base d))
                fuel eid (fun _ _ => eq_refl) d0) as Hkeep.
  rewrite H in Hkeep. rewrite Hkeep.
  unfold toStartStatus, modify in Hs. injection Hs as Hs. subst d0. reflexivity.
Qed.

Lemma Start_untilExit_running fuel d exitCode d1 :
  Start_untilExit host fuel d = Ret exitCode d1 ->
  domain.Status (CmdResult (base d1)) = domain.CmdStatusRunning.
Proof.
  unfold Start_untilExit. intros H.
  do 5 (apply bind_Ret_inv in H; destruct H as (? & ? & _ & H)).
  eapply waitForExit_running, H.
Qed.

(** Nothing before exportEnv writes the output mapping or the error
    field of the result. *)
Lemma Start_untilExit_keeps_Output fuel :
  keeps (fun d => domain.Output (CmdResult (base d))) (Start_untilExit host fuel).
Proof.
  unfold Start_untilExit, pullImage, startContainer, tryToResume, copyPlugins,
    runCmdInContainer, waitForExit.
  keeps_unfold.
  repeat first [ apply waitForExit_loop_keeps; intros; reflexivity | keeps_step ].
Qed.

Lemma Start_untilExit_keeps_Error fuel :
  keeps (fun d => domain.Error (CmdResult (base d))) (Start_untilExit host fuel).
Proof.
  unfold Start_untilExit, pullImage, startContainer, tryToResume, copyPlugins,
    runCmdInContainer, waitForExit.
  keeps_unfold.
  repeat first [ apply waitForExit_loop_keeps; intros; reflexivity | keeps_step ].
Qed.

(** C9.  The descriptor has a container spec, the command has exited
    with [exitCode] and Start reaches exportEnv in state [d1].  When the copy of the env-dump file out of
    the container fails, exportEnv returns with nothing but the request
    recorded: no panic, no error kept.  Start then returns nil, the
    status is the one of the exit code (Success for 0), and the output
    mapping and the error field of the result are still what they were
    before Start: a run can end in Success with the output mapping
    unset. *)
Theorem exportEnv_failure_is_silent
  (fuel : nat) (d d1 : DockerExecutor) (k : client.Client) (exitCode : Z)
  (e : error) (option : domain.DockerOption) :
  domain.Docker (inCmd (base d)) = Some option ->
  Start_untilExit host fuel d = Ret exitCode d1 ->
  cli d1 = Some k ->
  client.CopyFromContainer k (trace d1) (context (base d1)) (containerId d1)
    dockerEnvFile = Err e ->
  exportEnv host d1
    = Ret tt (emit (EvCall (ReqCopyFromContainer (context (base d1))
                              (containerId d1) dockerEnvFile)) d1) /\
  exists d',
    Start host fuel d = Ret None d' /\
    domain.Status (CmdResult (base d'))
      = (if Z.eqb exitCode 0 then domain.CmdStatusSuccess
         else domain.CmdStatusException) /\
    domain.Code (CmdResult (base d')) = exitCode /\
    domain.Output (CmdResult (base d')) = domain.Output (CmdResult (base d)) /\
    domain.Error (CmdResult (base d')) = domain.Error (CmdResult (base d)).
Proof.
  intros Hspec Hrun Hk Hcopy.
  assert (Hexp : exportEnv host d1
    = Ret tt (emit (EvCall (ReqCopyFromContainer (context (base d1))
                              (containerId d1) dockerEnvFile)) d1)).
  { unfold exportEnv, cli_CopyFromContainer. exec_simpl.
    rewrite Hk. cbn. now rewrite Hcopy. }
  split; [exact Hexp|].
  pose proof (Start_untilExit_running _ _ _ _ Hrun) as Hst.
  pose proof (Start_untilExit_keeps_Output fuel d) as Hout.
  pose proof (Start_untilExit_keeps_Error fuel d) as Herr.
  rewrite Hrun in Hout, Herr.
  set (d2 := emit (EvCall (ReqCopyFromContainer (context (base d1))
                             (containerId d1) dockerEnvFile)) d1) in *.
  assert (Hfin : exists d3,
    Start_finish host exitCode d2 = Ret None d3 /\
    cli d3 = cli d2 /\
    CmdResult (base d3)
      = with_Status (if Z.eqb exitCode 0 then domain.CmdStatusSuccess
                     else domain.CmdStatusException)
          (with_Code exitCode
             (with_FinishAt (Now host (trace d2)) (CmdResult (base d1))))).
  { unfold Start_finish, toFinishStatus. exec_simpl.
    unfold domain.IsFinishStatus. rewrite Hst. cbn.
    eexists. split; [reflexivity|]. split; reflexivity. }
  destruct Hfin as (d3 & Hfin & Hc3 & Hr3).
  pose proof (Start_body_cleanable host fuel d (cleanable_spec d option Hspec))
    as Hcl3.
  unfold Start. rewrite Start_body_split in Hcl3 |- *.
  rewrite (bind_Ret _ _ _ _ _ Hrun), (bind_Ret _ _ _ _ _ Hexp), Hfin in Hcl3 |- *.
  rewrite (Start_deferred_returned host _ _ Hcl3).
  eexists. split; [reflexivity|].
  rewrite <- Hout, <- Herr.
  assert (Hb : CmdResult (base (emit EvCloseChannels
                 (match cli d3 with
                  | Some _ => emits (cleanupPolicy d3) d3
                  | None => d3
                  end))) = CmdResult (base d3)).
  { destruct (cli d3); cbn; rewrite ?base_emits; reflexivity. }
  rewrite Hb, Hr3. repeat split.
Qed.

(** exportEnv writes the output mapping and the trace only. *)
Lemma exportEnv_keeps {T} (f : DockerExecutor -> T) :
  (forall e d, f (emit e d) = f d) ->
  (forall o d, f (set_CmdResult (with_Output o) d) = f d) ->
  keeps f (exportEnv host).
Proof.
  intros He Ho. unfold exportEnv, cli_CopyFromContainer.
  apply keeps_bind; [apply keeps_get|intros d0].
  apply keeps_bind; [apply keeps_request, He|intros r].
  destruct r; [apply keeps_modify; intros; apply Ho | apply keeps_ret].
Qed.

(** The end of Start's body does not panic and has no polling. *)
Lemma Start_finish_returns exitCode d :
  exists d',
    Start_finish host exitCode d = Ret None d' /\
    trace d' = trace d /\
    containerId d' = containerId d /\
    CmdResult (base d')
      = if domain.IsFinishStatus (CmdResult (base d)) then CmdResult (base d)
        else with_Status
               (if Z.eqb exitCode domain.CmdExitCodeSuccess
                then domain.CmdStatusSuccess else domain.CmdStatusException)
               (with_Code exitCode
                  (with_FinishAt (Now host (trace d)) (CmdResult (base d)))).
Proof.
  unfold Start_finish, toFinishStatus. exec_simpl.
  destruct (domain.IsFinishStatus (CmdResult (base d))); cbn;
    eexists; repeat split.
Qed.

(** Up to the exit of the command, Start's body writes no status but
    Running, and no exit code. *)
Lemma Start_untilExit_status d0 fuel d :
  statusInv d0 d ->
  sends (statusInv d0) (fun _ => True) (Start_untilExit host fuel) d.
Proof.
  intros HI.
  assert (Hloop : forall fuel eid d1,
            statusInv d0 d1 ->
            sends (statusInv d0) (fun _ => True) (waitForExit_loop fuel eid) d1).
  { clear. induction fuel as [|fuel IH]; intros eid d1 HI; cbn [waitForExit_loop].
    - apply sends_spin.
    - unfold statusInv in *. sends_tac. apply IH. assumption. }
  unfold Start_untilExit, pullImage, startContainer, tryToResume, copyPlugins,
    runCmdInContainer, waitForExit.
  unfold statusInv in *.
  keeps_unfold.
  repeat first [ apply Hloop; sends_side
               | sends_step; sends_side ].
Qed.

Lemma statusInv_refl d : statusInv d d.
Proof. split; [now left | reflexivity]. Qed.

(** Start's body never leaves with a polling loop that has ended
    unless it returned or panicked; when it panics, the command's exit
    was not reached or the copy of the env dump panicked: no status but
    Running and no exit code have been written. *)
Lemma Start_body_panic_status fuel d e d1 :
  Start_body host fuel d = Panic e d1 ->
  (domain.Status (CmdResult (base d1)) = domain.Status (CmdResult (base d)) \/
   domain.Status (CmdResult (base d1)) = domain.CmdStatusRunning) /\
  domain.Code (CmdResult (base d1)) = domain.Code (CmdResult (base d)).
Proof.
  rewrite Start_body_split. unfold mbind, M_bind.
  pose proof (Start_untilExit_status d fuel d (statusInv_refl d)) as Hs.
  unfold sends in Hs.
  destruct (Start_untilExit host fuel d) as [c d0|e0 d0|]; [| |discriminate].
  - destruct Hs as (HJ & _).
    pose proof (exportEnv_keeps
                  (fun d => (domain.Status (CmdResult (base d)),
                             domain.Code (CmdResult (base d))))
                  (fun _ _ => eq_refl) (fun _ _ => eq_refl) d0) as Hk.
    destruct (exportEnv host d0) as [[] d2|e2 d2|]; [| |discriminate].
    + destruct (Start_finish_returns c d2) as (d3 & -> & _). discriminate.
    + intros H. injection H as <- <-. injection Hk as -> ->. exact HJ.
  - intros H. injection H as <- <-. exact (proj1 Hs).
Qed.

(** C4.  For a descriptor with a container spec, every run of Start
    assigns one terminal status, at its end:
    - when the body panics with [e] in state [d1], nothing but Running
      has been written to the status and nothing to the exit code, and
      the deferred function records the status of [e] (Timeout, Killed
      or Exception), whatever the status was;
    - when the command has exited with [exitCode], the status is
      Running through exportEnv, and the normal-exit transition records
      Success or Exception with that exit code.
    The normal-exit transition is guarded: in whatever state [d2] the
    body reaches its last step, when the result holds a finish status
    there the step is a no-op, status and exit code stay as they are,
    also through the deferred function. *)
Theorem Start_finish_first_status_wins (fuel : nat) (d : DockerExecutor)
  (option : domain.DockerOption) :
  domain.Docker (inCmd (base d)) = Some option ->
  (forall e d1,
     Start_body host fuel d = Panic e d1 ->
     (domain.Status (CmdResult (base d1)) = domain.Status (CmdResult (base d)) \/
      domain.Status (CmdResult (base d1)) = domain.CmdStatusRunning) /\
     domain.Code (CmdResult (base d1)) = domain.Code (CmdResult (base d)) /\
     exists d',
       Start host fuel d
         = Ret (if decide (e = DeadlineExceeded) then None
                else if decide (e = Canceled) then None else Some e) d' /\
       domain.Status (CmdResult (base d'))
         = (if decide (e = DeadlineExceeded) then domain.CmdStatusTimeout
            else if decide (e = Canceled) then domain.CmdStatusKilled
            else domain.CmdStatusException)) /\
  (forall exitCode d1 d2,
     Start_untilExit host fuel d = Ret exitCode d1 ->
     exportEnv host d1 = Ret tt d2 ->
     domain.Status (CmdResult (base d1)) = domain.CmdStatusRunning /\
     domain.Status (CmdResult (base d2)) = domain.CmdStatusRunning /\
     domain.Code (CmdResult (base d2)) = domain.Code (CmdResult (base d)) /\
     exists d',
       Start host fuel d = Ret None d' /\
       domain.Status (CmdResult (base d'))
         = (if Z.eqb exitCode 0 then domain.CmdStatusSuccess
            else domain.CmdStatusException) /\
       domain.Code (CmdResult (base d')) = exitCode) /\
  (forall exitCode d2,
     domain.IsFinishStatus (CmdResult (base d2)) = true ->
     Start_finish host exitCode d2 = Ret None d2 /\
     (cleanable d2 ->
      exists d',
        (Start_finish host exitCode ≫= Start_deferred host None) d2 = Ret None d' /\
        CmdResult (base d') = CmdResult (base d2))).
Proof.
  intros Hspec. pose proof (cleanable_spec d option Hspec) as Hcl.
  split; [|split].
  - intros e d1 Hbody.
    destruct (Start_body_panic_status fuel d e d1 Hbody) as [Hst Hcode].
    split; [exact Hst|]. split; [exact Hcode|].
    destruct (Start_after_panic_result host fuel d e d1 Hcl Hbody)
      as (d' & HS & _ & _ & Hres).
    exists d'. split; [exact HS|]. rewrite Hres. cbv zeta.
    destruct (decide (e = DeadlineExceeded)); [reflexivity|].
    destruct (decide (e = Canceled)); reflexivity.
  - intros exitCode d1 d2 Hrun Hexp.
    pose proof (Start_untilExit_running _ _ _ _ Hrun) as Hst1.
    pose proof (Start_untilExit_status d fuel d (statusInv_refl d)) as Hs.
    unfold sends in Hs.
    rewrite Hrun in Hs. destruct Hs as ((_ & Hcode1) & _).
    pose proof (exportEnv_keeps
                  (fun d => (domain.Status (CmdResult (base d)),
                             domain.Code (CmdResult (base d))))
                  (fun _ _ => eq_refl) (fun _ _ => eq_refl) d1) as Hk.
    rewrite Hexp in Hk. injection Hk as Hst2 Hcode2.
    split; [exact Hst1|]. split; [congruence|]. split; [congruence|].
    destruct (Start_finish_returns exitCode d2) as (d3 & Hfin & _ & _ & Hres).
    unfold domain.IsFinishStatus in Hres. rewrite Hst2, Hst1 in Hres. cbn in Hres.
    pose proof (Start_body_cleanable host fuel d Hcl) as Hcl3.
    unfold Start. rewrite Start_body_split in Hcl3 |- *.
    rewrite (bind_Ret _ _ _ _ _ Hrun), (bind_Ret _ _ _ _ _ Hexp), Hfin in Hcl3 |- *.
    rewrite (Start_deferred_returned host _ _ Hcl3).
    eexists. split; [reflexivity|].
    assert (Hb : CmdResult (base (emit EvCloseChannels
                   (match cli d3 with
                    | Some _ => emits (cleanupPolicy d3) d3
                    | None => d3
                    end))) = CmdResult (base d3)).
    { destruct (cli d3); cbn; rewrite ?base_emits; reflexivity. }
    rewrite Hb, Hres. split; reflexivity.
  - intros exitCode d2 Hfin.
    assert (H : Start_finish host exitCode d2 = Ret None d2).
    { unfold Start_finish. exec_simpl. now rewrite Hfin. }
    split; [exact H|]. intros Hcl2.
    rewrite (bind_Ret _ _ _ _ _ H), (Start_deferred_returned host _ _ Hcl2).
    eexists. split; [reflexivity|].
    destruct (cli d2); cbn; rewrite ?base_emits; reflexivity.
Qed.

(** The polling loop, when it returns: its last inspection reported the
    session as not running and gave the exit code; before it there are
    only inspections of the same session and sleeps of one second; the
    executor is otherwise untouched. *)
Lemma waitForExit_loop_returns fuel eid : forall d exitCode d',
  waitForExit_loop fuel eid d = Ret exitCode d' ->
  let inspectEv := EvCall (ReqContainerExecInspect (context (base d)) eid) in
  exists k last polls,
    cli d = Some k /\
    base d' = base d /\
    trace d' = inspectEv :: polls ++ trace d /\
    client.ContainerExecInspect k (polls ++ trace d) (context (base d)) eid
      = Ok last /\
    types.Running last = false /\
    types.ExitCode last = exitCode /\
    Forall (fun ev => ev = EvSleep (1 * Second) \/ ev = inspectEv) polls.
Proof.
  induction fuel as [|fuel IH]; intros d exitCode d'; cbn [waitForExit_loop].
  - discriminate.
  - unfold cli_ContainerExecInspect, Sleep. exec_unfold. cbn.
    destruct (cli d) as [k|] eqn:Hk; [|discriminate]. cbn.
    destruct (client.ContainerExecInspect k (trace d) (context (base d)) eid)
      as [i|e] eqn:Hi; [|discriminate]. cbn.
    destruct (types.Running i) eqn:Hr; cbn.
    + intros H. apply IH in H. cbn in H.
      destruct H as (k' & last & polls & Hk' & Hb & Ht & Hl & Hrun & Hcode & Hall).
      rewrite Hk in Hk'. injection Hk' as <-.
      exists k, last,
        (polls ++ [EvSleep (1 * Second);
                   EvCall (ReqContainerExecInspect (context (base d)) eid)]).
      split; [reflexivity|]. split; [exact Hb|].
      split; [rewrite Ht, <- app_assoc; reflexivity|].
      split; [rewrite <- app_assoc; exact Hl|].
      split; [exact Hrun|]. split; [exact Hcode|].
      apply Forall_app. split; [exact Hall|].
      constructor; [now left|]. constructor; [now right|constructor].
    + intros H. injection H as <- <-.
      exists k, i, []. repeat split; try assumption. constructor.
Qed.





(** Every exit of Start leaves a finish status in the result. *)
Lemma Start_ends_in_a_finish_status fuel d out d' :
  Start host fuel d = Ret out d' ->
  domain.IsFinishStatus (CmdResult (base d')) = true.
Proof.
  intros HS. pose proof (Start_returns_cleanable host fuel d out d' HS) as Hcl.
  destruct (Start_body host fuel d) as [out1 d1|e1 d1|] eqn:Hbody.
  - pose proof (Start_body_cleanable host fuel d Hcl) as Hcl1.
    rewrite Hbody in Hcl1.
    unfold Start in HS. rewrite Hbody, (Start_deferred_returned host _ _ Hcl1) in HS.
    injection HS as _ <-.
    assert (Hfin : domain.IsFinishStatus (CmdResult (base d1)) = true).
    { rewrite Start_body_split in Hbody.
      do 2 (apply bind_Ret_inv in Hbody; destruct Hbody as (? & ? & _ & Hbody)).
      revert Hbody. unfold Start_finish, toFinishStatus. exec_simpl.
      destruct (domain.IsFinishStatus (CmdResult (base _))) eqn:Hf; cbn;
        intros H; injection H as _ <-; [exact Hf|].
      unfold domain.IsFinishStatus. cbn.
      destruct (Z.eqb _ _); reflexivity. }
    destruct (cli d1); cbn; rewrite ?base_emits; exact Hfin.
  - destruct (Start_after_panic host fuel d _ _ Hcl Hbody)
      as (d2 & HS2 & Hcan & Hdl & Hoth & _).
    rewrite HS2 in HS. injection HS as _ <-. unfold domain.IsFinishStatus.
    destruct (decide (e1 = Canceled)) as [->|Hc].
    { destruct (Hcan eq_refl) as [-> _]. reflexivity. }
    destruct (decide (e1 = DeadlineExceeded)) as [->|Hd].
    { destruct (Hdl eq_refl) as [-> _]. reflexivity. }
    destruct (Hoth Hc Hd) as [-> _]. reflexivity.
  - unfold Start in HS. rewrite Hbody in HS. discriminate.
Qed.

(** More fuel does not change a polling loop that has ended. *)
Lemma waitForExit_loop_more_fuel fuel n eid d :
  waitForExit_loop fuel eid d <> Spin ->
  waitForExit_loop (fuel + n) eid d = waitForExit_loop fuel eid d.
Proof.
  revert d. induction fuel as [|fuel IH]; intros d; cbn [waitForExit_loop Nat.add].
  - congruence.
  - unfold cli_ContainerExecInspect, Sleep. exec_unfold. cbn.
    destruct (cli d); [|reflexivity]. cbn.
    destruct (client.ContainerExecInspect _ _ _ _) as [i|]; [|reflexivity]. cbn.
    destruct (negb (types.Running i)); [reflexivity|]. cbn. apply IH.
Qed.

Lemma Start_more_fuel fuel n d :
  Start host fuel d <> Spin -> Start host (fuel + n) d = Start host fuel d.
Proof.
  unfold Start, Start_body, waitForExit. unfold mbind, M_bind.
  destruct (stdOutWg_Add 2 d) as [? d1|? ?|]; [|reflexivity..].
  destruct (pullImage d1) as [? d2|? ?|]; [|reflexivity..].
  destruct (startContainer d2) as [? d3|? ?|]; [|reflexivity..].
  destruct (copyPlugins host d3) as [? d4|? ?|]; [|reflexivity..].
  destruct (runCmdInContainer host d4) as [eid d5|? ?|]; [|reflexivity..].
  destruct (get d5) as [? d6|? ?|]; [|reflexivity..].
  destruct (cli_ContainerExecInspect _ _ d6) as [r d7|? ?|]; [|reflexivity..].
  destruct (valueOrPanic r d7) as [i d8|? ?|]; [|reflexivity..].
  destruct (toStartStatus host (types.Pid i) d8) as [? d9|? ?|]; [|reflexivity..].
  intros H. rewrite waitForExit_loop_more_fuel; [reflexivity|].
  intros Hspin. apply H. now rewrite Hspin.
Qed.

End ExitFacts.

(** C6.  pullImage asks the daemon for the image of the container
    configuration under the registry reference "docker.io/" + image when
    the image name contains a '/', and "docker.io/library/" + image
    otherwise; it panics with the daemon's error, or hands the reader of
    the pull to the log. *)
Theorem pullImage_reference
  (d : DockerExecutor) (k : client.Client) (config : types.ContainerConfig) :
  cli d = Some k ->
  containerConfig d = Some config ->
  let image := types.Image config in
  exists fullRef,
    (In "/"%char (list_ascii_of_string image) -> fullRef = "docker.io/" +:+ image) /\
    (~ In "/"%char (list_ascii_of_string image) ->
       fullRef = "docker.io/library/" +:+ image) /\
    pullImage d
      = let d1 := emit (EvCall (ReqImagePull (context (base d)) fullRef)) d in
        match client.ImagePull k (trace d) (context (base d)) fullRef with
        | Ok reader => Ret tt (emit (EvWriteLog reader) d1)
        | Err e => Panic e d1
        end.
Proof.
  intros Hk Hc image.
  exists (if Contains image "/" then "docker.io/" +:+ image
          else "docker.io/library/" +:+ image).
  split; [|split].
  - intros H. apply Contains_slash in H. now rewrite H.
  - intros H. apply Contains_slash_false in H. now rewrite H.
  - unfold pullImage, cli_ImagePull, writeLog. exec_simpl.
    rewrite Hc. cbn. rewrite Hk. cbn. fold image.
    destruct (client.ImagePull k _ _ _); reflexivity.
Qed.

Section ConfigFacts.
Context (host : Host).

(** The loop over the declared volumes writes the host configuration
    and the trace only. *)
Lemma bindVolumes_keeps {T} (f : DockerExecutor -> T) vs :
  (forall e d, f (emit e d) = f d) ->
  (forall h d, f (set_hostConfig h d) = f d) ->
  keeps f (bindVolumes host vs).
Proof.
  intros He Hh. induction vs as [|v vs IH]; cbn [bindVolumes].
  - apply keeps_ret.
  - apply keeps_bind; [apply getVolume_keeps, He|intros [ok ?]].
    apply keeps_bind; [|intros _; exact IH].
    destruct ok; [|apply keeps_ret].
    apply keeps_bind; [apply keeps_get|intros d].
    apply keeps_bind; [unfold deref; destruct (hostConfig d);
                       [apply keeps_ret|apply keeps_panic]|intros hc].
    apply keeps_modify. intros; apply Hh.
Qed.

(** The loop has no polling: it returns or panics. *)
Lemma bindVolumes_ends vs d : bindVolumes host vs d <> Spin.
Proof.
  revert d. induction vs as [|v vs IH]; intros d.
  - discriminate.
  - cbn [bindVolumes]. unfold getVolume, cli_VolumeList. exec_unfold.
    cbn. destruct (cli d); [|discriminate]. cbn.
    destruct (client.VolumeList _ _ _ _) as [[|v1 [|]]|]; cbn;
      try apply IH; try discriminate.
    destruct (hostConfig _); cbn; [apply IH | discriminate].
Qed.

(** C7, as the code has it.  initConfig sets AGENT_JOB_DIR to the work
    directory of the job inside the container, which is the workspace
    path joined with the expanded flow id: filepath.Join("/ws",
    util.ParseString(flowId)).  The variable has that value whether
    initConfig returns or panics; when it returns, the entry
    AGENT_JOB_DIR=<that directory> is in the environment of the
    container configuration and the directory is its working
    directory.  The value is the workspace path /ws itself when the
    flow id expands to the empty string. *)
Theorem AGENT_JOB_DIR_is_the_flow_directory (d : DockerExecutor) :
  let jobDir :=
    Join [dockerWorkspace; ParseString host (domain.FlowId (inCmd (base d)))] in
  (exists d',
     (initConfig host d = Ret tt d' \/ exists e, initConfig host d = Panic e d') /\
     vars (base d') !! domain.VarAgentJobDir = Some jobDir /\
     workDir d' = jobDir /\
     (initConfig host d = Ret tt d' ->
      exists config,
        containerConfig d' = Some config /\
        In (domain.VarAgentJobDir +:+ "=" +:+ jobDir) (types.Env config) /\
        types.WorkingDir config = jobDir)) /\
  (ParseString host (domain.FlowId (inCmd (base d))) = "" ->
   jobDir = dockerWorkspace).
Proof.
  intros jobDir. split.
  - unfold initConfig. exec_simpl. fold jobDir.
    destruct (domain.Docker (inCmd (base d))) as [docker|]; cbn;
      [destruct (ParsePortSpecs host _) as [[portSet portMap]|e]; cbn|].
    + match goal with
      | |- context [bindVolumes host ?vs ?d0] =>
          pose proof (bindVolumes_keeps
            (fun d => (vars (base d), workDir d, containerConfig d)) vs
            (fun _ _ => eq_refl) (fun _ _ => eq_refl) d0) as Hkeep;
          destruct (bindVolumes host vs d0) as [[] d'|e d'|] eqn:Hb
      end.
      * injection Hkeep as Hv Hw Hc. exists d'.
        split; [now left|]. rewrite Hv, Hw. cbn.
        split; [now rewrite lookup_insert_ne, lookup_insert_eq|].
        split; [reflexivity|]. intros _.
        eexists. split; [exact Hc|]. cbn. split; [|reflexivity].
        unfold domain.ToStringArray.
        apply (in_map (fun kv => fst kv +:+ "=" +:+ snd kv) _
                 (domain.VarAgentJobDir, jobDir)).
        apply list_elem_of_In, elem_of_map_to_list.
        now rewrite lookup_insert_ne, lookup_insert_eq.
      * injection Hkeep as Hv Hw Hc. exists d'.
        split; [right; now exists e|]. rewrite Hv, Hw. cbn.
        split; [now rewrite lookup_insert_ne, lookup_insert_eq|].
        split; [reflexivity|]. discriminate.
      * exfalso. exact (bindVolumes_ends _ _ Hb).
    + eexists. split; [right; eexists; reflexivity|]. cbn.
      split; [now rewrite lookup_insert_ne, lookup_insert_eq|].
      split; [reflexivity|]. discriminate.
    + eexists. split; [right; eexists; reflexivity|]. cbn.
      split; [now rewrite lookup_insert_ne, lookup_insert_eq|].
      split; [reflexivity|]. discriminate.
  - intros H. unfold jobDir. rewrite H. reflexivity.
Qed.

End ConfigFacts.

(* ================================================================== *)
(** ** The scenarios                                                   *)
(* ================================================================== *)

(** C1, as stated, fails: the pull is denied; the failure is recorded as
    Exception with the daemon's message, and Start returns the error. *)
Lemma Start_returns_the_runtime_error :
  exists r t,
    scenario.run scenario.pullDenied (scenario.cmd "") 0
      = Some (Some (ErrOther "pull access denied"), r, t) /\
    domain.Status r = domain.CmdStatusException /\
    domain.Error r = "pull access denied".
Proof. eexists _, _. vm_compute. repeat split. Qed.

(** The mapping at a cancelled pull, at a pull that ran into the
    deadline, and at a denied pull. *)
Lemma Start_error_mapping_witness :
  let run k :=
    let h := scenario.host (Ok k) in
    Start h 0 (scenario.initialised h (scenario.cmd "")) in
  (exists d',
     run scenario.cancelled = Ret None d' /\
     domain.Status (CmdResult (base d')) = domain.CmdStatusKilled /\
     context (base d') = Background) /\
  (exists d',
     run scenario.timedOut = Ret None d' /\
     domain.Status (CmdResult (base d')) = domain.CmdStatusTimeout /\
     context (base d') = Background) /\
  (exists d',
     run scenario.pullDenied = Ret (Some (ErrOther "pull access denied")) d' /\
     domain.Status (CmdResult (base d')) = domain.CmdStatusException /\
     domain.Error (CmdResult (base d')) = "pull access denied").
Proof.
  cbv zeta. split; [|split].
  - set (h := scenario.host (Ok scenario.cancelled)).
    set (d := scenario.initialised h (scenario.cmd "")).
    assert (Hspec : domain.Docker (inCmd (base d)) = Some scenario.spec)
      by (vm_compute; reflexivity).
    assert (Hbody : Start_body h 0 d
                    = Panic Canceled (scenario.stateOf (Start_body h 0 d) d))
      by (vm_compute; reflexivity).
    destruct (proj1 (Start_error_mapping h 0 d _ Hspec) _ _ Hbody)
      as (d' & HS & Hc & _).
    exists d'. destruct (Hc eq_refl) as [Hst Hctx].
    split; [exact HS|]. split; [exact Hst | exact Hctx].
  - set (h := scenario.host (Ok scenario.timedOut)).
    set (d := scenario.initialised h (scenario.cmd "")).
    assert (Hspec : domain.Docker (inCmd (base d)) = Some scenario.spec)
      by (vm_compute; reflexivity).
    assert (Hbody : Start_body h 0 d
                    = Panic DeadlineExceeded (scenario.stateOf (Start_body h 0 d) d))
      by (vm_compute; reflexivity).
    destruct (proj1 (Start_error_mapping h 0 d _ Hspec) _ _ Hbody)
      as (d' & HS & _ & Hc & _).
    exists d'. destruct (Hc eq_refl) as [Hst Hctx].
    split; [exact HS|]. split; [exact Hst | exact Hctx].
  - set (h := scenario.host (Ok scenario.pullDenied)).
    set (d := scenario.initialised h (scenario.cmd "")).
    assert (Hspec : domain.Docker (inCmd (base d)) = Some scenario.spec)
      by (vm_compute; reflexivity).
    assert (Hbody : Start_body h 0 d
                    = Panic (ErrOther "pull access denied")
                        (scenario.stateOf (Start_body h 0 d) d))
      by (vm_compute; reflexivity).
    destruct (proj1 (Start_error_mapping h 0 d _ Hspec) _ _ Hbody)
      as (d' & HS & _ & _ & Ho & _).
    exists d'. destruct (Ho ltac:(discriminate) ltac:(discriminate)) as (Hst & He & _).
    split; [exact HS|]. split; [exact Hst | exact He].
Defined.

(** The container "c-old" has exited: on a daemon that restarts it the
    executor and the result hold "c-old"; on a daemon that does not, the
    container is force-removed and the result holds the id of the fresh
    container. *)
Lemma resume_semantics_witness :
  let start k :=
    let h := scenario.host (Ok k) in
    let d := scenario.initialised h (scenario.cmd "c-old") in
    (d, scenario.stateOf (startContainer d) d) in
  (let '(d, d') := start scenario.resumable in
   startContainer d = Ret tt d' /\
   domain.ContainerId (CmdResult (base d')) = "c-old" /\
   containerId d' = "c-old") /\
  (let '(d, d') := start scenario.restartFails in
   startContainer d = Ret tt d' /\
   domain.ContainerId (CmdResult (base d')) = "c-new" /\
   In (EvCall (ReqContainerRemove JobContext "c-old" true)) (trace d')).
Proof.
  cbv zeta. split.
  - set (h := scenario.host (Ok scenario.resumable)).
    set (d := scenario.initialised h (scenario.cmd "c-old")).
    assert (Hk : cli d = Some scenario.resumable) by reflexivity.
    assert (Htry : tryToResume d = Ret true (scenario.stateOf (startContainer d) d))
      by (vm_compute; reflexivity).
    exact (proj1 (proj2 (resume_semantics d _ Hk)) _ Htry).
  - set (h := scenario.host (Ok scenario.restartFails)).
    set (d := scenario.initialised h (scenario.cmd "c-old")).
    assert (Hk : cli d = Some scenario.restartFails) by reflexivity.
    destruct (proj2 (proj2 (resume_semantics d _ Hk))
                {| types.ID := "c-old"; types.StateStatus := "exited" |}
                (ErrOther "cannot restart") "c-new"
                ltac:(discriminate) eq_refl eq_refl eq_refl eq_refl)
      as (d' & Hs & Hr & _ & Ht).
    assert (Hrun : startContainer d = Ret tt (scenario.stateOf (startContainer d) d))
      by (vm_compute; reflexivity).
    assert (Hd' : d' = scenario.stateOf (startContainer d) d).
    { destruct Hs as [Hs|[e' Hs]]; rewrite Hs; reflexivity. }
    rewrite <- Hd'. split; [now rewrite Hd'|]. split; [exact Hr|].
    rewrite Ht. right. right. left. reflexivity.
Defined.

(** C3, as stated, fails: the inspection of the container to resume
    fails with an error that is not container-not-found; no container is
    created, the job ends as Exception with that error's message and
    Start returns the error. *)
Lemma unreachable_daemon_fails_the_job :
  exists r,
    scenario.run scenario.inspectFails (scenario.cmd "c-old") 5
      = Some (Some (ErrOther "daemon unreachable"), r,
              [EvCall (ReqVolumeList JobContext "flow-flowid");
               EvCall (ReqVolumeCreate JobContext "flow-flowid");
               EvWgAdd 2;
               EvCall (ReqImagePull JobContext "docker.io/library/ubuntu:18.04");
               EvWriteLog "pulling";
               EvCall (ReqContainerInspect JobContext "c-old");
               EvCall (ReqContainerRemove JobContext "" true);
               EvCloseChannels]) /\
    domain.Status r = domain.CmdStatusException /\
    domain.Error r = "daemon unreachable" /\
    domain.ContainerId r = "".
Proof. eexists. vm_compute. repeat split. Qed.

Lemma inspection_error_fails_the_job_witness :
  let run k :=
    let h := scenario.host (Ok k) in
    Start h 5 (scenario.initialised h (scenario.cmd "c-old")) in
  (exists d',
     run scenario.inspectFails = Ret (Some (ErrOther "daemon unreachable")) d' /\
     domain.Status (CmdResult (base d')) = domain.CmdStatusException /\
     domain.Error (CmdResult (base d')) = "daemon unreachable" /\
     containerId d' = "") /\
  (exists d',
     run cases.inspectCancelled = Ret None d' /\
     domain.Status (CmdResult (base d')) = domain.CmdStatusKilled /\
     containerId d' = "") /\
  (exists d',
     run cases.inspectTimesOut = Ret None d' /\
     domain.Status (CmdResult (base d')) = domain.CmdStatusTimeout /\
     containerId d' = "") /\
  (exists d',
     run scenario.healthy = Ret None d' /\
     containerId d' = "c-new").
Proof.
  cbv zeta. split; [|split; [|split]].
  - set (h := scenario.host (Ok scenario.inspectFails)).
    set (d := scenario.initialised h (scenario.cmd "c-old")).
    set (d1 := scenario.stateOf ((stdOutWg_Add 2 ≫= fun _ => pullImage) d) d).
    assert (Hspec : domain.Docker (inCmd (base d)) = Some scenario.spec)
      by (vm_compute; reflexivity).
    assert (Hpull : (stdOutWg_Add 2 ≫= fun _ => pullImage) d = Ret tt d1)
      by (vm_compute; reflexivity).
    assert (Hk : cli d1 = Some scenario.inspectFails) by (vm_compute; reflexivity).
    assert (Hid : util.IsEmptyString (domain.CmdIn_ContainerId (inCmd (base d1)))
                  = false) by (vm_compute; reflexivity).
    assert (Hi : client.ContainerInspect scenario.inspectFails (trace d1)
                   (context (base d1)) (domain.CmdIn_ContainerId (inCmd (base d1)))
                 = Err (ErrOther "daemon unreachable")) by (vm_compute; reflexivity).
    assert (Hcid : containerId d1 = "") by (vm_compute; reflexivity).
    destruct (proj1 (inspection_error_fails_the_job h 5 d d1 _ _ Hspec Hpull Hk Hid)
                (ErrOther "daemon unreachable") Hi eq_refl)
      as (_ & d' & HS & Hst & He & Hc & _).
    exists d'. split; [exact HS|]. split; [exact Hst|].
    split; [exact (He ltac:(discriminate) ltac:(discriminate))|]. congruence.
  - set (h := scenario.host (Ok cases.inspectCancelled)).
    set (d := scenario.initialised h (scenario.cmd "c-old")).
    set (d1 := scenario.stateOf ((stdOutWg_Add 2 ≫= fun _ => pullImage) d) d).
    assert (Hspec : domain.Docker (inCmd (base d)) = Some scenario.spec)
      by (vm_compute; reflexivity).
    assert (Hpull : (stdOutWg_Add 2 ≫= fun _ => pullImage) d = Ret tt d1)
      by (vm_compute; reflexivity).
    assert (Hk : cli d1 = Some cases.inspectCancelled) by (vm_compute; reflexivity).
    assert (Hid : util.IsEmptyString (domain.CmdIn_ContainerId (inCmd (base d1)))
                  = false) by (vm_compute; reflexivity).
    assert (Hi : client.ContainerInspect cases.inspectCancelled (trace d1)
                   (context (base d1)) (domain.CmdIn_ContainerId (inCmd (base d1)))
                 = Err Canceled) by (vm_compute; reflexivity).
    assert (Hcid : containerId d1 = "") by (vm_compute; reflexivity).
    destruct (proj1 (inspection_error_fails_the_job h 5 d d1 _ _ Hspec Hpull Hk Hid)
                Canceled Hi eq_refl)
      as (_ & d' & HS & Hst & _ & Hc & _).
    exists d'. split; [exact HS|]. split; [exact Hst|]. congruence.
  - set (h := scenario.host (Ok cases.inspectTimesOut)).
    set (d := scenario.initialised h (scenario.cmd "c-old")).
    set (d1 := scenario.stateOf ((stdOutWg_Add 2 ≫= fun _ => pullImage) d) d).
    assert (Hspec : domain.Docker (inCmd (base d)) = Some scenario.spec)
      by (vm_compute; reflexivity).
    assert (Hpull : (stdOutWg_Add 2 ≫= fun _ => pullImage) d = Ret tt d1)
      by (vm_compute; reflexivity).
    assert (Hk : cli d1 = Some cases.inspectTimesOut) by (vm_compute; reflexivity).
    assert (Hid : util.IsEmptyString (domain.CmdIn_ContainerId (inCmd (base d1)))
                  = false) by (vm_compute; reflexivity).
    assert (Hi : client.ContainerInspect cases.inspectTimesOut (trace d1)
                   (context (base d1)) (domain.CmdIn_ContainerId (inCmd (base d1)))
                 = Err DeadlineExceeded) by (vm_compute; reflexivity).
    assert (Hcid : containerId d1 = "") by (vm_compute; reflexivity).
    destruct (proj1 (inspection_error_fails_the_job h 5 d d1 _ _ Hspec Hpull Hk Hid)
                DeadlineExceeded Hi eq_refl)
      as (_ & d' & HS & Hst & _ & Hc & _).
    exists d'. split; [exact HS|]. split; [exact Hst|]. congruence.
  - set (h := scenario.host (Ok scenario.healthy)).
    set (d := scenario.initialised h (scenario.cmd "c-old")).
    set (d1 := scenario.stateOf ((stdOutWg_Add 2 ≫= fun _ => pullImage) d) d).
    assert (Hspec : domain.Docker (inCmd (base d)) = Some scenario.spec)
      by (vm_compute; reflexivity).
    assert (Hpull : (stdOutWg_Add 2 ≫= fun _ => pullImage) d = Ret tt d1)
      by (vm_compute; reflexivity).
    assert (Hk : cli d1 = Some scenario.healthy) by (vm_compute; reflexivity).
    assert (Hid : util.IsEmptyString (domain.CmdIn_ContainerId (inCmd (base d1)))
                  = false) by (vm_compute; reflexivity).
    assert (Hi : client.ContainerInspect scenario.healthy (trace d1)
                   (context (base d1)) (domain.CmdIn_ContainerId (inCmd (base d1)))
                 = Err (ErrContainerNotFound "c-old")) by (vm_compute; reflexivity).
    destruct (proj2 (inspection_error_fails_the_job h 5 d d1 _ _ Hspec Hpull Hk Hid)
                (ErrContainerNotFound "c-old") Hi eq_refl)
      as (_ & Hfresh).
    destruct (Hfresh "c-new" ltac:(vm_compute; reflexivity)) as (d2 & _ & Hc2 & _).
    exists (scenario.stateOf (Start h 5 d) d).
    split; vm_compute; reflexivity.
Defined.

(** A run that exits with 0 ends in Success with code 0, a run whose
    pull is cancelled ends in Killed; and once the result holds Killed
    with code -1, the end of Start's body, reached with exit code 0,
    changes nothing. *)
Lemma Start_finish_first_status_wins_witness :
  let h := scenario.host (Ok scenario.healthy) in
  let d := scenario.initialised h (scenario.cmd "") in
  let hc := scenario.host (Ok scenario.cancelled) in
  let dc := scenario.initialised hc (scenario.cmd "") in
  let killed := scenario.stateOf (toKilledStatus h d) d in
  (exists d',
     Start h 5 d = Ret None d' /\
     domain.Status (CmdResult (base d')) = domain.CmdStatusSuccess /\
     domain.Code (CmdResult (base d')) = 0) /\
  (exists d',
     Start hc 0 dc = Ret None d' /\
     domain.Status (CmdResult (base d')) = domain.CmdStatusKilled) /\
  (domain.Status (CmdResult (base killed)) = domain.CmdStatusKilled /\
   domain.Code (CmdResult (base killed)) = -1 /\
   Start_finish h 0 killed = Ret None killed).
Proof.
  intros h d hc dc killed.
  assert (Hspec : domain.Docker (inCmd (base d)) = Some scenario.spec)
    by (vm_compute; reflexivity).
  assert (Hspecc : domain.Docker (inCmd (base dc)) = Some scenario.spec)
    by (vm_compute; reflexivity).
  destruct (Start_finish_first_status_wins h 5 d _ Hspec) as (_ & Hexit & Hguard).
  destruct (Start_finish_first_status_wins hc 0 dc _ Hspecc) as (Hpanic & _).
  split; [|split].
  - set (d1 := scenario.stateOf (Start_untilExit h 5 d) d).
    set (d2 := scenario.stateOf (exportEnv h d1) d1).
    assert (Hrun : Start_untilExit h 5 d = Ret 0 d1) by (vm_compute; reflexivity).
    assert (Hexp : exportEnv h d1 = Ret tt d2) by (vm_compute; reflexivity).
    destruct (Hexit 0 d1 d2 Hrun Hexp) as (_ & _ & _ & d' & HS & Hst & Hcode).
    exists d'. split; [exact HS|]. split; [exact Hst | exact Hcode].
  - assert (Hbody : Start_body hc 0 dc
                    = Panic Canceled (scenario.stateOf (Start_body hc 0 dc) dc))
      by (vm_compute; reflexivity).
    destruct (Hpanic _ _ Hbody) as (_ & _ & d' & HS & Hst).
    exists d'. split; [exact HS | exact Hst].
  - assert (Hfin : domain.IsFinishStatus (CmdResult (base killed)) = true)
      by (vm_compute; reflexivity).
    split; [vm_compute; reflexivity|]. split; [vm_compute; reflexivity|].
    exact (proj1 (Hguard 0 killed Hfin)).
Defined.


(** The image of the test, "ubuntu:18.04", is pulled from the library;
    an image with a path, "flowci/gosdk:1.0", from the registry root. *)
Lemma pullImage_reference_witness :
  let h := scenario.host (Ok scenario.healthy) in
  let d := scenario.initialised h (scenario.cmd "") in
  let config image :=
    {| types.Image := image; types.Env := []; types.Entrypoint := [];
       types.ExposedPorts := ∅; types.Tty := false; types.AttachStdin := true;
       types.AttachStderr := true; types.AttachStdout := true;
       types.OpenStdin := true; types.StdinOnce := true;
       types.WorkingDir := "/ws" |} in
  (exists d',
     pullImage d = Ret tt d' /\
     trace d' = EvWriteLog "pulling"
                :: EvCall (ReqImagePull JobContext "docker.io/library/ubuntu:18.04")
                :: trace d) /\
  (exists d',
     pullImage (set_containerConfig (Some (config "flowci/gosdk:1.0")) d)
       = Ret tt d' /\
     trace d' = EvWriteLog "pulling"
                :: EvCall (ReqImagePull JobContext "docker.io/flowci/gosdk:1.0")
                :: trace d).
Proof.
  intros h d config. split.
  - set (cfg := default (config "") (containerConfig d)).
    assert (Hk : cli d = Some scenario.healthy) by (vm_compute; reflexivity).
    assert (Hc : containerConfig d = Some cfg) by (vm_compute; reflexivity).
    destruct (pullImage_reference d scenario.healthy cfg Hk Hc)
      as (ref & _ & Hlib & Hrun).
    assert (Hno : ~ In "/"%char (list_ascii_of_string (types.Image cfg)))
      by (vm_compute; intuition discriminate).
    rewrite (Hlib Hno) in Hrun.
    exists (scenario.stateOf (pullImage d) d).
    split; [rewrite Hrun|]; vm_compute; reflexivity.
  - set (d0 := set_containerConfig (Some (config "flowci/gosdk:1.0")) d).
    assert (Hk : cli d0 = Some scenario.healthy) by (vm_compute; reflexivity).
    assert (Hc : containerConfig d0 = Some (config "flowci/gosdk:1.0"))
      by reflexivity.
    destruct (pullImage_reference d0 scenario.healthy _ Hk Hc)
      as (ref & Hreg & _ & Hrun).
    assert (Hyes : In "/"%char
                     (list_ascii_of_string (types.Image (config "flowci/gosdk:1.0"))))
      by (vm_compute; tauto).
    rewrite (Hreg Hyes) in Hrun.
    exists (scenario.stateOf (pullImage d0) d).
    split; [rewrite Hrun|]; vm_compute; reflexivity.
Defined.

(** C7, as stated, fails: for the flow "flowid" of the repository's
    test, initConfig returns with AGENT_JOB_DIR set to /ws/flowid, which
    is not the workspace path /ws. *)
Lemma AGENT_JOB_DIR_is_not_the_workspace :
  let h := scenario.host (Ok scenario.healthy) in
  let d := set_cli (Some scenario.healthy) (scenario.fresh (scenario.cmd "")) in
  exists d',
    initConfig h d = Ret tt d' /\
    vars (base d') !! domain.VarAgentJobDir = Some "/ws/flowid" /\
    In "AGENT_JOB_DIR=/ws/flowid" (types.Env (default
         {| types.Image := ""; types.Env := []; types.Entrypoint := [];
            types.ExposedPorts := ∅; types.Tty := false;
            types.AttachStdin := false; types.AttachStderr := false;
            types.AttachStdout := false; types.OpenStdin := false;
            types.StdinOnce := false; types.WorkingDir := "" |}
         (containerConfig d'))) /\
    vars (base d') !! domain.VarAgentJobDir <> Some dockerWorkspace.
Proof.
  intros h d. exists (scenario.stateOf (initConfig h d) d).
  split; [vm_compute; reflexivity|].
  split; [vm_compute; reflexivity|].
  split; [vm_compute; tauto|].
  vm_compute. discriminate.
Qed.

Lemma AGENT_JOB_DIR_is_the_flow_directory_witness :
  let h := scenario.host (Ok scenario.healthy) in
  let d := set_cli (Some scenario.healthy) (scenario.fresh (scenario.cmd "")) in
  exists d' config,
    initConfig h d = Ret tt d' /\
    vars (base d') !! domain.VarAgentJobDir = Some "/ws/flowid" /\
    containerConfig d' = Some config /\
    In "AGENT_JOB_DIR=/ws/flowid" (types.Env config) /\
    types.WorkingDir config = "/ws/flowid".
Proof.
  intros h d.
  destruct (proj1 (AGENT_JOB_DIR_is_the_flow_directory h d))
    as (d' & Hrun & Hv & _ & Hc).
  assert (Hret : initConfig h d = Ret tt (scenario.stateOf (initConfig h d) d))
    by (vm_compute; reflexivity).
  assert (Hd' : initConfig h d = Ret tt d').
  { destruct Hrun as [Hrun|[e Hrun]]; [exact Hrun|].
    rewrite Hrun in Hret. discriminate. }
  destruct (Hc Hd') as (config & Hcfg & Henv & Hw).
  exists d', config. repeat split; assumption.
Defined.

(** The descriptor has no container spec and the client is there: Init
    returns the nil dereference of initConfig; Start on that executor
    records the failure of its body, and then the deferred cleanup
    dereferences the nil spec: Start panics and the channels stay
    open. *)
Lemma Start_without_container_spec :
  let h := scenario.host (Ok scenario.healthy) in
  let d := scenario.initialised h scenario.cmdWithoutSpec in
  Init h (scenario.fresh scenario.cmdWithoutSpec) = Ret (Some ErrNilPointer) d /\
  exists d',
    Start h 5 d = Panic ErrNilPointer d' /\
    domain.Status (CmdResult (base d')) = domain.CmdStatusException /\
    trace d' = EvWgAdd 2 :: trace d.
Proof.
  intros h d. split; [vm_compute; reflexivity|].
  exists (scenario.stateOf (Start h 5 d) d).
  split; [vm_compute; reflexivity|]. split; vm_compute; reflexivity.
Qed.

(** C8, as stated, fails: the client could not be created, Init has
    returned the error and left d.cli nil; Start on that executor ends
    as Exception and closes the channels, but asks for no removal
    although deleteOnExit is set. *)
Lemma Start_without_client_skips_the_cleanup :
  let h := scenario.host (Err (ErrOther "cannot connect to the Docker daemon")) in
  let d := scenario.initialised h (scenario.cmd "") in
  Init h (scenario.fresh (scenario.cmd ""))
    = Ret (Some (ErrOther "cannot connect to the Docker daemon")) d /\
  domain.Docker (inCmd (base d)) = Some scenario.spec /\
  domain.IsDeleteContainer scenario.spec = true /\
  exists d',
    Start h 0 d = Ret (Some ErrNilPointer) d' /\
    domain.Status (CmdResult (base d')) = domain.CmdStatusException /\
    trace d' = [EvCloseChannels; EvWgAdd 2].
Proof.
  intros h d. split; [vm_compute; reflexivity|]. split; [reflexivity|].
  split; [reflexivity|].
  exists (scenario.stateOf (Start h 0 d) d).
  split; [vm_compute; reflexivity|]. split; vm_compute; reflexivity.
Qed.

(** The test's descriptor sets both flags: the run on the healthy daemon
    ends with the forced removal of the created container "c-new" and
    the closing of the channels, and has sent no stop; the run whose
    pull is cancelled ends with the forced removal under the background
    context. *)
Lemma Start_cleanup_policy_witness :
  (let h := scenario.host (Ok scenario.healthy) in
   let d := scenario.initialised h (scenario.cmd "") in
   exists d1 d',
     Start_body h 5 d = Ret None d1 /\
     Start h 5 d = Ret None d' /\
     trace d' = EvCloseChannels
                  :: EvCall (ReqContainerRemove JobContext "c-new" true)
                  :: trace d1 /\
     forall ctx id, ~ In (EvCall (ReqContainerStop ctx id)) (trace d')) /\
  (let h := scenario.host (Ok scenario.cancelled) in
   let d := scenario.initialised h (scenario.cmd "") in
   exists d1 d',
     Start_body h 0 d = Panic Canceled d1 /\
     Start h 0 d = Ret None d' /\
     trace d' = EvCloseChannels
                  :: EvCall (ReqContainerRemove Background "" true)
                  :: trace d1).
Proof.
  split.
  - intros h d.
    set (d1 := scenario.stateOf (Start_body h 5 d) d).
    assert (Hk : cli d = Some scenario.healthy) by (vm_compute; reflexivity).
    assert (Hspec : domain.Docker (inCmd (base d)) = Some scenario.spec)
      by (vm_compute; reflexivity).
    assert (Hbody : Start_body h 5 d = Ret None d1) by (vm_compute; reflexivity).
    destruct (Start_cleanup_policy h 5 d d1 _ _ Hk Hspec
                (or_introl (ex_intro _ None Hbody)))
      as (out & d' & body & HS & Hid & Ht & Ht1 & Hstop & _).
    assert (Hreal : Start h 5 d = Ret None (scenario.stateOf (Start h 5 d) d))
      by (vm_compute; reflexivity).
    rewrite Hreal in HS. apply Ret_inj in HS as [<- HS]. subst d'.
    exists d1, (scenario.stateOf (Start h 5 d) d).
    split; [exact Hbody|]. split; [exact Hreal|]. split.
    + rewrite Ht. vm_compute. reflexivity.
    + intros ctx id. vm_compute. intuition discriminate.
  - intros h d.
    set (d1 := scenario.stateOf (Start_body h 0 d) d).
    assert (Hk : cli d = Some scenario.cancelled) by (vm_compute; reflexivity).
    assert (Hspec : domain.Docker (inCmd (base d)) = Some scenario.spec)
      by (vm_compute; reflexivity).
    assert (Hbody : Start_body h 0 d = Panic Canceled d1)
      by (vm_compute; reflexivity).
    destruct (Start_cleanup_policy h 0 d d1 _ _ Hk Hspec
                (or_intror (ex_intro _ Canceled Hbody)))
      as (out & d' & body & HS & Hid & Ht & _).
    assert (Hreal : Start h 0 d = Ret None (scenario.stateOf (Start h 0 d) d))
      by (vm_compute; reflexivity).
    rewrite Hreal in HS. apply Ret_inj in HS as [<- HS]. subst d'.
    exists d1, (scenario.stateOf (Start h 0 d) d).
    split; [exact Hbody|]. split; [exact Hreal|].
    rewrite Ht. vm_compute. reflexivity.
Defined.

(** The copy of the env dump fails after a command that exited with 0:
    Start returns nil, the status is Success and the output mapping is
    unset. *)
Lemma exportEnv_failure_is_silent_witness :
  let h := scenario.host (Ok scenario.copyFails) in
  let d := scenario.initialised h (scenario.cmd "") in
  exists d',
    Start h 5 d = Ret None d' /\
    domain.Status (CmdResult (base d')) = domain.CmdStatusSuccess /\
    domain.Output (CmdResult (base d')) = None /\
    domain.Error (CmdResult (base d')) = "".
Proof.
  intros h d.
  set (d1 := scenario.stateOf (Start_untilExit h 5 d) d).
  assert (Hrun : Start_untilExit h 5 d = Ret 0 d1) by (vm_compute; reflexivity).
  assert (Hspec : domain.Docker (inCmd (base d)) = Some scenario.spec)
    by (vm_compute; reflexivity).
  assert (Hk : cli d1 = Some scenario.copyFails) by (vm_compute; reflexivity).
  assert (Hcopy : client.CopyFromContainer scenario.copyFails (trace d1)
                    (context (base d1)) (containerId d1) dockerEnvFile
                  = Err (ErrOther "no such file")) by (vm_compute; reflexivity).
  destruct (exportEnv_failure_is_silent h 5 d d1 scenario.copyFails 0
              (ErrOther "no such file") _ Hspec Hrun Hk Hcopy)
    as (_ & d' & HS & Hst & _ & Hout & Herr).
  exists d'. split; [exact HS|]. split; [exact Hst|].
  split; [exact Hout | exact Herr].
Defined.


Section TraceFacts.
Context (host : Host).

(** The cleanup policy asks for at most one thing: the forced removal
    or the stop of the executor's container, under its context. *)
Lemma cleanupPolicy_events d ev :
  In ev (cleanupPolicy d) ->
  ev = EvCall (ReqContainerRemove (context (base d)) (containerId d) true) \/
  ev = EvCall (ReqContainerStop (context (base d)) (containerId d)).
Proof.
  unfold cleanupPolicy, policyRequest.
  destruct (domain.Docker _) as [option|]; [|intros []].
  destruct (domain.IsDeleteContainer _);
    [|destruct (domain.IsStopContainer _)]; cbn; intuition.
Qed.

(** The trace of a run of Start that returns: what the body sent, then
    the cleanup, then the closing of the channels. *)
Lemma Start_trace_shape fuel d out d' :
  Start host fuel d = Ret out d' ->
  exists evs,
    trace d'
      = EvCloseChannels
          :: (match cli d with Some _ => cleanupPolicy d' | None => [] end)
          ++ evs ++ trace d /\
    Forall (bodyEvent (context (base d))
              (domain.CmdIn_ContainerId (inCmd (base d)))) evs /\
    inCmd (base d') = inCmd (base d) /\
    (context (base d') = context (base d) \/ context (base d') = Background).
Proof.
  intros HS. pose proof (Start_body_sends host fuel d) as Hs. unfold sends in Hs.
  pose proof (Start_returns_cleanable host fuel d out d' HS) as Hcl.
  pose proof (Start_body_cleanable host fuel d Hcl) as Hcl1.
  destruct (Start_body host fuel d) as [out1 d1|e d1|] eqn:Hbody.
  - destruct Hs as ((Hctx & Hin & Hcli) & evs & Ht & HP).
    unfold Start in HS. rewrite Hbody, (Start_deferred_returned host _ _ Hcl1) in HS.
    injection HS as _ <-. exists evs. rewrite <- Hcli.
    destruct (cli d1); cbn [trace emit]; rewrite ?trace_emits, ?base_emits, Ht;
      cbn [base emit]; rewrite ?base_emits; (split; [|auto]).
    + f_equal. f_equal. symmetry.
      apply cleanupPolicy_eq; cbn; [apply base_emits | apply containerId_emits].
    + reflexivity.
  - destruct Hs as ((Hctx & Hin & Hcli) & evs & Ht & HP).
    destruct (Start_after_panic host fuel d e d1 Hcl Hbody)
      as (d2 & HS2 & Hcan & Hdl & Hoth & Htr).
    destruct (Start_after_panic_result host fuel d e d1 Hcl Hbody)
      as (d2' & HS2' & _ & Hin2 & _).
    rewrite HS2 in HS2'. injection HS2' as <-.
    rewrite HS2 in HS. injection HS as _ <-.
    exists evs. rewrite <- Hcli, Htr, Ht. split; [reflexivity|]. split; [exact HP|].
    split; [congruence|].
    destruct (decide (e = Canceled)) as [->|Hc]; [right; now apply Hcan|].
    destruct (decide (e = DeadlineExceeded)) as [->|Hd]; [right; now apply Hdl|].
    left. destruct (Hoth Hc Hd) as (_ & _ & ->). exact Hctx.
  - unfold Start in HS. rewrite Hbody in HS. discriminate.
Qed.

End TraceFacts.

Section RunFacts.
Context (host : Host).

(** X1.  In every run of Start that returns, the channels are closed
    exactly once, and closing them is the last thing Start does: the
    latest event of the trace is the closing, and no event that Start
    added before it is one. *)
Theorem Start_closes_the_channels_once fuel d out d' :
  Start host fuel d = Ret out d' ->
  exists added,
    trace d' = EvCloseChannels :: added ++ trace d /\
    ~ In EvCloseChannels added.
Proof.
  intros HS. destruct (Start_trace_shape host fuel d out d' HS)
    as (evs & Ht & HP & _).
  eexists. split; [rewrite Ht, app_assoc; reflexivity|].
  rewrite in_app_iff. intros [H|H].
  - destruct (cli d); [|exact H].
    apply cleanupPolicy_events in H as [H|H]; discriminate.
  - rewrite List.Forall_forall in HP. exact (HP _ H).
Qed.

(** X2.  Start leaves the volumes to Init: in a run of Start that
    returns, no event that Start added is a request to list or to create
    a volume. *)
Theorem Start_sends_no_volume_request fuel d out d' :
  Start host fuel d = Ret out d' ->
  exists added,
    trace d' = added ++ trace d /\
    forall ev, In ev added -> isVolumeRequest ev = false.
Proof.
  intros HS. destruct (Start_trace_shape host fuel d out d' HS)
    as (evs & Ht & HP & _).
  eexists. split; [rewrite Ht, app_comm_cons, app_assoc; reflexivity|].
  intros ev Hin. apply in_app_or in Hin as [[<-|H]|H]; [reflexivity| |].
  - destruct (cli d); [|destruct H].
    apply cleanupPolicy_events in H as [->| ->]; reflexivity.
  - rewrite List.Forall_forall in HP. specialize (HP _ H).
    destruct ev as [[]| | | | |]; cbn in HP |- *; tauto.
Qed.

(** X3.  In a run of Start that returns, the trace is: the closing of
    the channels, before it the request of the cleanup policy (when
    there is a client), before it what the body sent.  Every request of
    the body went under the context the executor had when Start began;
    the body itself never replaces the context.  The request of the
    cleanup goes under the context the executor ends with, which is that
    same context or, after handleErrors has reset it, the background
    context. *)
Theorem Start_requests_under_the_job_context fuel d out d' :
  Start host fuel d = Ret out d' ->
  exists body,
    trace d'
      = EvCloseChannels
          :: (match cli d with Some _ => cleanupPolicy d' | None => [] end)
          ++ body ++ trace d /\
    (forall c, In (EvCall c) body -> callContext c = context (base d)) /\
    (forall c, In (EvCall c) (cleanupPolicy d') ->
       callContext c = context (base d')) /\
    (context (base d') = context (base d) \/ context (base d') = Background).
Proof.
  intros HS. destruct (Start_trace_shape host fuel d out d' HS)
    as (evs & Ht & HP & _ & Hctx).
  exists evs. split; [exact Ht|]. split; [|split; [|exact Hctx]].
  - intros c H. rewrite List.Forall_forall in HP. specialize (HP _ H).
    destruct c; cbn in HP |- *; tauto.
  - intros c H. apply cleanupPolicy_events in H as [H|H];
      injection H as ->; reflexivity.
Qed.

(** X4.  In a run of Start that returns, between the trace Start began
    with and the request of the cleanup policy lies what the body sent:
    the body stops no container, and the only removal it asks for is the
    forced removal of the container the descriptor names for the
    resume. *)
Theorem Start_body_removes_only_the_stale_container fuel d out d' :
  Start host fuel d = Ret out d' ->
  exists body,
    trace d'
      = EvCloseChannels
          :: (match cli d with Some _ => cleanupPolicy d' | None => [] end)
          ++ body ++ trace d /\
    (forall ctx id, ~ In (EvCall (ReqContainerStop ctx id)) body) /\
    (forall ctx id force,
       In (EvCall (ReqContainerRemove ctx id force)) body ->
       ctx = context (base d) /\
       id = domain.CmdIn_ContainerId (inCmd (base d)) /\ force = true).
Proof.
  intros HS. destruct (Start_trace_shape host fuel d out d' HS)
    as (evs & Ht & HP & _).
  exists evs. split; [exact Ht|]. rewrite List.Forall_forall in HP. split.
  - intros ctx id H. exact (HP _ H).
  - intros ctx id force H. specialize (HP _ H). cbn in HP. tauto.
Qed.

End RunFacts.

Section VolumeFacts.
Context (host : Host).

(** X5.  initJobVolume asks the daemon for the volumes named
    "flow-" + flowId.  When the daemon lists exactly one, that volume
    becomes the job volume and nothing is created; when it lists none or
    several, a volume of that name is created and becomes the job
    volume.  An error of either request is raised as a panic and the job
    volume stays as it was. *)
Theorem initJobVolume_reuses_or_creates (d : DockerExecutor) (k : client.Client) :
  cli d = Some k ->
  let name := "flow-" +:+ domain.FlowId (inCmd (base d)) in
  let ctx := context (base d) in
  let listEv := EvCall (ReqVolumeList ctx name) in
  let createEv := EvCall (ReqVolumeCreate ctx name) in
  (forall v,
     client.VolumeList k (trace d) ctx name = Ok [v] ->
     initJobVolume d = Ret tt (set_flowVolume v (emit listEv d))) /\
  (forall vs created,
     client.VolumeList k (trace d) ctx name = Ok vs ->
     length vs <> 1%nat ->
     client.VolumeCreate k (listEv :: trace d) ctx name = Ok created ->
     initJobVolume d = Ret tt (set_flowVolume created (emits [createEv; listEv] d))) /\
  (forall e,
     client.VolumeList k (trace d) ctx name = Err e ->
     initJobVolume d = Panic e (emit listEv d)) /\
  (forall vs e,
     client.VolumeList k (trace d) ctx name = Ok vs ->
     length vs <> 1%nat ->
     client.VolumeCreate k (listEv :: trace d) ctx name = Err e ->
     initJobVolume d = Panic e (emits [createEv; listEv] d)).
Proof.
  intros Hk name ctx listEv createEv. subst name ctx listEv createEv.
  unfold initJobVolume, getVolume, cli_VolumeList, cli_VolumeCreate.
  exec_simpl. rewrite Hk. cbn.
  repeat split.
  - intros v ->. reflexivity.
  - intros vs created -> Hlen Hc. destruct vs as [|v [|v' vs]]; cbn in *;
      try congruence; rewrite Hk; cbn; now rewrite Hc.
  - intros e ->. reflexivity.
  - intros vs e -> Hlen Hc. destruct vs as [|v [|v' vs]]; cbn in *;
      try congruence; rewrite Hk; cbn; now rewrite Hc.
Qed.

(** The loop over the volumes never drops the host configuration. *)
Lemma bindVolumes_keeps_hostConfig vs d1 d2 :
  hostConfig d1 <> None ->
  bindVolumes host vs d1 = Ret tt d2 -> hostConfig d2 <> None.
Proof.
  revert d1 d2. induction vs as [|v vs IH]; intros d1 d2 Hh; cbn [bindVolumes].
  - intros H. injection H as <-. exact Hh.
  - unfold getVolume, cli_VolumeList. exec_unfold. cbn.
    destruct (cli d1); [|discriminate]. cbn.
    destruct (client.VolumeList _ _ _ _) as [[|v1 [|]]|]; cbn;
      try (apply IH; exact Hh); try discriminate.
    destruct (hostConfig _); cbn; [|discriminate].
    apply IH. discriminate.
Qed.

(** initConfig, when it returns, has set both configurations. *)
Lemma initConfig_sets_the_configurations d d' :
  initConfig host d = Ret tt d' ->
  containerConfig d' <> None /\ hostConfig d' <> None /\ cli d' = cli d.
Proof.
  unfold initConfig. exec_simpl.
  destruct (domain.Docker (inCmd (base d))) as [docker|]; cbn; [|discriminate].
  destruct (ParsePortSpecs host _) as [[portSet portMap]|e]; cbn; [|discriminate].
  match goal with
  | |- bindVolumes host ?l ?d0 = _ -> _ =>
      pose proof (bindVolumes_keeps host
        (fun d => (containerConfig d, cli d)) l
        (fun _ _ => eq_refl) (fun _ _ => eq_refl) d0) as Hkeep
  end.
  intros Hb. rewrite Hb in Hkeep. injection Hkeep as Hc Hcl.
  split; [rewrite Hc; discriminate|]. split; [|exact Hcl].
  eapply bindVolumes_keeps_hostConfig; [|exact Hb]. discriminate.
Qed.

(** X6.  Init never panics: every panic of its body comes back as the
    returned error.  When it returns nil the executor is ready for
    Start: the client, the container configuration and the host
    configuration are all there.  When the client cannot be created,
    Init returns the error of client.NewEnvClient, the executor's client
    is nil, and nothing else has happened: no request was sent and no
    configuration was built. *)
Theorem Init_success_is_ready (d : DockerExecutor) :
  (exists out d', Init host d = Ret out d') /\
  (forall d', Init host d = Ret None d' ->
     cli d' <> None /\ containerConfig d' <> None /\ hostConfig d' <> None) /\
  (forall e, NewEnvClient host = Err e ->
     Init host d = Ret (Some e) (set_cli None d)).
Proof.
  cut ((exists out d', Init host d = Ret out d') /\
       (forall d', Init host d = Ret None d' ->
          cli d' <> None /\ containerConfig d' <> None /\ hostConfig d' <> None)).
  { intros [H1 H2]. split; [exact H1|]. split; [exact H2|].
    intros e H. unfold Init, Init_body. rewrite H. reflexivity. }
  assert (Hcases : (exists d', Init_body host d = Ret tt d' /\
                      cli d' <> None /\ containerConfig d' <> None /\
                      hostConfig d' <> None) \/
                   (exists e d', Init_body host d = Panic e d')).
  { unfold Init_body.
    destruct (NewEnvClient host) as [k|e]; [|right; eexists _, _; reflexivity].
    set (d1 := set_cli (Some k) d).
    rewrite (bind_Ret (modify (set_cli (Some k))) _ d tt d1 eq_refl).
    destruct (initJobVolume d1) as [[] d2|e d2|] eqn:Hv.
    - rewrite (bind_Ret _ _ _ _ _ Hv).
      assert (Hcli : cli d2 = Some k).
      { revert Hv. unfold initJobVolume, getVolume, cli_VolumeList, cli_VolumeCreate.
        exec_simpl.
        destruct (client.VolumeList _ _ _ _) as [[|v1 [|]]|]; cbn;
          try discriminate;
          try (destruct (client.VolumeCreate _ _ _ _); cbn; try discriminate);
          intros H; injection H as <-; reflexivity. }
      destruct (initConfig host d2) as [[] d3|e d3|] eqn:Hc.
      + left. exists d3. split; [reflexivity|].
        destruct (initConfig_sets_the_configurations _ _ Hc) as (H1 & H2 & H3).
        rewrite H3, Hcli. repeat split; [discriminate|exact H1|exact H2].
      + right. eexists _, _. reflexivity.
      + exfalso. revert Hc. unfold initConfig. exec_simpl.
        destruct (domain.Docker (inCmd (base d2))); cbn; [|discriminate].
        destruct (ParsePortSpecs host _) as [[? ?]|]; cbn; [|discriminate].
        apply bindVolumes_ends.
    - rewrite (bind_Panic _ _ _ _ _ Hv). right. eexists _, _. reflexivity.
    - exfalso. revert Hv.
      unfold initJobVolume, getVolume, cli_VolumeList, cli_VolumeCreate.
      exec_simpl.
      destruct (client.VolumeList _ _ _ _) as [[|v1 [|]]|]; cbn; try discriminate;
        destruct (client.VolumeCreate _ _ _ _); discriminate. }
  unfold Init. split.
  - destruct Hcases as [(d' & -> & _)|(e & d' & ->)]; eexists _, _; reflexivity.
  - intros d'. destruct Hcases as [(d1 & -> & H)|(e & d1 & ->)].
    + intros Heq. injection Heq as <-. exact H.
    + discriminate.
Qed.

End VolumeFacts.

Section ConfigMore.
Context (host : Host).

(** The loop over the declared volumes asks the daemon for each of
    them in the order of the declaration, appends the binds of those it
    knows, and changes nothing else of the host configuration. *)
Lemma bindVolumes_binds k vs : forall d hc d',
  cli d = Some k ->
  hostConfig d = Some hc ->
  bindVolumes host vs d = Ret tt d' ->
  hostConfig d'
    = Some {| types.NetworkMode := types.NetworkMode hc;
              types.PortBindings := types.PortBindings hc;
              types.Binds :=
                types.Binds hc
                  ++ map (toBindStr host)
                       (boundVolumes k (context (base d)) (trace d) vs) |} /\
  trace d'
    = rev (map (fun v => EvCall (ReqVolumeList (context (base d)) (Name v))) vs)
        ++ trace d.
Proof.
  induction vs as [|v vs IH]; intros d hc d' Hk Hh; cbn [bindVolumes boundVolumes].
  - intros H. injection H as <-. cbn. rewrite Hh, app_nil_r. now destruct hc.
  - unfold getVolume, cli_VolumeList. exec_unfold. cbn. rewrite Hk. cbn.
    destruct (client.VolumeList k (trace d) (context (base d)) (Name v))
      as [[|v1 [|]]|]; cbn; try discriminate.
    + intros H. eapply IH in H as (Hb & Ht); [|cbn; exact Hk|cbn; exact Hh].
      cbn in Hb, Ht. split; [exact Hb|]. now rewrite Ht, <- app_assoc.
    + rewrite Hh. cbn. intros H.
      eapply IH in H as (Hb & Ht); [|cbn; exact Hk|cbn; reflexivity].
      cbn in Hb, Ht. rewrite Hb, Ht. cbn. now rewrite <- !app_assoc.
    + intros H. eapply IH in H as (Hb & Ht); [|cbn; exact Hk|cbn; exact Hh].
      cbn in Hb, Ht. split; [exact Hb|]. now rewrite Ht, <- app_assoc.
Qed.

(** X7.  When initConfig returns on an executor with the client [k],
    the descriptor has a container spec and the binds of the host
    configuration are: first the job volume mounted at the work
    directory (<volume name>:<workDir>), then the binds of exactly those
    declared volumes of which the daemon lists one volume of that name,
    in the order of their declaration; the others are skipped.  The
    daemon was asked once per declared volume, in that order, and the
    network mode is the one of the container spec. *)
Theorem initConfig_binds (d d' : DockerExecutor) (k : client.Client) :
  cli d = Some k ->
  initConfig host d = Ret tt d' ->
  exists hc docker,
    domain.Docker (inCmd (base d)) = Some docker /\
    hostConfig d' = Some hc /\
    types.Binds hc
      = (types.Name (flowVolume d) +:+ ":" +:+ workDir d')
          :: map (toBindStr host)
               (boundVolumes k (context (base d)) (trace d) (volumes d)) /\
    types.NetworkMode hc = domain.NetworkMode docker /\
    trace d'
      = rev (map (fun v => EvCall (ReqVolumeList (context (base d)) (Name v)))
               (volumes d))
          ++ trace d.
Proof.
  intros Hk. unfold initConfig. exec_simpl.
  destruct (domain.Docker (inCmd (base d))) as [docker|]; cbn; [|discriminate].
  destruct (ParsePortSpecs host _) as [[portSet portMap]|e]; cbn; [|discriminate].
  intros Hb.
  match type of Hb with
  | bindVolumes host ?l ?d0 = _ =>
      pose proof (bindVolumes_keeps host workDir l
        (fun _ _ => eq_refl) (fun _ _ => eq_refl) d0) as Hkeep
  end.
  rewrite Hb in Hkeep.
  eapply bindVolumes_binds in Hb as (Hh & Ht); [|cbn; exact Hk|cbn; reflexivity].
  cbn in Hh, Ht.
  eexists _, docker. split; [reflexivity|]. split; [exact Hh|]. cbn.
  rewrite Hkeep. repeat split. exact Ht.
Qed.

(** When the port specifications of the descriptor do not parse,
    initConfig panics with the parser's error before anything is asked
    of the daemon: the trace is as it was and neither configuration has
    been written. *)
Lemma initConfig_rejects_bad_ports (d : DockerExecutor) (e : error)
  (docker : domain.DockerOption) :
  domain.Docker (inCmd (base d)) = Some docker ->
  ParsePortSpecs host (domain.Ports docker) = Err e ->
  exists d',
    initConfig host d = Panic e d' /\
    trace d' = trace d /\
    cli d' = cli d /\
    containerConfig d' = containerConfig d /\
    hostConfig d' = hostConfig d /\
    inCmd (base d') = inCmd (base d).
Proof.
  intros Hspec H. unfold initConfig. exec_simpl. rewrite Hspec. cbn.
  rewrite H. cbn. eexists. split; [reflexivity|]. cbn. repeat split.
Qed.

Lemma initJobVolume_keeps {T} (f : DockerExecutor -> T) :
  (forall e d, f (emit e d) = f d) ->
  (forall v d, f (set_flowVolume v d) = f d) ->
  keeps f initJobVolume.
Proof.
  intros He Hv. unfold initJobVolume.
  apply keeps_bind; [apply keeps_get|intros d0].
  apply keeps_bind; [apply getVolume_keeps, He|intros [ok v]].
  destruct ok.
  - apply keeps_bind; [destruct v; [apply keeps_ret|apply keeps_panic]|intros v'].
    apply keeps_modify. intros; apply Hv.
  - apply keeps_bind; [apply keeps_get|intros d1].
    apply keeps_bind; [apply keeps_request, He|intros r].
    apply keeps_bind; [destruct r; [apply keeps_ret|apply keeps_panic]|intros c].
    apply keeps_modify. intros; apply Hv.
Qed.

(** X8.  A descriptor whose container spec has port specifications
    that do not parse: Init gets
    the client and the job volume, then returns the parser's error, with
    nothing asked of the daemon after the volume and no container
    configuration built.  Start on that executor does not reach the
    daemon before the cleanup: pullImage dereferences the nil
    configuration, the job ends as Exception with the runtime error,
    which Start returns, and the cleanup and the closing of the channels
    still run. *)
Theorem Start_after_failed_port_parsing
  (fuel : nat) (d d2 : DockerExecutor) (k : client.Client) (e : error)
  (docker : domain.DockerOption) :
  NewEnvClient host = Ok k ->
  containerConfig d = None ->
  initJobVolume (set_cli (Some k) d) = Ret tt d2 ->
  domain.Docker (inCmd (base d)) = Some docker ->
  ParsePortSpecs host (domain.Ports docker) = Err e ->
  exists d3 d',
    Init host d = Ret (Some e) d3 /\
    trace d3 = trace d2 /\
    containerConfig d3 = None /\
    Start host fuel d3 = Ret (Some ErrNilPointer) d' /\
    domain.Status (CmdResult (base d')) = domain.CmdStatusException /\
    trace d' = EvCloseChannels :: cleanupPolicy d' ++ EvWgAdd 2 :: trace d3.
Proof.
  intros Hnew Hcfg Hvol Hspec Hports.
  pose proof (initJobVolume_keeps
                (fun d => (inCmd (base d), containerConfig d, cli d))
                (fun _ _ => eq_refl) (fun _ _ => eq_refl) (set_cli (Some k) d))
    as Hkeep.
  rewrite Hvol in Hkeep. cbn in Hkeep. injection Hkeep as Hin Hc Hcl.
  rewrite <- Hin in Hspec.
  destruct (initConfig_rejects_bad_ports d2 e docker Hspec Hports)
    as (d3 & Hinit & Ht & Hcli3 & Hc3 & _ & Hin3).
  assert (Hcl3 : cleanable d3) by (right; congruence).
  assert (HInit : Init host d = Ret (Some e) d3).
  { unfold Init, Init_body. rewrite Hnew.
    rewrite (bind_Ret (modify (set_cli (Some k))) _ d tt _ eq_refl).
    rewrite (bind_Ret _ _ _ _ _ Hvol). now rewrite Hinit. }
  assert (Hnil : containerConfig d3 = None) by congruence.
  assert (Hbody : Start_body host fuel d3 = Panic ErrNilPointer (emit (EvWgAdd 2) d3)).
  { unfold Start_body, stdOutWg_Add, pullImage. exec_simpl. now rewrite Hnil. }
  destruct (Start_after_panic host fuel d3 _ _ Hcl3 Hbody)
    as (d' & HS & _ & _ & Hoth & Htr).
  exists d3, d'. split; [exact HInit|]. split; [exact Ht|]. split; [exact Hnil|].
  split; [exact HS|].
  destruct (Hoth ltac:(discriminate) ltac:(discriminate)) as (Hst & _).
  split; [exact Hst|].
  rewrite Htr. cbn [cli emit trace]. rewrite Hcli3, Hcl. reflexivity.
Qed.

(** X9.  initConfig adds the two agent variables to the executor's
    variables and touches no other: AGENT_PLUGIN_DIR is /ws/.plugins,
    every variable of another name keeps its value (so the inputs reach
    the container), and a variable that was given under the name of an
    agent variable is overwritten.  This holds whether initConfig returns
    or panics. *)
Theorem initConfig_variables (d : DockerExecutor) :
  exists d',
    (initConfig host d = Ret tt d' \/ exists e, initConfig host d = Panic e d') /\
    vars (base d') !! domain.VarAgentPluginDir = Some dockerPluginDir /\
    vars (base d') !! domain.VarAgentJobDir = Some (workDir d') /\
    (forall name,
       name <> domain.VarAgentPluginDir -> name <> domain.VarAgentJobDir ->
       vars (base d') !! name = vars (base d) !! name) /\
    (initConfig host d = Ret tt d' ->
     exists config,
       containerConfig d' = Some config /\
       types.Env config = domain.ToStringArray (vars (base d'))).
Proof.
  unfold initConfig. exec_simpl.
  destruct (domain.Docker (inCmd (base d))) as [docker|]; cbn;
    [destruct (ParsePortSpecs host _) as [[portSet portMap]|e]; cbn|].
  - match goal with
    | |- context [bindVolumes host ?l ?d0] =>
        pose proof (bindVolumes_keeps host
          (fun d => (vars (base d), workDir d, containerConfig d)) l
          (fun _ _ => eq_refl) (fun _ _ => eq_refl) d0) as Hkeep;
        pose proof (bindVolumes_ends host l d0) as Hends;
        destruct (bindVolumes host l d0) as [[] d'|e d'|]
    end; [| |congruence];
      injection Hkeep as Hv Hw Hc; exists d'; rewrite Hv, Hw; cbn.
    + split; [now left|]. split; [apply lookup_insert_eq|].
      split; [now rewrite lookup_insert_ne, lookup_insert_eq|].
      split; [intros name H1 H2; now rewrite !lookup_insert_ne by congruence|].
      intros _. eexists. split; [exact Hc|]. reflexivity.
    + split; [right; now exists e|]. split; [apply lookup_insert_eq|].
      split; [now rewrite lookup_insert_ne, lookup_insert_eq|].
      split; [intros name H1 H2; now rewrite !lookup_insert_ne by congruence|].
      discriminate.
  - eexists. split; [right; eexists; reflexivity|]. cbn.
    split; [apply lookup_insert_eq|].
    split; [now rewrite lookup_insert_ne, lookup_insert_eq|].
    split; [intros name H1 H2; now rewrite !lookup_insert_ne by congruence|].
    discriminate.
  - eexists. split; [right; eexists; reflexivity|]. cbn.
    split; [apply lookup_insert_eq|].
    split; [now rewrite lookup_insert_ne, lookup_insert_eq|].
    split; [intros name H1 H2; now rewrite !lookup_insert_ne by congruence|].
    discriminate.
Qed.

End ConfigMore.

Section ContainerFacts.
Context (host : Host).

(** X10.  A container named for the resume that is there but not in
    status "exited" (running, paused, created, ...) is left alone:
    tryToResume only inspects it, asks neither for a restart nor for a
    removal, and answers false; startContainer then creates a fresh
    container, whose id is the one recorded. *)
Theorem resume_leaves_a_live_container_alone
  (d : DockerExecutor) (k : client.Client) (inspect : types.ContainerJSON) :
  cli d = Some k ->
  let id := domain.CmdIn_ContainerId (inCmd (base d)) in
  let ctx := context (base d) in
  let inspectEv := EvCall (ReqContainerInspect ctx id) in
  let createEv :=
    EvCall (ReqContainerCreate ctx (containerConfig d) (hostConfig d)) in
  id <> "" ->
  client.ContainerInspect k (trace d) ctx id = Ok inspect ->
  types.StateStatus inspect <> "exited" ->
  tryToResume d = Ret false (emit inspectEv d) /\
  (forall cid,
     client.ContainerCreate k (inspectEv :: trace d) ctx
       (containerConfig d) (hostConfig d) = Ok cid ->
     exists d',
       (startContainer d = Ret tt d' \/ exists e, startContainer d = Panic e d') /\
       containerId d' = cid /\
       domain.ContainerId (CmdResult (base d')) = cid /\
       trace d' = EvCall (ReqContainerStart ctx cid) :: createEv :: inspectEv :: trace d).
Proof.
  intros Hk id ctx inspectEv createEv Hid Hi Hs.
  assert (Htry : tryToResume d = Ret false (emit inspectEv d)).
  { rewrite (tryToResume_cases d k Hk). cbv zeta. fold id ctx inspectEv.
    unfold util.IsEmptyString. destruct (String.eqb_spec id ""); [contradiction|].
    rewrite Hi. destruct (String.eqb_spec (types.StateStatus inspect) "exited");
      [contradiction|reflexivity]. }
  split; [exact Htry|]. intros cid Hc.
  unfold startContainer. rewrite (bind_Ret _ _ _ _ _ Htry).
  unfold cli_ContainerCreate, cli_ContainerStart. exec_simpl.
  rewrite Hk. cbn. fold ctx. rewrite Hc. cbn. rewrite Hk. cbn.
  destruct (client.ContainerStart k _ ctx cid); eauto 10.
Qed.

(** Start's body up to startContainer, and from startContainer on. *)
Lemma Start_body_from_startContainer fuel d d1 :
  (stdOutWg_Add 2 ≫= fun _ => pullImage) d = Ret tt d1 ->
  Start_body host fuel d
    = (startContainer ≫= fun _ =>
       copyPlugins host ≫= fun _ =>
       runCmdInContainer host ≫= fun eid =>
       waitForExit host fuel eid ≫= fun exitCode =>
       exportEnv host ≫= fun _ => Start_finish host exitCode) d1.
Proof.
  intros H. unfold Start_body.
  rewrite <- (bind_assoc (stdOutWg_Add 2) (fun _ => pullImage)).
  now rewrite (bind_Ret _ _ _ _ _ H).
Qed.

(** X11.  The descriptor has a container spec, Start has pulled the
    image and there is nothing to resume.
    When the daemon creates the container but cannot start it, the
    container's id is already recorded, in the executor and in the
    result, so the cleanup of the deferred function acts on the created
    container; the job ends in a finish status and Start returns what
    handleErrors makes of the error.  When the container cannot even be
    created, the recorded ids stay as they were and the cleanup is asked
    for that earlier id. *)
Theorem start_failure_still_cleans_the_created_container
  (fuel : nat) (d d1 : DockerExecutor) (k : client.Client)
  (spec : domain.DockerOption) :
  domain.Docker (inCmd (base d)) = Some spec ->
  (stdOutWg_Add 2 ≫= fun _ => pullImage) d = Ret tt d1 ->
  cli d1 = Some k ->
  domain.CmdIn_ContainerId (inCmd (base d1)) = "" ->
  let ctx := context (base d1) in
  let createEv :=
    EvCall (ReqContainerCreate ctx (containerConfig d1) (hostConfig d1)) in
  let returned e : option error :=
    if decide (e = DeadlineExceeded) then None
    else if decide (e = Canceled) then None else Some e in
  (forall cid e,
     client.ContainerCreate k (trace d1) ctx (containerConfig d1) (hostConfig d1)
       = Ok cid ->
     client.ContainerStart k (createEv :: trace d1) ctx cid = Some e ->
     exists d',
       Start host fuel d = Ret (returned e) d' /\
       containerId d' = cid /\
       domain.ContainerId (CmdResult (base d')) = cid /\
       trace d'
         = EvCloseChannels :: cleanupPolicy d'
             ++ EvCall (ReqContainerStart ctx cid) :: createEv :: trace d1) /\
  (forall e,
     client.ContainerCreate k (trace d1) ctx (containerConfig d1) (hostConfig d1)
       = Err e ->
     exists d',
       Start host fuel d = Ret (returned e) d' /\
       containerId d' = containerId d1 /\
       domain.ContainerId (CmdResult (base d'))
         = domain.ContainerId (CmdResult (base d1)) /\
       trace d' = EvCloseChannels :: cleanupPolicy d' ++ createEv :: trace d1).
Proof.
  intros Hspec Hpull Hk Hid ctx createEv returned.
  pose proof (cleanable_spec d spec Hspec) as Hcl.
  assert (Htry : tryToResume d1 = Ret false d1).
  { unfold tryToResume. exec_simpl. now rewrite Hid. }
  pose proof (Start_body_from_startContainer fuel d d1 Hpull) as Hbody.
  split.
  - intros cid e Hc Hs.
    set (d2 := set_CmdResult (with_ContainerId cid)
                 (set_containerId cid (emit createEv d1))).
    assert (Hstart : startContainer d1
                     = Panic e (emit (EvCall (ReqContainerStart ctx cid)) d2)).
    { unfold startContainer. rewrite (bind_Ret _ _ _ _ _ Htry).
      unfold cli_ContainerCreate, cli_ContainerStart. exec_simpl.
      rewrite Hk. cbn. fold ctx. rewrite Hc. cbn. rewrite Hk. cbn.
      fold createEv. now rewrite Hs. }
    rewrite (bind_Panic _ _ _ _ _ Hstart) in Hbody.
    destruct (Start_after_panic host fuel d _ _ Hcl Hbody)
      as (d' & HS & _ & _ & _ & Htr).
    destruct (Start_after_panic_result host fuel d _ _ Hcl Hbody)
      as (d'' & HS' & Hid' & _ & Hres).
    rewrite HS in HS'. injection HS' as <-.
    exists d'. split; [exact HS|].
    unfold d2 in Htr. cbn in Htr. rewrite Hk in Htr.
    split; [exact Hid'|]. split; [|exact Htr].
    rewrite Hres. cbv zeta.
    destruct (decide (e = DeadlineExceeded)); [|destruct (decide (e = Canceled))];
      reflexivity.
  - intros e Hc.
    assert (Hstart : startContainer d1 = Panic e (emit createEv d1)).
    { unfold startContainer. rewrite (bind_Ret _ _ _ _ _ Htry).
      unfold cli_ContainerCreate. exec_simpl.
      rewrite Hk. cbn. fold ctx. now rewrite Hc. }
    rewrite (bind_Panic _ _ _ _ _ Hstart) in Hbody.
    destruct (Start_after_panic host fuel d _ _ Hcl Hbody)
      as (d' & HS & _ & _ & _ & Htr).
    destruct (Start_after_panic_result host fuel d _ _ Hcl Hbody)
      as (d'' & HS' & Hid' & _ & Hres).
    rewrite HS in HS'. injection HS' as <-.
    exists d'. split; [exact HS|].
    cbn in Htr. rewrite Hk in Htr.
    split; [exact Hid'|]. split; [|exact Htr].
    rewrite Hres. cbv zeta.
    destruct (decide (e = DeadlineExceeded)); [|destruct (decide (e = Canceled))];
      reflexivity.
Qed.

End ContainerFacts.

Section PullFacts.
Context (host : Host).

Lemma waitForExit_loop_extends fuel eid d :
  sends (fun _ => True) (fun _ => True) (waitForExit_loop fuel eid) d.
Proof.
  revert d. induction fuel as [|fuel IH]; intros d; cbn [waitForExit_loop].
  - apply sends_spin.
  - sends_tac. apply IH.
Qed.

(** Whatever follows the pull only adds to the trace. *)
Lemma after_pull_extends fuel d1 :
  sends (fun _ => True) (fun _ => True)
    (startContainer ≫= fun _ =>
     copyPlugins host ≫= fun _ =>
     runCmdInContainer host ≫= fun eid =>
     waitForExit host fuel eid ≫= fun exitCode =>
     exportEnv host ≫= fun _ => Start_finish host exitCode) d1.
Proof.
  unfold startContainer, tryToResume, copyPlugins, runCmdInContainer,
    waitForExit, exportEnv, Start_finish.
  keeps_unfold.
  repeat first [ apply waitForExit_loop_extends | sends_step; sends_side ].
Qed.

(** X12.  The image pull is the first thing Start asks of the daemon,
    whatever the descriptor says, also when it names a container to
    resume: in every run of Start that returns, on an executor with a
    client and a container configuration, the oldest events Start added
    are the registration of the two output readers and the pull of the
    image under its registry reference. *)
Theorem Start_pulls_the_image_first
  (fuel : nat) (d d' : DockerExecutor) (k : client.Client)
  (config : types.ContainerConfig) (out : option error) :
  cli d = Some k ->
  containerConfig d = Some config ->
  Start host fuel d = Ret out d' ->
  let image := types.Image config in
  let fullRef :=
    if Contains image "/" then "docker.io/" +:+ image
    else "docker.io/library/" +:+ image in
  exists later,
    trace d'
      = later ++ EvCall (ReqImagePull (context (base d)) fullRef)
          :: EvWgAdd 2 :: trace d.
Proof.
  intros Hk Hc HS image fullRef.
  set (pullEv := EvCall (ReqImagePull (context (base d)) fullRef)).
  assert (Hbody : exists d1 evs,
            trace d1 = evs ++ pullEv :: EvWgAdd 2 :: trace d /\
            ((exists o, Start_body host fuel d = Ret o d1) \/
             (exists e, Start_body host fuel d = Panic e d1))).
  { destruct (client.ImagePull k (EvWgAdd 2 :: trace d) (context (base d)) fullRef)
      as [reader|e] eqn:Hp.
    - set (d1 := emit (EvWriteLog reader) (emit pullEv (emit (EvWgAdd 2) d))).
      assert (Hpull : (stdOutWg_Add 2 ≫= fun _ => pullImage) d = Ret tt d1).
      { unfold stdOutWg_Add, pullImage, cli_ImagePull, writeLog. exec_simpl.
        rewrite Hc. cbn. rewrite Hk. cbn. fold image fullRef. now rewrite Hp. }
      rewrite (Start_body_from_startContainer host fuel d d1 Hpull).
      pose proof (after_pull_extends fuel d1) as Hext. unfold sends in Hext.
      match type of Hext with
      | match ?m with _ => _ end => destruct m as [o d2|e d2|] eqn:Hrest
      end.
      + destruct Hext as (_ & evs & Ht & _). exists d2, (evs ++ [EvWriteLog reader]).
        split; [rewrite Ht, <- app_assoc; reflexivity|]. left. now exists o.
      + destruct Hext as (_ & evs & Ht & _). exists d2, (evs ++ [EvWriteLog reader]).
        split; [rewrite Ht, <- app_assoc; reflexivity|]. right. now exists e.
      + exfalso. unfold Start in HS.
        rewrite (Start_body_from_startContainer host fuel d d1 Hpull), Hrest in HS.
        discriminate.
    - exists (emit pullEv (emit (EvWgAdd 2) d)), []. split; [reflexivity|].
      right. exists e.
      unfold Start_body, stdOutWg_Add, pullImage, cli_ImagePull, writeLog.
      exec_simpl. rewrite Hc. cbn. rewrite Hk. cbn. fold image fullRef.
      now rewrite Hp. }
  pose proof (Start_returns_cleanable host fuel d out d' HS) as Hcl.
  pose proof (Start_body_cleanable host fuel d Hcl) as Hcl1.
  destruct Hbody as (d1 & evs & Ht & [[o Hb]|[e Hb]]).
  - rewrite Hb in Hcl1.
    unfold Start in HS. rewrite Hb, (Start_deferred_returned host _ _ Hcl1) in HS.
    injection HS as _ <-.
    destruct (cli d1); cbn [trace emit]; rewrite ?trace_emits, Ht.
    + eexists (EvCloseChannels :: cleanupPolicy d1 ++ evs).
      cbn. now rewrite <- app_assoc.
    + now exists (EvCloseChannels :: evs).
  - destruct (Start_after_panic host fuel d e d1 Hcl Hb)
      as (d2 & HS2 & _ & _ & _ & Htr).
    rewrite HS2 in HS. injection HS as _ <-. rewrite Htr, Ht.
    eexists (EvCloseChannels :: _ ++ evs). cbn. now rewrite <- app_assoc.
Qed.

(** X13.  The descriptor has a container spec.  When the pull fails,
    the run ends there: nothing is inspected,
    created or started, the executor's container id is what it was, the
    cleanup is still asked for that id, and Start returns what
    handleErrors makes of the pull's error. *)
Theorem pull_failure_ends_the_run
  (fuel : nat) (d : DockerExecutor) (k : client.Client)
  (config : types.ContainerConfig) (e : error) (option : domain.DockerOption) :
  domain.Docker (inCmd (base d)) = Some option ->
  cli d = Some k ->
  containerConfig d = Some config ->
  let image := types.Image config in
  let fullRef :=
    if Contains image "/" then "docker.io/" +:+ image
    else "docker.io/library/" +:+ image in
  let pullEv := EvCall (ReqImagePull (context (base d)) fullRef) in
  client.ImagePull k (EvWgAdd 2 :: trace d) (context (base d)) fullRef = Err e ->
  exists d',
    Start host fuel d
      = Ret (if decide (e = DeadlineExceeded) then None
             else if decide (e = Canceled) then None else Some e) d' /\
    containerId d' = containerId d /\
    trace d' = EvCloseChannels :: cleanupPolicy d' ++ pullEv :: EvWgAdd 2 :: trace d.
Proof.
  intros Hspec Hk Hc image fullRef pullEv Hp.
  pose proof (cleanable_spec d option Hspec) as Hcl.
  assert (Hbody : Start_body host fuel d
                  = Panic e (emit pullEv (emit (EvWgAdd 2) d))).
  { unfold Start_body, stdOutWg_Add, pullImage, cli_ImagePull, writeLog.
    exec_simpl. rewrite Hc. cbn. rewrite Hk. cbn. fold image fullRef.
    now rewrite Hp. }
  destruct (Start_after_panic host fuel d _ _ Hcl Hbody)
    as (d' & HS & _ & _ & _ & Htr).
  destruct (Start_after_panic_result host fuel d _ _ Hcl Hbody)
    as (d'' & HS' & Hid' & _).
  rewrite HS in HS'. injection HS' as <-.
  exists d'. split; [exact HS|].
  cbn in Htr. rewrite Hk in Htr. split; [exact Hid'|exact Htr].
Qed.

End PullFacts.

Section WaitFacts.
Context (host : Host).

(** X14.  When waitForExit returns, the session has been inspected at
    least twice: the process id of the result is the one the first
    inspection reported; the returned exit code is the one of the last
    inspection, and that inspection reported the session as not running;
    in between there are only further inspections of the same session
    and sleeps of one second. *)
Theorem waitForExit_returns_the_last_inspection
  (fuel : nat) (eid : string) (d d' : DockerExecutor) (exitCode : Z) :
  waitForExit host fuel eid d = Ret exitCode d' ->
  let inspectEv := EvCall (ReqContainerExecInspect (context (base d)) eid) in
  exists k first last polls,
    cli d = Some k /\
    client.ContainerExecInspect k (trace d) (context (base d)) eid = Ok first /\
    domain.ProcessId (CmdResult (base d')) = types.Pid first /\
    trace d' = inspectEv :: polls ++ inspectEv :: trace d /\
    client.ContainerExecInspect k (polls ++ inspectEv :: trace d)
      (context (base d)) eid = Ok last /\
    types.Running last = false /\
    types.ExitCode last = exitCode /\
    Forall (fun ev => ev = EvSleep (1 * Second) \/ ev = inspectEv) polls.
Proof.
  unfold waitForExit, cli_ContainerExecInspect, toStartStatus. exec_unfold. cbn.
  destruct (cli d) as [k|] eqn:Hk; [|discriminate]. cbn.
  destruct (client.ContainerExecInspect k (trace d) (context (base d)) eid)
    as [first|e] eqn:Hi; [|discriminate]. cbn.
  intros H. apply waitForExit_loop_returns in H. cbn in H.
  destruct H as (k' & last & polls & Hk' & Hb & Ht & Hl & Hrun & Hcode & Hall).
  rewrite Hk in Hk'. injection Hk' as <-.
  exists k, first, last, polls. rewrite Hb. cbn. repeat split; assumption.
Qed.

(** Start's body keeps the container id of the result equal to the one
    of the executor. *)
Lemma Start_body_keeps_the_ids_in_step fuel d :
  domain.ContainerId (CmdResult (base d)) = containerId d ->
  sends (fun d' => domain.ContainerId (CmdResult (base d')) = containerId d')
    (fun _ => True) (Start_body host fuel) d.
Proof.
  intros HI.
  assert (Hloop : forall fuel eid d,
            domain.ContainerId (CmdResult (base d)) = containerId d ->
            sends (fun d' => domain.ContainerId (CmdResult (base d')) = containerId d')
              (fun _ => True) (waitForExit_loop fuel eid) d).
  { clear. induction fuel as [|fuel IH]; intros eid d HI; cbn [waitForExit_loop].
    - apply sends_spin.
    - sends_tac. apply IH. assumption. }
  assert (Hset : forall A c (k : M A) d0,
            sends (fun d' => domain.ContainerId (CmdResult (base d')) = containerId d')
              (fun _ => True) k
              (set_CmdResult (with_ContainerId c) (set_containerId c d0)) ->
            sends (fun d' => domain.ContainerId (CmdResult (base d')) = containerId d')
              (fun _ => True)
              (modify (set_containerId c) ≫= fun _ =>
               modify (set_CmdResult (with_ContainerId c)) ≫= fun _ => k) d0).
  { clear. intros A c k d0 H. exact H. }
  unfold Start_body, pullImage, startContainer, tryToResume, copyPlugins,
    runCmdInContainer, waitForExit, exportEnv, Start_finish.
  keeps_unfold.
  repeat first [ apply Hloop; sends_side
               | apply Hset
               | sends_step; sends_side ].
Qed.

(** X15.  The container id of the result and the container id the
    executor works on never drift apart: when they agree before Start,
    they agree when Start returns, on every exit, so the id in the result
    is the id of the container the cleanup acted on. *)
Theorem Start_keeps_the_container_ids_in_step
  (fuel : nat) (d d' : DockerExecutor) (out : option error) :
  domain.ContainerId (CmdResult (base d)) = containerId d ->
  Start host fuel d = Ret out d' ->
  domain.ContainerId (CmdResult (base d')) = containerId d'.
Proof.
  intros HI HS.
  pose proof (Start_body_keeps_the_ids_in_step fuel d HI) as Hs. unfold sends in Hs.
  pose proof (Start_returns_cleanable host fuel d out d' HS) as Hcl.
  pose proof (Start_body_cleanable host fuel d Hcl) as Hcl1.
  unfold Start in HS.
  destruct (Start_body host fuel d) as [o d1|e d1|]; [| |discriminate].
  - destruct Hs as (HJ & _). rewrite (Start_deferred_returned host _ _ Hcl1) in HS.
    injection HS as _ <-.
    destruct (cli d1); cbn; rewrite ?base_emits, ?containerId_emits; exact HJ.
  - destruct Hs as (HJ & _).
    destruct (Start_deferred_recovered host e d1 Hcl1) as (d2 & Hh & Hd).
    destruct (handleErrors_returns host e d1)
      as (d2' & Hh' & _ & _ & Hid & _ & _ & Hrid).
    rewrite Hh in Hh'. injection Hh' as <-.
    rewrite Hd in HS. injection HS as _ <-.
    destruct (cli d2); cbn; rewrite ?base_emits, ?containerId_emits; congruence.
Qed.

End WaitFacts.

(* ================================================================== *)
(** ** Package dao: the string helpers                                 *)
(* ================================================================== *)

Import unicode utf8 dao.

Lemma append_cons x (a b : string) : String x a +:+ b = String x (a +:+ b).
Proof. reflexivity. Qed.

Lemma append_empty_l (b : string) : "" +:+ b = b.
Proof. reflexivity. Qed.

Lemma append_assoc_string (a b c : string) : (a +:+ b) +:+ c = a +:+ (b +:+ c).
Proof.
  induction a as [|x a IH]; [reflexivity|]. rewrite !append_cons. now rewrite IH.
Qed.

Lemma append_empty_r (a : string) : a +:+ "" = a.
Proof.
  induction a as [|x a IH]; [reflexivity|]. rewrite append_cons. now rewrite IH.
Qed.

Lemma length_append_string (a b : string) :
  String.length (a +:+ b) = (String.length a + String.length b)%nat.
Proof.
  induction a as [|x a IH]; [reflexivity|]. rewrite append_cons. cbn.
  now rewrite IH.
Qed.

Lemma runeOfByte_bounds c : 0 <= runeOfByte c < 256.
Proof.
  unfold runeOfByte. pose proof (N_ascii_bounded c). lia.
Qed.

Lemma byteOfRune_runeOfByte c : byteOfRune (runeOfByte c) = c.
Proof.
  unfold byteOfRune. pose proof (runeOfByte_bounds c).
  rewrite Z.mod_small by lia. unfold runeOfByte.
  rewrite N2Z.id. apply ascii_N_embedding.
Qed.

Lemma runeOfByte_byteOfRune r : 0 <= r < 256 -> runeOfByte (byteOfRune r) = r.
Proof.
  intros H. unfold runeOfByte, byteOfRune. rewrite Z.mod_small by lia.
  rewrite N_ascii_embedding by lia. lia.
Qed.

(** On an ASCII byte the decoder yields the byte itself, one byte wide. *)
Lemma DecodeRune_ascii c rest :
  runeOfByte c < 128 -> DecodeRune c rest = (runeOfByte c, 1%nat).
Proof.
  intros H. unfold DecodeRune. apply Z.ltb_lt in H. now rewrite H.
Qed.

Section DaoFacts.
Context (u : Tables) (Hu : asciiCase u).

Lemma flatCamelWrite_ascii i c :
  runeOfByte c < 128 ->
  flatCamelWrite u (i, runeOfByte c)
    = (if upperByte c && negb (i =? 0)%nat then "_" else "")
      +:+ String (lowerByte c) "".
Proof.
  intros Hc. pose proof (runeOfByte_bounds c) as Hb.
  destruct (Hu (runeOfByte c) ltac:(lia)) as (Hup & Hlow & _).
  unfold flatCamelWrite, lowerByte, upperByte. rewrite Hup, Hlow.
  destruct ((65 <=? runeOfByte c) && (runeOfByte c <=? 90)); cbn [andb].
  - destruct i; reflexivity.
  - now rewrite byteOfRune_runeOfByte.
Qed.

Lemma flatCamel_fold_ascii v : forall i acc,
  isASCII v ->
  fold_left (fun builder ir => builder +:+ flatCamelWrite u ir)
    (rangeFrom i 0 v) acc
  = acc +:+ snake (i =? 0)%nat v.
Proof.
  induction v as [|c v IH]; intros i acc Hv; cbn [rangeFrom fold_left snake].
  - now rewrite append_empty_r.
  - inversion Hv as [|? ? Hc Hrest]; subst.
    rewrite (DecodeRune_ascii c v Hc). cbn [Nat.pred fold_left].
    rewrite IH by exact Hrest. rewrite flatCamelWrite_ascii by exact Hc.
    rewrite !append_assoc_string. reflexivity.
Qed.

Lemma flatCamelString_ascii (v : string) :
  isASCII v -> flatCamelString u v = snake true v.
Proof.
  intros Hv. unfold flatCamelString, range.
  now rewrite flatCamel_fold_ascii.
Qed.

(** X16.  On a string of ASCII bytes, flatCamelString is snake casing:
    every upper-case letter is replaced by its lower-case letter, and an
    underscore is written before it unless it is the first byte of the
    string; all other bytes are copied. *)
Theorem flatCamelString_is_snake_case (v : string) :
  isASCII v -> flatCamelString u v = snake true v.
Proof. exact (flatCamelString_ascii v). Qed.

End DaoFacts.

Lemma list_ascii_of_string_append (a b : string) :
  list_ascii_of_string (a +:+ b) = list_ascii_of_string a ++ list_ascii_of_string b.
Proof.
  induction a as [|x a IH]; [reflexivity|]. rewrite append_cons. cbn. now rewrite IH.
Qed.

Lemma underscore_not_upper : upperByte "_"%char = false /\ runeOfByte "_"%char < 128.
Proof. split; [reflexivity | vm_compute; reflexivity]. Qed.

Lemma lowerByte_not_upper c :
  runeOfByte c < 128 ->
  upperByte (lowerByte c) = false /\ runeOfByte (lowerByte c) < 128.
Proof.
  intros Hc. unfold lowerByte. destruct (upperByte c) eqn:Hup.
  - unfold upperByte in Hup. apply andb_true_iff in Hup as [H1 H2].
    apply Z.leb_le in H1, H2.
    unfold upperByte. rewrite runeOfByte_byteOfRune by lia.
    split; [|lia]. apply andb_false_iff. right. apply Z.leb_gt. lia.
  - now split.
Qed.

Lemma lowerByte_id c : upperByte c = false -> lowerByte c = c.
Proof. intros H. unfold lowerByte. now rewrite H. Qed.

(** Snake casing leaves no upper-case letter, and ASCII stays ASCII. *)
Lemma snake_is_lower v : forall first,
  isASCII v ->
  Forall (fun c => upperByte c = false /\ runeOfByte c < 128)
    (list_ascii_of_string (snake first v)).
Proof.
  induction v as [|c v IH]; intros first Hv; cbn [snake].
  - constructor.
  - inversion Hv as [|? ? Hc Hrest]; subst.
    rewrite list_ascii_of_string_append. apply Forall_app. split.
    + destruct (upperByte c && negb first); cbn; [|constructor].
      constructor; [exact underscore_not_upper|constructor].
    + cbn. constructor; [now apply lowerByte_not_upper|now apply IH].
Qed.

(** A string without upper-case letters is its own snake case. *)
Lemma snake_of_lower v : forall first,
  Forall (fun c => upperByte c = false) (list_ascii_of_string v) ->
  snake first v = v.
Proof.
  induction v as [|c v IH]; intros first Hv; cbn [snake]; [reflexivity|].
  inversion Hv as [|? ? Hc Hrest]; subst.
  rewrite Hc, lowerByte_id by exact Hc. cbn [andb].
  rewrite append_empty_l. f_equal. now apply IH.
Qed.

Lemma length_snake_false v :
  String.length (snake false v) = (String.length v + countUpper v)%nat.
Proof.
  induction v as [|c v IH]; [reflexivity|]. cbn [snake countUpper negb].
  rewrite andb_true_r, length_append_string. cbn [String.length]. rewrite IH.
  destruct (upperByte c); cbn; lia.
Qed.

Section DaoMore.
Context (u : Tables) (Hu : asciiCase u).

(** X17.  The snake case of an ASCII string holds no upper-case letter
    and is ASCII again; flatCamelString is idempotent on ASCII strings,
    and it leaves a string without upper-case letters as it is. *)
Theorem flatCamelString_lowers_and_is_idempotent (v : string) :
  isASCII v ->
  Forall (fun c => upperByte c = false) (list_ascii_of_string (flatCamelString u v)) /\
  isASCII (flatCamelString u v) /\
  flatCamelString u (flatCamelString u v) = flatCamelString u v /\
  (Forall (fun c => upperByte c = false) (list_ascii_of_string v) ->
   flatCamelString u v = v).
Proof.
  intros Hv. rewrite (flatCamelString_ascii u Hu v Hv).
  pose proof (snake_is_lower v true Hv) as Hl.
  assert (Hlow : Forall (fun c => upperByte c = false)
                   (list_ascii_of_string (snake true v))).
  { eapply List.Forall_impl; [|exact Hl]. now intros c [H _]. }
  assert (Hasc : isASCII (snake true v)).
  { unfold isASCII. eapply List.Forall_impl; [|exact Hl]. now intros c [_ H]. }
  split; [exact Hlow|]. split; [exact Hasc|]. split.
  - rewrite (flatCamelString_ascii u Hu _ Hasc).
    now apply snake_of_lower.
  - intros H. now apply snake_of_lower.
Qed.

(** X18.  The length of the snake case of an ASCII string: one byte per
    byte of the input, and one more for every upper-case letter that is
    not the first byte. *)
Theorem flatCamelString_length (v : string) :
  isASCII v ->
  String.length (flatCamelString u v)
    = (String.length v
       + match v with
         | EmptyString => 0
         | String _ rest => countUpper rest
         end)%nat.
Proof.
  intros Hv. rewrite (flatCamelString_ascii u Hu v Hv).
  destruct v as [|c v]; [reflexivity|]. cbn [snake negb].
  rewrite andb_false_r, append_empty_l. cbn [String.length].
  rewrite length_snake_false. lia.
Qed.

(** X19.  capitalFirstChar panics exactly on the empty string (its
    first byte is out of range).  Otherwise it changes the first byte
    only, so the length stays; on an ASCII string it is idempotent, and
    it is undone by the snake casing: flatCamelString gives the same
    result with or without it. *)
Theorem capitalFirstChar_behaviour (v : string) :
  (capitalFirstChar u v = None <-> v = "") /\
  (forall w, capitalFirstChar u v = Some w ->
     String.length w = String.length v /\
     (exists c c' rest, v = String c rest /\ w = String c' rest) /\
     (isASCII v ->
      isASCII w /\
      capitalFirstChar u w = Some w /\
      flatCamelString u w = flatCamelString u v)).
Proof.
  destruct v as [|c rest]; cbn [capitalFirstChar].
  - split; [tauto|]. discriminate.
  - split; [split; discriminate|].
    intros w H. injection H as <-. split; [reflexivity|].
    split; [eexists _, _, _; split; reflexivity|].
    intros Hv. inversion Hv as [|? ? Hc Hrest]; subst.
    pose proof (runeOfByte_bounds c) as Hb.
    destruct (Hu (runeOfByte c) ltac:(lia)) as (_ & _ & Hup).
    set (c' := byteOfRune (ToUpper u (runeOfByte c))).
    assert (Hc' : runeOfByte c'
                  = if (97 <=? runeOfByte c) && (runeOfByte c <=? 122)
                    then runeOfByte c - 32 else runeOfByte c).
    { unfold c'. rewrite Hup.
      destruct ((97 <=? runeOfByte c) && (runeOfByte c <=? 122)) eqn:Hl.
      - apply andb_true_iff in Hl as [H1 H2]. apply Z.leb_le in H1, H2.
        apply runeOfByte_byteOfRune. lia.
      - now rewrite byteOfRune_runeOfByte. }
    assert (Hasc' : runeOfByte c' < 128).
    { rewrite Hc'. destruct ((97 <=? runeOfByte c) && (runeOfByte c <=? 122)); lia. }
    assert (Hw : isASCII (String c' rest)) by (constructor; assumption).
    split; [exact Hw|]. split.
    + cbn [capitalFirstChar]. f_equal. f_equal.
      destruct (Hu (runeOfByte c') ltac:(pose proof (runeOfByte_bounds c'); lia))
        as (_ & _ & Hup').
      rewrite Hup'.
      assert (Hno : (97 <=? runeOfByte c') && (runeOfByte c' <=? 122) = false).
      { rewrite Hc'.
        destruct ((97 <=? runeOfByte c) && (runeOfByte c <=? 122)) eqn:Hl.
        - apply andb_true_iff in Hl as [H1 H2]. apply Z.leb_le in H1, H2.
          apply andb_false_iff. left. apply Z.leb_gt. lia.
        - exact Hl. }
      rewrite Hno. apply byteOfRune_runeOfByte.
    + rewrite !(flatCamelString_ascii u Hu) by assumption.
      cbn [snake negb]. rewrite !andb_false_r, !append_empty_l. f_equal.
      unfold lowerByte, upperByte. rewrite Hc'.
      destruct ((97 <=? runeOfByte c) && (runeOfByte c <=? 122)) eqn:Hl.
      * apply andb_true_iff in Hl as [H1 H2]. apply Z.leb_le in H1, H2.
        replace ((65 <=? runeOfByte c - 32) && (runeOfByte c - 32 <=? 90)) with true
          by (symmetry; apply andb_true_iff; split; apply Z.leb_le; lia).
        replace ((65 <=? runeOfByte c) && (runeOfByte c <=? 90)) with false
          by (symmetry; apply andb_false_iff; right; apply Z.leb_gt; lia).
        replace (runeOfByte c - 32 + 32) with (runeOfByte c) by lia.
        apply byteOfRune_runeOfByte.
      * destruct ((65 <=? runeOfByte c) && (runeOfByte c <=? 90)) eqn:Hupc.
        -- reflexivity.
        -- unfold c'. rewrite Hup. apply byteOfRune_runeOfByte.
Qed.

End DaoMore.

(** X20.  flatCamelString writes one byte per rune: a character that
    takes two bytes in the string and is not upper case comes out as the
    single byte that is its code point modulo 256, so the text is not
    preserved outside ASCII. *)
Theorem flatCamelString_truncates_two_byte_runes
  (u : Tables) (c0 c1 : ascii) :
  194 <= runeOfByte c0 <= 223 ->
  128 <= runeOfByte c1 <= 191 ->
  let r := Z.lor (Z.shiftl (Z.land (runeOfByte c0) 31) 6)
             (Z.land (runeOfByte c1) 63) in
  IsUpper u r = false ->
  flatCamelString u (String c0 (String c1 "")) = String (byteOfRune r) "".
Proof.
  intros H0 H1 r Hup.
  unfold flatCamelString, range. cbn [rangeFrom].
  assert (Hd : DecodeRune c0 (String c1 "") = (r, 2%nat)).
  { unfold DecodeRune, within, cont.
    replace (runeOfByte c0 <? 128) with false by (symmetry; apply Z.ltb_ge; lia).
    replace (runeOfByte c0 <? 194) with false by (symmetry; apply Z.ltb_ge; lia).
    replace (244 <? runeOfByte c0) with false by (symmetry; apply Z.ltb_ge; lia).
    replace (runeOfByte c0 <? 224) with true by (symmetry; apply Z.ltb_lt; lia).
    replace (128 <=? runeOfByte c1) with true by (symmetry; apply Z.leb_le; lia).
    replace (runeOfByte c1 <=? 191) with true by (symmetry; apply Z.leb_le; lia).
    reflexivity. }
  rewrite Hd. cbn [Nat.pred rangeFrom fold_left flatCamelWrite].
  now rewrite Hup.
Qed.

(* ================================================================== *)
(** ** Further scenarios, run                                          *)
(* ================================================================== *)

(** The run on the healthy daemon closes the channels last, once. *)
Lemma Start_closes_the_channels_once_witness :
  let h := scenario.host (Ok scenario.healthy) in
  let d := scenario.initialised h (scenario.cmd "") in
  exists d' added,
    Start h 5 d = Ret None d' /\
    trace d' = EvCloseChannels :: added ++ trace d /\
    ~ In EvCloseChannels added.
Proof.
  intros h d.
  assert (HS : Start h 5 d = Ret None (scenario.stateOf (Start h 5 d) d))
    by (vm_compute; reflexivity).
  destruct (Start_closes_the_channels_once h 5 d _ _ HS) as (added & Ht & Hn).
  eexists _, added. split; [exact HS|]. split; [exact Ht | exact Hn].
Defined.

(** The run on the healthy daemon asks nothing about volumes. *)
Lemma Start_sends_no_volume_request_witness :
  let h := scenario.host (Ok scenario.healthy) in
  let d := scenario.initialised h (scenario.cmd "") in
  exists d' added,
    Start h 5 d = Ret None d' /\
    trace d' = added ++ trace d /\
    forall ev, In ev added -> isVolumeRequest ev = false.
Proof.
  intros h d.
  assert (HS : Start h 5 d = Ret None (scenario.stateOf (Start h 5 d) d))
    by (vm_compute; reflexivity).
  destruct (Start_sends_no_volume_request h 5 d _ _ HS) as (added & Ht & Hn).
  eexists _, added. split; [exact HS|]. split; [exact Ht | exact Hn].
Defined.

(** The pull is cancelled: the body's events, the registration of the
    readers and the pull, went under the job context; the cleanup, the
    forced removal, goes under the background context. *)
Lemma Start_requests_under_the_job_context_witness :
  let h := scenario.host (Ok scenario.cancelled) in
  let d := scenario.initialised h (scenario.cmd "") in
  exists d',
    Start h 0 d = Ret None d' /\
    context (base d) = JobContext /\
    context (base d') = Background /\
    trace d'
      = EvCloseChannels
          :: EvCall (ReqContainerRemove Background "" true)
          :: EvCall (ReqImagePull JobContext "docker.io/library/ubuntu:18.04")
          :: EvWgAdd 2 :: trace d.
Proof.
  intros h d.
  assert (HS : Start h 0 d = Ret None (scenario.stateOf (Start h 0 d) d))
    by (vm_compute; reflexivity).
  destruct (Start_requests_under_the_job_context h 0 d _ _ HS)
    as (body & Ht & Hb & Hc & _).
  eexists. split; [exact HS|].
  split; [vm_compute; reflexivity|]. split; [vm_compute; reflexivity|].
  vm_compute. reflexivity.
Defined.

(** The restart of "c-old" fails: its forced removal by the body is in
    the trace, and the cleanup then removes the fresh container. *)
Lemma Start_body_removes_only_the_stale_container_witness :
  let h := scenario.host (Ok scenario.restartFails) in
  let d := scenario.initialised h (scenario.cmd "c-old") in
  exists d' body,
    Start h 5 d = Ret None d' /\
    trace d'
      = EvCloseChannels
          :: EvCall (ReqContainerRemove JobContext "c-new" true)
          :: body ++ trace d /\
    In (EvCall (ReqContainerRemove JobContext "c-old" true)) body /\
    (forall ctx id force,
       In (EvCall (ReqContainerRemove ctx id force)) body ->
       ctx = JobContext /\ id = "c-old" /\ force = true).
Proof.
  intros h d.
  assert (HS : Start h 5 d = Ret None (scenario.stateOf (Start h 5 d) d))
    by (vm_compute; reflexivity).
  destruct (Start_body_removes_only_the_stale_container h 5 d _ _ HS)
    as (body & Ht & _ & Hr).
  assert (Hk : cli d = Some scenario.restartFails) by (vm_compute; reflexivity).
  assert (Hpol : cleanupPolicy (scenario.stateOf (Start h 5 d) d)
                 = [EvCall (ReqContainerRemove JobContext "c-new" true)])
    by (vm_compute; reflexivity).
  rewrite Hk, Hpol in Ht.
  assert (Hctx : context (base d) = JobContext) by (vm_compute; reflexivity).
  assert (Hid : domain.CmdIn_ContainerId (inCmd (base d)) = "c-old")
    by (vm_compute; reflexivity).
  rewrite Hctx, Hid in Hr.
  eexists _, body. split; [exact HS|]. split; [exact Ht|]. split; [|exact Hr].
  assert (Hin : In (EvCall (ReqContainerRemove JobContext "c-old" true))
                  (trace (scenario.stateOf (Start h 5 d) d)))
    by (vm_compute; tauto).
  rewrite Ht in Hin. cbn [In app] in Hin.
  destruct Hin as [Hin|[Hin|Hin]]; [discriminate|discriminate|].
  apply in_app_or in Hin as [Hin|Hin]; [exact Hin|].
  exfalso. revert Hin. vm_compute. intuition discriminate.
Defined.

(** The daemon that knows the job volume: it is reused; the healthy
    daemon lists none: it is created. *)
Lemma initJobVolume_reuses_or_creates_witness :
  let c := scenario.cmd "" in
  (exists d',
     initJobVolume (cases.constructed cases.withVolumes [] c) = Ret tt d' /\
     flowVolume d' = {| types.Name := "flow-flowid" |} /\
     trace d' = [EvCall (ReqVolumeList JobContext "flow-flowid")]) /\
  (exists d',
     initJobVolume (cases.constructed scenario.healthy [] c) = Ret tt d' /\
     flowVolume d' = {| types.Name := "flow-flowid" |} /\
     trace d' = [EvCall (ReqVolumeCreate JobContext "flow-flowid");
                 EvCall (ReqVolumeList JobContext "flow-flowid")]).
Proof.
  intros c. split.
  - destruct (initJobVolume_reuses_or_creates
                (cases.constructed cases.withVolumes [] c) _ eq_refl)
      as (Hreuse & _).
    rewrite (Hreuse {| types.Name := "flow-flowid" |} eq_refl).
    eexists. split; [reflexivity|]. split; reflexivity.
  - destruct (initJobVolume_reuses_or_creates
                (cases.constructed scenario.healthy [] c) _ eq_refl)
      as (_ & Hcreate & _).
    rewrite (Hcreate [] {| types.Name := "flow-flowid" |} eq_refl
               ltac:(discriminate) eq_refl).
    eexists. split; [reflexivity|]. split; reflexivity.
Defined.

(** Init on the healthy daemon returns nil and leaves the executor
    ready; on a host without a daemon it returns the error. *)
Lemma Init_success_is_ready_witness :
  let c := scenario.cmd "" in
  (let h := scenario.host (Ok scenario.healthy) in
   exists d',
     Init h (scenario.fresh c) = Ret None d' /\
     cli d' <> None /\ containerConfig d' <> None /\ hostConfig d' <> None) /\
  (let h := scenario.host (Err (ErrOther "cannot connect")) in
   Init h (scenario.fresh c)
     = Ret (Some (ErrOther "cannot connect")) (set_cli None (scenario.fresh c))).
Proof.
  intros c. split.
  - intros h.
    assert (HI : Init h (scenario.fresh c)
                 = Ret None (scenario.stateOf (Init h (scenario.fresh c))
                               (scenario.fresh c)))
      by (vm_compute; reflexivity).
    eexists. split; [exact HI|].
    exact (proj1 (proj2 (Init_success_is_ready h (scenario.fresh c))) _ HI).
  - intros h.
    exact (proj2 (proj2 (Init_success_is_ready h (scenario.fresh c))) _ eq_refl).
Defined.

(** Of the two declared volumes the daemon knows "cache": the binds are
    the job volume and "cache"; "missing" is skipped. *)
Lemma initConfig_binds_witness :
  let h := scenario.host (Ok cases.withVolumes) in
  let d := cases.constructed cases.withVolumes cases.declared (scenario.cmd "") in
  exists d' hc,
    initConfig h d = Ret tt d' /\
    hostConfig d' = Some hc /\
    types.Binds hc = [":/ws/flowid"; "cache:/cache"] /\
    trace d' = [EvCall (ReqVolumeList JobContext "missing");
                EvCall (ReqVolumeList JobContext "cache")].
Proof.
  intros h d.
  assert (HI : initConfig h d = Ret tt (scenario.stateOf (initConfig h d) d))
    by (vm_compute; reflexivity).
  destruct (initConfig_binds h d _ cases.withVolumes eq_refl HI)
    as (hc & docker & _ & Hh & Hb & _ & Ht).
  eexists _, hc. split; [exact HI|]. split; [exact Hh|].
  split; [rewrite Hb|rewrite Ht]; vm_compute; reflexivity.
Defined.

(** The port parser rejects the descriptor: Init returns its error, and
    Start on that executor ends as Exception with the nil dereference. *)
Lemma Start_after_failed_port_parsing_witness :
  let h := cases.badPorts scenario.healthy in
  let d := scenario.fresh (scenario.cmd "") in
  exists d3 d',
    Init h d = Ret (Some (ErrOther "Invalid containerPort: x")) d3 /\
    containerConfig d3 = None /\
    Start h 5 d3 = Ret (Some ErrNilPointer) d' /\
    domain.Status (CmdResult (base d')) = domain.CmdStatusException.
Proof.
  intros h d.
  set (d2 := scenario.stateOf (initJobVolume (set_cli (Some scenario.healthy) d)) d).
  assert (Hv : initJobVolume (set_cli (Some scenario.healthy) d) = Ret tt d2)
    by (vm_compute; reflexivity).
  destruct (Start_after_failed_port_parsing h 5 d d2 scenario.healthy
              (ErrOther "Invalid containerPort: x") scenario.spec
              eq_refl eq_refl Hv eq_refl eq_refl)
    as (d3 & d' & HI & _ & Hc & HS & Hst & _).
  exists d3, d'. repeat split; assumption.
Defined.

(** The input INPUT_VAR of the test's descriptor is kept beside the two
    agent variables. *)
Lemma initConfig_variables_witness :
  let h := scenario.host (Ok scenario.healthy) in
  let d := cases.constructed scenario.healthy [] (scenario.cmd "") in
  exists d',
    initConfig h d = Ret tt d' /\
    vars (base d') !! "INPUT_VAR" = Some "aaa" /\
    vars (base d') !! domain.VarAgentPluginDir = Some "/ws/.plugins".
Proof.
  intros h d.
  destruct (initConfig_variables h d) as (d' & Hrun & Hp & _ & Hother & _).
  assert (HI : initConfig h d = Ret tt (scenario.stateOf (initConfig h d) d))
    by (vm_compute; reflexivity).
  assert (Hd' : initConfig h d = Ret tt d').
  { destruct Hrun as [Hrun|[e Hrun]]; [exact Hrun|].
    rewrite Hrun in HI. discriminate. }
  exists d'. split; [exact Hd'|]. split; [|exact Hp].
  rewrite (Hother "INPUT_VAR" ltac:(discriminate) ltac:(discriminate)).
  vm_compute. reflexivity.
Defined.

(** The container "c-old" is running: it is only inspected, and the
    fresh container "c-new" is the one recorded. *)
Lemma resume_leaves_a_live_container_alone_witness :
  let h := scenario.host (Ok cases.live) in
  let d := scenario.initialised h (scenario.cmd "c-old") in
  tryToResume d
    = Ret false (emit (EvCall (ReqContainerInspect JobContext "c-old")) d) /\
  exists d',
    startContainer d = Ret tt d' /\
    containerId d' = "c-new" /\
    domain.ContainerId (CmdResult (base d')) = "c-new".
Proof.
  intros h d.
  destruct (resume_leaves_a_live_container_alone d cases.live
              {| types.ID := "c-old"; types.StateStatus := "running" |}
              eq_refl ltac:(discriminate) eq_refl ltac:(discriminate))
    as (Htry & Hfresh).
  split; [exact Htry|].
  destruct (Hfresh "c-new" eq_refl) as (d' & Hs & Hid & Hrid & _).
  exists d'. split; [|split; assumption].
  assert (Hrun : startContainer d = Ret tt (scenario.stateOf (startContainer d) d))
    by (vm_compute; reflexivity).
  destruct Hs as [Hs|[e Hs]]; [exact Hs|]. rewrite Hs in Hrun. discriminate.
Defined.

(** The created container "c-new" does not start: the cleanup removes
    "c-new"; no container can be created: the cleanup is asked for the
    empty id. *)
Lemma start_failure_still_cleans_the_created_container_witness :
  let run k := scenario.run k (scenario.cmd "") 5 in
  (exists r t,
     run cases.startFails = Some (Some (ErrOther "cannot start container"), r, t) /\
     domain.ContainerId r = "c-new" /\
     In (EvCall (ReqContainerRemove JobContext "c-new" true)) t) /\
  (exists r t,
     run cases.createFails = Some (Some (ErrOther "No such image"), r, t) /\
     domain.ContainerId r = "" /\
     In (EvCall (ReqContainerRemove JobContext "" true)) t).
Proof.
  cbv zeta. split.
  - set (h := scenario.host (Ok cases.startFails)).
    set (d := scenario.initialised h (scenario.cmd "")).
    set (d1 := scenario.stateOf ((stdOutWg_Add 2 ≫= fun _ => pullImage) d) d).
    assert (Hpull : (stdOutWg_Add 2 ≫= fun _ => pullImage) d = Ret tt d1)
      by (vm_compute; reflexivity).
    assert (Hspec : domain.Docker (inCmd (base d)) = Some scenario.spec)
      by (vm_compute; reflexivity).
    assert (Hk : cli d1 = Some cases.startFails) by (vm_compute; reflexivity).
    assert (Hnone : domain.CmdIn_ContainerId (inCmd (base d1)) = "")
      by (vm_compute; reflexivity).
    destruct (proj1 (start_failure_still_cleans_the_created_container
                       h 5 d d1 cases.startFails _ Hspec Hpull Hk Hnone)
                "c-new" (ErrOther "cannot start container") eq_refl eq_refl)
      as (d' & HS & Hid & Hrid & Ht).
    assert (Hreal : Start h 5 d = Ret (Some (ErrOther "cannot start container"))
                      (scenario.stateOf (Start h 5 d) d))
      by (vm_compute; reflexivity).
    rewrite Hreal in HS. apply Ret_inj in HS as [_ HS]. subst d'.
    unfold scenario.run. fold h d. rewrite Hreal.
    eexists _, _. split; [reflexivity|]. split; [exact Hrid|].
    vm_compute. tauto.
  - set (h := scenario.host (Ok cases.createFails)).
    set (d := scenario.initialised h (scenario.cmd "")).
    set (d1 := scenario.stateOf ((stdOutWg_Add 2 ≫= fun _ => pullImage) d) d).
    assert (Hpull : (stdOutWg_Add 2 ≫= fun _ => pullImage) d = Ret tt d1)
      by (vm_compute; reflexivity).
    assert (Hspec : domain.Docker (inCmd (base d)) = Some scenario.spec)
      by (vm_compute; reflexivity).
    assert (Hk : cli d1 = Some cases.createFails) by (vm_compute; reflexivity).
    assert (Hnone : domain.CmdIn_ContainerId (inCmd (base d1)) = "")
      by (vm_compute; reflexivity).
    destruct (proj2 (start_failure_still_cleans_the_created_container
                       h 5 d d1 cases.createFails _ Hspec Hpull Hk Hnone)
                (ErrOther "No such image") eq_refl)
      as (d' & HS & Hid & Hrid & Ht).
    assert (Hreal : Start h 5 d = Ret (Some (ErrOther "No such image"))
                      (scenario.stateOf (Start h 5 d) d))
      by (vm_compute; reflexivity).
    rewrite Hreal in HS. apply Ret_inj in HS as [_ HS]. subst d'.
    unfold scenario.run. fold h d. rewrite Hreal.
    eexists _, _. split; [reflexivity|]. split; [vm_compute; reflexivity|].
    vm_compute. tauto.
Defined.

(** The descriptor names the exited container "c-old", which restarts:
    the pull is still the first request. *)
Lemma Start_pulls_the_image_first_witness :
  let h := scenario.host (Ok scenario.resumable) in
  let d := scenario.initialised h (scenario.cmd "c-old") in
  exists d' later,
    Start h 5 d = Ret None d' /\
    trace d'
      = later ++ EvCall (ReqImagePull JobContext "docker.io/library/ubuntu:18.04")
          :: EvWgAdd 2 :: trace d.
Proof.
  intros h d.
  set (config :=
         default {| types.Image := ""; types.Env := []; types.Entrypoint := [];
                    types.ExposedPorts := ∅; types.Tty := false;
                    types.AttachStdin := true; types.AttachStderr := true;
                    types.AttachStdout := true; types.OpenStdin := true;
                    types.StdinOnce := true; types.WorkingDir := "" |}
           (containerConfig d)).
  assert (Hk : cli d = Some scenario.resumable) by (vm_compute; reflexivity).
  assert (Hc : containerConfig d = Some config) by (vm_compute; reflexivity).
  assert (HS : Start h 5 d = Ret None (scenario.stateOf (Start h 5 d) d))
    by (vm_compute; reflexivity).
  pose proof (Start_pulls_the_image_first h 5 d _ scenario.resumable config None
                Hk Hc HS) as H.
  cbv zeta in H. destruct H as (later & Ht).
  eexists _, later. split; [exact HS|].
  vm_compute in Ht |- *. exact Ht.
Defined.

(** The pull is denied: the run ends with that error, the cleanup is
    asked for the empty id. *)
Lemma pull_failure_ends_the_run_witness :
  let h := scenario.host (Ok scenario.pullDenied) in
  let d := scenario.initialised h (scenario.cmd "") in
  exists d',
    Start h 5 d = Ret (Some (ErrOther "pull access denied")) d' /\
    containerId d' = "" /\
    trace d'
      = EvCloseChannels
          :: EvCall (ReqContainerRemove JobContext "" true)
          :: EvCall (ReqImagePull JobContext "docker.io/library/ubuntu:18.04")
          :: EvWgAdd 2 :: trace d.
Proof.
  intros h d.
  set (config :=
         default {| types.Image := ""; types.Env := []; types.Entrypoint := [];
                    types.ExposedPorts := ∅; types.Tty := false;
                    types.AttachStdin := true; types.AttachStderr := true;
                    types.AttachStdout := true; types.OpenStdin := true;
                    types.StdinOnce := true; types.WorkingDir := "" |}
           (containerConfig d)).
  assert (Hk : cli d = Some scenario.pullDenied) by (vm_compute; reflexivity).
  assert (Hc : containerConfig d = Some config) by (vm_compute; reflexivity).
  assert (Hp : client.ImagePull scenario.pullDenied (EvWgAdd 2 :: trace d)
                 (context (base d))
                 (if Contains (types.Image config) "/"
                  then "docker.io/" +:+ types.Image config
                  else "docker.io/library/" +:+ types.Image config)
               = Err (ErrOther "pull access denied"))
    by (vm_compute; reflexivity).
  assert (Hspec : domain.Docker (inCmd (base d)) = Some scenario.spec)
    by (vm_compute; reflexivity).
  pose proof (pull_failure_ends_the_run h 5 d scenario.pullDenied config
                (ErrOther "pull access denied") _ Hspec Hk Hc Hp) as H.
  cbv zeta in H. destruct H as (d' & HS & Hid & Ht).
  assert (Hreal : Start h 5 d = Ret (Some (ErrOther "pull access denied"))
                    (scenario.stateOf (Start h 5 d) d))
    by (vm_compute; reflexivity).
  rewrite Hreal in HS. apply Ret_inj in HS as [_ HS]. subst d'.
  eexists. split; [exact Hreal|]. split.
  - rewrite Hid. vm_compute. reflexivity.
  - rewrite Ht. vm_compute. reflexivity.
Defined.

(** The session "exec-1" is running at the first two inspections and
    has exited with 0 at the third. *)
Lemma waitForExit_returns_the_last_inspection_witness :
  let h := scenario.host (Ok scenario.healthy) in
  let d := scenario.initialised h (scenario.cmd "") in
  let inspectEv := EvCall (ReqContainerExecInspect JobContext "exec-1") in
  exists d' polls,
    waitForExit h 5 "exec-1" d = Ret 0 d' /\
    domain.ProcessId (CmdResult (base d')) = 42 /\
    trace d' = inspectEv :: polls ++ inspectEv :: trace d /\
    Forall (fun ev => ev = EvSleep (1 * Second) \/ ev = inspectEv) polls.
Proof.
  intros h d inspectEv.
  assert (HW : waitForExit h 5 "exec-1" d
               = Ret 0 (scenario.stateOf (waitForExit h 5 "exec-1" d) d))
    by (vm_compute; reflexivity).
  assert (Hctx : context (base d) = JobContext) by (vm_compute; reflexivity).
  pose proof (waitForExit_returns_the_last_inspection h 5 "exec-1" d _ 0 HW) as H.
  cbv zeta in H.
  destruct H as (k & first & last & polls & _ & _ & _ & Ht & _ & _ & _ & Hall).
  rewrite Hctx in Ht, Hall.
  eexists _, polls. split; [exact HW|].
  split; [vm_compute; reflexivity|]. split; [exact Ht | exact Hall].
Defined.

(** On the healthy daemon both ids are "c-new" when Start returns. *)
Lemma Start_keeps_the_container_ids_in_step_witness :
  let h := scenario.host (Ok scenario.healthy) in
  let d := scenario.initialised h (scenario.cmd "") in
  exists d',
    Start h 5 d = Ret None d' /\
    domain.ContainerId (CmdResult (base d')) = "c-new" /\
    containerId d' = "c-new".
Proof.
  intros h d.
  assert (H0 : domain.ContainerId (CmdResult (base d)) = containerId d)
    by (vm_compute; reflexivity).
  assert (HS : Start h 5 d = Ret None (scenario.stateOf (Start h 5 d) d))
    by (vm_compute; reflexivity).
  pose proof (Start_keeps_the_container_ids_in_step h 5 d _ None H0 HS) as Heq.
  eexists. split; [exact HS|]. split; [rewrite Heq|]; vm_compute; reflexivity.
Defined.

(* ================================================================== *)
(** ** Package dao, run                                                *)
(* ================================================================== *)

(** The tables that know the ASCII letters only are as asciiCase says. *)
Lemma asciiOnly_asciiCase : asciiCase asciiOnly.
Proof. intros r _. cbn. repeat split. Qed.

(** isASCII is decided byte by byte. *)
Lemma isASCII_check (v : string) :
  forallb (fun c => runeOfByte c <? 128) (list_ascii_of_string v) = true ->
  isASCII v.
Proof.
  unfold isASCII. rewrite forallb_forall, List.Forall_forall.
  intros H c Hc. apply Z.ltb_lt. now apply H.
Qed.

(** The camel-case name of dao_test.go. *)
Lemma flatCamelString_is_snake_case_witness :
  flatCamelString asciiOnly "MockSubEntity" = "mock_sub_entity".
Proof.
  rewrite (flatCamelString_is_snake_case asciiOnly asciiOnly_asciiCase
             "MockSubEntity").
  - vm_compute. reflexivity.
  - apply isASCII_check. vm_compute. reflexivity.
Defined.

(** Applying flatCamelString twice to "MockSubEntity" is applying it
    once, and "mock" stays "mock". *)
Lemma flatCamelString_lowers_and_is_idempotent_witness :
  flatCamelString asciiOnly (flatCamelString asciiOnly "MockSubEntity")
    = flatCamelString asciiOnly "MockSubEntity" /\
  flatCamelString asciiOnly "mock" = "mock".
Proof.
  split.
  - apply (flatCamelString_lowers_and_is_idempotent asciiOnly asciiOnly_asciiCase
             "MockSubEntity").
    apply isASCII_check. vm_compute. reflexivity.
  - apply (flatCamelString_lowers_and_is_idempotent asciiOnly asciiOnly_asciiCase
             "mock").
    + apply isASCII_check. vm_compute. reflexivity.
    + cbn. repeat constructor.
Defined.

(** "MockSubEntity" has 13 bytes and two upper-case letters after the
    first: its snake case has 15. *)
Lemma flatCamelString_length_witness :
  String.length (flatCamelString asciiOnly "MockSubEntity") = (13 + 2)%nat.
Proof.
  rewrite (flatCamelString_length asciiOnly asciiOnly_asciiCase "MockSubEntity").
  - reflexivity.
  - apply isASCII_check. vm_compute. reflexivity.
Defined.

(** The empty string panics; "name" becomes "Name", which
    flatCamelString takes back to "name". *)
Lemma capitalFirstChar_behaviour_witness :
  capitalFirstChar asciiOnly "" = None /\
  capitalFirstChar asciiOnly "name" = Some "Name" /\
  flatCamelString asciiOnly "Name" = flatCamelString asciiOnly "name".
Proof.
  pose proof (capitalFirstChar_behaviour asciiOnly asciiOnly_asciiCase "")
    as [He _].
  pose proof (capitalFirstChar_behaviour asciiOnly asciiOnly_asciiCase "name")
    as [_ Hn].
  split; [apply He; reflexivity|].
  assert (Hc : capitalFirstChar asciiOnly "name" = Some "Name")
    by (vm_compute; reflexivity).
  split; [exact Hc|].
  destruct (Hn "Name" Hc) as (_ & _ & Hasc). apply Hasc.
  apply isASCII_check. vm_compute. reflexivity.
Defined.

(** The two bytes 195, 169 (e with acute accent, U+00E9) come out as
    the single byte 233. *)
Lemma flatCamelString_truncates_two_byte_runes_witness :
  flatCamelString asciiOnly
    (String (ascii_of_nat 195) (String (ascii_of_nat 169) ""))
    = String (ascii_of_nat 233) "".
Proof.
  assert (H0 : 194 <= runeOfByte (ascii_of_nat 195) <= 223) by (split; vm_compute; discriminate).
  assert (H1 : 128 <= runeOfByte (ascii_of_nat 169) <= 191) by (split; vm_compute; discriminate).
  rewrite (flatCamelString_truncates_two_byte_runes asciiOnly _ _ H0 H1 eq_refl).
  vm_compute. reflexivity.
Defined.
